(** * Task-assignment REST service (Backend/server.js): model and properties

    The development embeds the two server variants found in
    [Backend/server.js]:

    - the regular expressions of the validation layer, through a small
      backtracking matcher ([Regex]);
    - the values of a request body with JavaScript truthiness and string
      coercion ([Js]);
    - [Buffer.prototype.toString] (UTF-8 decoding) and the content-type
      sniff of [GET /api/task-history/:id/file];
    - what the database driver sends for a value ([Driver]) and what the
      columns of the schema take: texts without NUL, [VARCHAR(n)],
      [INTEGER] keys and the [SERIAL] sequence ([Pg]); the reading and
      printing of dates, and whether a refused row uses up a serial value,
      are left to an [Engine];
    - the headers Express and Node write ([Express]);
    - the relational store (tables [employees], [tasks], [task_history]) and
      the statements the handlers send to it ([Store]);
    - the request handlers of the first variant ([Server]) and the schema
      initializer of the second one ([ServerV2]);
    - the start-up sequence with its retry loop;
    - the upload filter and the error middleware ([Upload]), the layers of
      the application in the order they are registered ([App]), the API of
      the first variant as one step function ([Api]), the schema scripts
      [init.sql] and [sql.sql] ([InitSql], [SqlSql]), and the routes of the
      second variant ([RoutesV2], with [Whitespace] for its file names).

    Strings are modelled by their UTF-8 bytes ([string]); every character
    class in the program's regular expressions is a set of ASCII characters,
    so matching bytes and matching UTF-16 code units agree.  The examples
    run on an engine that reads dates written [YYYY-MM-DD] ([Sample]). *)

From Stdlib Require Import ZArith List String Ascii Bool Lia.
From Stdlib Require Import Permutation Sorted DecimalString.
From Stdlib Require Import Strings.Byte.
From Stdlib Require DecimalPos.
Import ListNotations.

Local Open Scope string_scope.
Local Open Scope list_scope.

(* ================================================================== *)
(** * Regular expressions *)

Module Regex.

(** One item of a character class: a single character or a range. *)
Inductive cls_item : Type :=
| One (c : ascii)
| Range (lo hi : ascii).

Definition in_item (c : ascii) (i : cls_item) : bool :=
  match i with
  | One d => Ascii.eqb c d
  | Range lo hi =>
      (N_of_ascii lo <=? N_of_ascii c)%N && (N_of_ascii c <=? N_of_ascii hi)%N
  end.

Definition in_cls (items : list cls_item) (c : ascii) : bool :=
  existsb (in_item c) items.

(** The fragment of the JavaScript regular-expression syntax that the
    program uses.  [Bol] and [Eol] are [^] and [$] without the [m] flag:
    start and end of the whole input. *)
Inductive re : Type :=
| Eps
| Bol
| Eol
| Lit (c : ascii)
| Cls (items : list cls_item)
| Seq (a b : re)
| StarCls (items : list cls_item)
| NegLook (a : re).

(** [r{n}] *)
Fixpoint rep (n : nat) (r : re) : re :=
  match n with
  | O => Eps
  | S n' => Seq r (rep n' r)
  end.

(** A literal run of characters. *)
Fixpoint lits (s : string) : re :=
  match s with
  | EmptyString => Eps
  | String c s' => Seq (Lit c) (lits s')
  end.

Fixpoint seqs (rs : list re) : re :=
  match rs with
  | [] => Eps
  | r :: rs' => Seq r (seqs rs')
  end.

(** Continuations receive the position reached and the rest of the input. *)
Definition cont : Type := nat -> string -> bool.

(** Greedy [[...]*] with backtracking: take one more character when the
    class allows it, otherwise (or when the continuation then fails) stop
    here. *)
Fixpoint star_cls (p : ascii -> bool) (k : cont) (pos : nat) (s : string)
  : bool :=
  match s with
  | String c s' => (p c && star_cls p k (S pos) s') || k pos s
  | EmptyString => k pos s
  end.

Fixpoint m (r : re) (k : cont) (pos : nat) (s : string) : bool :=
  match r with
  | Eps => k pos s
  | Bol => Nat.eqb pos 0 && k pos s
  | Eol => match s with EmptyString => k pos s | String _ _ => false end
  | Lit c =>
      match s with
      | String d s' => Ascii.eqb d c && k (S pos) s'
      | EmptyString => false
      end
  | Cls items =>
      match s with
      | String d s' => in_cls items d && k (S pos) s'
      | EmptyString => false
      end
  | Seq a b => m a (m b k) pos s
  | StarCls items => star_cls (in_cls items) k pos s
  | NegLook a => negb (m a (fun _ _ => true) pos s) && k pos s
  end.

(** A match may start at any position of the input. *)
Fixpoint search (r : re) (pos : nat) (s : string) : bool :=
  m r (fun _ _ => true) pos s
  || match s with
     | String _ s' => search r (S pos) s'
     | EmptyString => false
     end.

(** [RegExp.prototype.test] of a regular expression without flags. *)
Definition test (r : re) (s : string) : bool := search r 0 s.

End Regex.

Import Regex.

(** [/^[ATS]{3}0(?!000)[0-9]{3}$/] (employee lookup). *)
Definition empIdLookupRe : re :=
  seqs [ Bol;
         rep 3 (Cls [One "A"; One "T"; One "S"]);
         Lit "0";
         NegLook (lits "000");
         rep 3 (Cls [Range "0" "9"]);
         Eol ]%char.

(** [/^ATS0\d{3}$/] (task creation and listing, task history). *)
Definition empIdRe : re :=
  seqs [ Bol; lits "ATS0"; rep 3 (Cls [Range "0" "9"]); Eol ]%char.

(** [/^[a-zA-Z][a-zA-Z0-9._-]*[a-zA-Z0-9]@astrolitetech\.com$/] *)
Definition emailRe : re :=
  seqs [ Bol;
         Cls [Range "a" "z"; Range "A" "Z"];
         StarCls [Range "a" "z"; Range "A" "Z"; Range "0" "9";
                  One "."; One "_"; One "-"];
         Cls [Range "a" "z"; Range "A" "Z"; Range "0" "9"];
         lits "@astrolitetech";
         Lit ".";
         lits "com";
         Eol ]%char.

(** [/^[\x00-\x7F]*$/] *)
Definition asciiRe : re :=
  seqs [ Bol; StarCls [Range "000" "127"]; Eol ]%char.

(* ================================================================== *)
(** * JavaScript values of a request body *)

Module Js.

(** Values a parsed JSON body (or a multipart form) gives to a field;
    [Undefined] is an absent field.

    A number is given by the text [Number.prototype.toString] prints for
    it: [0] for both zeros, [1e+21], [9007199254740992], [1.5],
    [Infinity].  An array is the list of its items.  A plain object is given
    by its JSON text ([JSON.stringify]).  An object with an entry named
    [toString], whose conversion to a string throws, is left out. *)
#[warnings="-register-all"] Inductive value : Type :=
| Undefined
| Null
| Bool (b : bool)
| Num (digits : string)
| Str (s : string)
| Arr (items : list value)
| Obj (json : string).

(** ToBoolean *)
Definition truthy (v : value) : bool :=
  match v with
  | Undefined | Null => false
  | Bool b => b
  | Num digits => negb (String.eqb digits "0" || String.eqb digits "NaN")
  | Str s => negb (String.eqb s "")
  | Arr _ | Obj _ => true
  end.

(** ToString.  An array is joined with commas ([Array.prototype.join]); an
    item that is [null] or [undefined] gives the empty string. *)
Fixpoint ToString (v : value) : string :=
  match v with
  | Undefined => "undefined"
  | Null => "null"
  | Bool true => "true"
  | Bool false => "false"
  | Num digits => digits
  | Str s => s
  | Arr items =>
      (fix join (l : list value) : string :=
         match l with
         | [] => ""
         | x :: l' =>
             (match x with
              | Undefined | Null => ""
              | _ => ToString x
              end
              ++ match l' with
                 | [] => ""
                 | _ :: _ => "," ++ join l'
                 end)%string
         end) items
  | Obj _ => "[object Object]"
  end.

(** [a || b] *)
Definition or (a b : value) : value := if truthy a then a else b.

(** [re.test(v)]: the argument is coerced to a string first. *)
Definition test (r : re) (v : value) : bool := Regex.test r (ToString v).

(** The text of an integer, as [toString] prints [Date.now()]. *)
Definition decimal (z : Z) : string := NilZero.string_of_int (Z.to_int z).

End Js.

(* ================================================================== *)
(** * Buffers *)

Definition Buffer : Type := list byte.

(** [buf[i]]: the byte as a number, [None] for [undefined]. *)
Definition index (buf : Buffer) (i : nat) : option N :=
  option_map Byte.to_N (nth_error buf i).

(** [buf[i] === n] *)
Definition index_is (buf : Buffer) (i : nat) (n : N) : bool :=
  match index buf i with
  | Some b => N.eqb b n
  | None => false
  end.

(** [buf.slice(0, n)] *)
Definition slice0 (n : nat) (buf : Buffer) : Buffer := firstn n buf.

Module Utf8.

(** State of the decoder between two bytes: the bytes of the sequence
    being read, how many continuation bytes are still needed, and the
    range allowed for the next one. *)
Record state : Type := mkState {
  pending : list byte;
  needed : nat;
  lower : N;
  upper : N
}.

Definition init : state := mkState [] 0 0x80 0xBF.

(** U+FFFD, as UTF-8. *)
Definition replacement : string :=
  String (ascii_of_byte xef)
    (String (ascii_of_byte xbf) (String (ascii_of_byte xbd) EmptyString)).

Fixpoint chars (bs : list byte) : string :=
  match bs with
  | [] => EmptyString
  | b :: bs' => String (ascii_of_byte b) (chars bs')
  end.

Definition within (lo hi n : N) : bool := ((lo <=? n) && (n <=? hi))%N.

(** A byte read when no sequence is open. *)
Definition lead (b : byte) : string * state :=
  let n := Byte.to_N b in
  if (n <=? 0x7F)%N then (chars [b], init)
  else if within 0xC2 0xDF n then (EmptyString, mkState [b] 1 0x80 0xBF)
  else if within 0xE0 0xEF n then
    (EmptyString,
     mkState [b] 2 (if (n =? 0xE0)%N then 0xA0 else 0x80)
                   (if (n =? 0xED)%N then 0x9F else 0xBF))
  else if within 0xF0 0xF4 n then
    (EmptyString,
     mkState [b] 3 (if (n =? 0xF0)%N then 0x90 else 0x80)
                   (if (n =? 0xF4)%N then 0x8F else 0xBF))
  else (replacement, init).

(** One byte of input: the characters produced and the next state.  A byte
    that cannot continue the open sequence closes it with U+FFFD and is
    read again as a first byte. *)
Definition step (st : state) (b : byte) : string * state :=
  match needed st with
  | O => lead b
  | S n' =>
      if within (lower st) (upper st) (Byte.to_N b) then
        match n' with
        | O => (chars (pending st ++ [b]), init)
        | S _ => (EmptyString, mkState (pending st ++ [b]) n' 0x80 0xBF)
        end
      else
        let '(out, st') := lead b in ((replacement ++ out)%string, st')
  end.

Fixpoint decode_from (st : state) (bs : list byte) : string :=
  match bs with
  | [] => match needed st with O => EmptyString | S _ => replacement end
  | b :: bs' =>
      let '(out, st') := step st b in (out ++ decode_from st' bs')%string
  end.

(** [buf.toString()] (UTF-8 is the default encoding). *)
Definition toString (buf : Buffer) : string := decode_from init buf.

End Utf8.

(** The content-type sniff of [GET /api/task-history/:id/file]. *)
Definition sniffContentType (fileBuffer : Buffer) : string :=
  if (4 <? List.length fileBuffer)%nat then
    if index_is fileBuffer 0 0x25 && index_is fileBuffer 1 0x50
       && index_is fileBuffer 2 0x44 && index_is fileBuffer 3 0x46
    then "application/pdf"
    else if index_is fileBuffer 0 0x89 && index_is fileBuffer 1 0x50
            && index_is fileBuffer 2 0x4E && index_is fileBuffer 3 0x47
    then "image/png"
    else if index_is fileBuffer 0 0xFF && index_is fileBuffer 1 0xD8
            && index_is fileBuffer 2 0xFF
    then "image/jpeg"
    else if Regex.test asciiRe (Utf8.toString (slice0 100 fileBuffer))
    then "text/plain"
    else "application/octet-stream"
  else "application/octet-stream".

(** Two byte sequences are equal. *)
Definition bytes_eqb (a b : list byte) : bool :=
  ((List.length a =? List.length b)%nat
   && forallb (fun p => Byte.eqb (fst p) (snd p)) (combine a b)).

(** A byte in 0x00-0x7F. *)
Definition is_ascii_byte (b : byte) : bool := (Byte.to_N b <=? 0x7F)%N.

(** The sniffer as the specification words it: five steps, the first that
    applies wins. *)
Definition sniff_spec (blob : Buffer) : string :=
  if (4 <? List.length blob)%nat && bytes_eqb (firstn 4 blob) [x25; x50; x44; x46]
  then "application/pdf"
  else if bytes_eqb (firstn 4 blob) [x89; x50; x4e; x47]
  then "image/png"
  else if bytes_eqb (firstn 3 blob) [xff; xd8; xff]
  then "image/jpeg"
  else if forallb is_ascii_byte (firstn 100 blob)
  then "text/plain"
  else "application/octet-stream".

(* ================================================================== *)
(** * The driver, the database engine and the HTTP layer

    The program leaves these to its libraries: [pg] turns the values of a
    parameter array into texts, PostgreSQL 14 ([docker-compose.yml]) reads
    the texts into the column types that the program's [CREATE TABLE]
    statements declare, and Express and Node write the headers. *)

Module Driver.

(** The double quote and the backslash. *)
Definition dquote : ascii := "034"%char.
Definition backslash : ascii := "092"%char.

(** [escapeElement]: backslashes and double quotes get a backslash, and the
    whole is put between double quotes. *)
Fixpoint escaped (s : string) : string :=
  match s with
  | EmptyString => EmptyString
  | String c r =>
      if Ascii.eqb c backslash || Ascii.eqb c dquote
      then String backslash (String c (escaped r))
      else String c (escaped r)
  end.

Definition escapeElement (s : string) : string :=
  String dquote (escaped s ++ String dquote EmptyString).

(** The text [prepareValue] gives a value that is neither [null] nor
    [undefined]: [toString()] for a boolean, a number and a string, an
    array literal for an array ([arrayString]: items between braces,
    [NULL] for a null item, nested arrays as they are, everything else
    escaped), the JSON text for an object. *)
Fixpoint text (v : Js.value) : string :=
  match v with
  | Js.Undefined | Js.Null => EmptyString
  | Js.Bool _ | Js.Num _ | Js.Str _ => Js.ToString v
  | Js.Arr items =>
      ("{"
       ++ (fix elements (first : bool) (l : list Js.value) : string :=
             match l with
             | [] => ""
             | x :: l' =>
                 (if first then "" else ",")
                 ++ match x with
                    | Js.Undefined | Js.Null => "NULL"
                    | Js.Arr _ => text x
                    | _ => escapeElement (text x)
                    end
                 ++ elements false l'
             end) true items
       ++ "}")%string
  | Js.Obj json => json
  end.

(** [prepareValue]: [None] is SQL NULL. *)
Definition prepareValue (v : Js.value) : option string :=
  match v with
  | Js.Undefined | Js.Null => None
  | _ => Some (text v)
  end.

End Driver.

Module Pg.

(** Every character of the string passes the test. *)
Fixpoint every (p : ascii -> bool) (s : string) : bool :=
  match s with
  | EmptyString => true
  | String c r => p c && every p r
  end.

(** A text parameter is refused when it holds a NUL character. *)
Definition text_ok (s : string) : bool :=
  every (fun c => negb (N_of_ascii c =? 0)%N) s.

(** A byte that continues a UTF-8 sequence. *)
Definition is_continuation (c : ascii) : bool :=
  ((0x80 <=? N_of_ascii c) && (N_of_ascii c <=? 0xBF))%N.

(** Number of characters of a text in UTF-8. *)
Fixpoint char_length (s : string) : nat :=
  match s with
  | EmptyString => 0
  | String c r =>
      if is_continuation c then char_length r else S (char_length r)
  end.

(** The first [n] characters of a text, and what follows them. *)
Fixpoint clip (n : nat) (s : string) : string * string :=
  match s with
  | EmptyString => (EmptyString, EmptyString)
  | String c r =>
      if is_continuation c then
        let '(a, b) := clip n r in (String c a, b)
      else
        match n with
        | O => (EmptyString, s)
        | S n' => let '(a, b) := clip n' r in (String c a, b)
        end
  end.

Definition is_blank (c : ascii) : bool := Ascii.eqb c " ".

(** A value stored in a [VARCHAR(n)] column: a text of more than [n]
    characters is refused ([None]) unless the characters in excess are all
    spaces, which are then cut off. *)
Definition varchar (n : nat) (s : string) : option string :=
  let '(kept, excess) := clip n s in
  if every is_blank excess then Some kept else None.

(** [isspace] *)
Definition is_space (c : ascii) : bool :=
  ((N_of_ascii c =? 0x20) || ((0x09 <=? N_of_ascii c) && (N_of_ascii c <=? 0x0D)))%N.

Definition is_digit (c : ascii) : bool :=
  ((0x30 <=? N_of_ascii c) && (N_of_ascii c <=? 0x39))%N.

Fixpoint skip_spaces (s : string) : string :=
  match s with
  | EmptyString => s
  | String c r => if is_space c then skip_spaces r else s
  end.

(** The digits at the head of a string, and what follows them. *)
Fixpoint span_digits (s : string) : string * string :=
  match s with
  | EmptyString => (EmptyString, EmptyString)
  | String c r =>
      if is_digit c then let '(ds, rest) := span_digits r in (String c ds, rest)
      else (EmptyString, s)
  end.

(** The input function of [integer] ([int4in]): white space, an optional
    sign, at least one digit, white space; [None] for a text of another
    shape or a number outside -2147483648 .. 2147483647. *)
Definition int4_in (s : string) : option Z :=
  let s1 := skip_spaces s in
  let '(negative, s2) :=
    match s1 with
    | String c r =>
        if Ascii.eqb c "-" then (true, r)
        else if Ascii.eqb c "+" then (false, r)
        else (false, s1)
    | EmptyString => (false, s1)
    end in
  let '(ds, rest) := span_digits s2 in
  match ds, NilEmpty.uint_of_string ds with
  | String _ _, Some u =>
      if every is_space rest then
        let v := if negative then (- Z.of_uint u)%Z else Z.of_uint u in
        if ((-2147483648 <=? v) && (v <=? 2147483647))%Z then Some v else None
      else None
  | _, _ => None
  end.

(** The last value of the sequence behind a [SERIAL] column; the first
    is 1. *)
Definition serial_max : Z := 2147483647.

End Pg.

(** What the program cannot tell from its own text.  [date_in] is the input
    function of [DATE]: the date a text stands for, in the engine's own
    encoding ([None] for a text that is no date); the program never
    computes with it.  [date_out] is the value of the field in a JSON
    reply, after the driver has read the column and [JSON.stringify] has
    written it.  [draws_first] tells whether the next value of a serial
    column has been drawn by the time a value is refused for its width. *)
Class Engine : Type := {
  date_in : string -> option Z;
  date_out : Z -> Js.value;
  draws_first : bool
}.

Module Express.

(** [res.set('Content-Type', value)], for a value without parameters: a
    textual type gets a charset. *)
Definition content_type (value : string) : string :=
  if String.prefix "text/" value
     || String.prefix "application/javascript" value
     || String.prefix "application/json" value
  then (value ++ "; charset=utf-8")%string
  else value.

(** Whether [res.setHeader] takes the value: Node refuses a value with a
    character other than the tab, U+0020 to U+007E and U+0080 to U+00FF.
    In UTF-8 the latter are the two-byte sequences that start with C2
    or C3. *)
Fixpoint header_ok (value : string) : bool :=
  match value with
  | EmptyString => true
  | String c r =>
      let n := N_of_ascii c in
      if ((n =? 0x09) || ((0x20 <=? n) && (n <=? 0x7E)))%N then header_ok r
      else if ((n =? 0xC2) || (n =? 0xC3))%N then
        match r with
        | String d r' => Pg.is_continuation d && header_ok r'
        | EmptyString => false
        end
      else false
  end.

End Express.

(* ================================================================== *)
(** * The relational store *)

Module Task.
(** A row of [tasks].  The two [DATE] columns hold dates as the engine
    encodes them. *)
Record row : Type := mkRow {
  id : string;
  task_name : string;
  employee_name : string;
  employee_id : string;
  email : string;
  task_description : string;
  allocated_date : Z;
  deadline : Z;
  status : string;
  created_at : Z
}.
End Task.

Module History.
(** A row of [task_history]; [upload_doc] is [None] for SQL NULL. *)
Record row : Type := mkRow {
  id : Z;
  task_name : string;
  employee_name : string;
  employee_id : string;
  email : string;
  description : string;
  upload_doc : option Buffer;
  task_status : string;
  allocated_time : Z
}.

(** What the handlers select: every column but the blob, and
    [upload_doc IS NOT NULL AS has_file]. *)
Record view : Type := mkView {
  v_id : Z;
  v_task_name : string;
  v_employee_name : string;
  v_employee_id : string;
  v_email : string;
  v_description : string;
  v_task_status : string;
  v_allocated_time : Z;
  has_file : bool
}.

Definition is_not_null (doc : option Buffer) : bool :=
  match doc with Some _ => true | None => false end.

Definition view_of (r : row) : view :=
  mkView (id r) (task_name r) (employee_name r) (employee_id r) (email r)
         (description r) (task_status r) (allocated_time r)
         (is_not_null (upload_doc r)).
End History.

Module Employee.
Record row : Type := mkRow {
  emp_id : string;
  name : string;
  email : string;
  department : string
}.
End Employee.

Module Store.

(** A column definition: its name and the rest of its declaration. *)
Definition column : Type := (string * string)%type.

(** A table: its columns, its rows in insertion order, and the next value
    of its serial column (unused by tables without one). *)
Record table (R : Type) : Type := mkTable {
  tbl_columns : list column;
  tbl_rows : list R;
  tbl_serial : Z
}.
Arguments mkTable {R} _ _ _.
Arguments tbl_columns {R} _.
Arguments tbl_rows {R} _.
Arguments tbl_serial {R} _.

(** [CREATE TABLE IF NOT EXISTS]: an existing table is left as it is,
    whatever its columns. *)
Definition create_table_if_not_exists {R : Type} (cols : list column)
    (t : option (table R)) : option (table R) :=
  match t with
  | Some _ => t
  | None => Some (mkTable cols [] 1%Z)
  end.

(** [DROP TABLE IF EXISTS] *)
Definition drop_table_if_exists {R : Type} (t : option (table R))
  : option (table R) := None.

(** The database of the first variant; [None] is a table that does not
    exist. *)
Record db : Type := mkDb {
  employees : option (table Employee.row);
  tasks : option (table Task.row);
  task_history : option (table History.row)
}.

Definition empty : db := mkDb None None None.

(** [ORDER BY key DESC], by insertion. *)
Fixpoint insert_desc {R : Type} (key : R -> Z) (x : R) (l : list R)
  : list R :=
  match l with
  | [] => [x]
  | y :: l' =>
      if (key y <=? key x)%Z then x :: l else y :: insert_desc key x l'
  end.

Definition order_by_desc {R : Type} (key : R -> Z) (l : list R) : list R :=
  fold_right (insert_desc key) [] l.

(** Outcome of [pool.query]: [None] when the promise is rejected.  [up]
    tells whether the pool reaches the server at all. *)
Definition run {A : Type} (up : bool) (q : option A) : option A :=
  if up then q else None.

(** An error ends the statement. *)
Definition and_then {A B : Type} (x : option A) (f : A -> option B)
  : option B :=
  match x with
  | Some a => f a
  | None => None
  end.

Notation "x <- e ;; k" := (and_then e (fun x => k))
  (at level 61, e at next level, right associativity).

(** [SELECT * FROM employees WHERE emp_id = $1] *)
Definition select_employee (empId : string) (d : db)
  : option (list Employee.row) :=
  if Pg.text_ok empId then
    option_map
      (fun t => filter (fun r => String.eqb (Employee.emp_id r) empId)
                       (tbl_rows t))
      (employees d)
  else None.

(** [SELECT * FROM tasks ORDER BY created_at DESC] *)
Definition select_tasks (d : db) : option (list Task.row) :=
  option_map (fun t => order_by_desc Task.created_at (tbl_rows t)) (tasks d).

(** [SELECT * FROM tasks WHERE employee_id = $1 ORDER BY created_at DESC] *)
Definition select_tasks_of (employeeId : string) (d : db)
  : option (list Task.row) :=
  if Pg.text_ok employeeId then
    option_map
      (fun t =>
         order_by_desc Task.created_at
           (filter (fun r => String.eqb (Task.employee_id r) employeeId)
                   (tbl_rows t)))
      (tasks d)
  else None.

(** [SELECT * FROM tasks WHERE id = $1] *)
Definition select_task (id : string) (d : db) : option (list Task.row) :=
  if Pg.text_ok id then
    option_map
      (fun t => filter (fun r => String.eqb (Task.id r) id) (tbl_rows t))
      (tasks d)
  else None.

(** What a [VARCHAR(n) NOT NULL] column keeps of a parameter; [None] when
    the statement fails on it. *)
Definition varchar_column (n : nat) (p : option string) : option string :=
  s <- p ;; if Pg.text_ok s then Pg.varchar n s else None.

(** The same for a [TEXT NOT NULL] column. *)
Definition text_column (p : option string) : option string :=
  s <- p ;; if Pg.text_ok s then Some s else None.

Section WithEngine.
Context {E : Engine}.

(** The same for a [DATE NOT NULL] column. *)
Definition date_column (p : option string) : option Z :=
  s <- p ;; if Pg.text_ok s then date_in s else None.

(** The row that the [INSERT] into [tasks] builds from its nine parameters
    and the clock, with the column types of the program's
    [CREATE TABLE tasks]. *)
Definition task_row
    (id task_name employee_name employee_id email task_description
     allocated_date deadline status : option string)
    (current_timestamp : Z) : option Task.row :=
  i <- varchar_column 255 id ;;
  tn <- varchar_column 100 task_name ;;
  en <- varchar_column 100 employee_name ;;
  ei <- varchar_column 7 employee_id ;;
  em <- varchar_column 100 email ;;
  td <- text_column task_description ;;
  ad <- date_column allocated_date ;;
  dl <- date_column deadline ;;
  st <- varchar_column 20 status ;;
  Some (Task.mkRow i tn en ei em td ad dl st current_timestamp).

(** [INSERT INTO tasks (id, task_name, ..., status, created_at)
    VALUES ($1, ..., $9, CURRENT_TIMESTAMP) RETURNING *].  A parameter is
    [None] for SQL NULL.  The statement fails when the table is missing,
    when a column refuses its value, or when the primary key is taken. *)
Definition insert_task
    (id task_name employee_name employee_id email task_description
     allocated_date deadline status : option string)
    (current_timestamp : Z) (d : db) : option (Task.row * db) :=
  t <- tasks d ;;
  r <- task_row id task_name employee_name employee_id email
         task_description allocated_date deadline status current_timestamp ;;
  if existsb (fun r' => String.eqb (Task.id r') (Task.id r)) (tbl_rows t)
  then None
  else Some (r, mkDb (employees d)
                     (Some (mkTable (tbl_columns t) (tbl_rows t ++ [r])
                                    (tbl_serial t)))
                     (task_history d)).

End WithEngine.

(** [SELECT ..., upload_doc IS NOT NULL AS has_file FROM task_history
    ORDER BY allocated_time DESC] *)
Definition select_history (d : db) : option (list History.view) :=
  option_map
    (fun t => map History.view_of
                (order_by_desc History.allocated_time (tbl_rows t)))
    (task_history d).

Definition select_history_of (employeeId : string) (d : db)
  : option (list History.view) :=
  if Pg.text_ok employeeId then
    option_map
      (fun t =>
         map History.view_of
           (order_by_desc History.allocated_time
              (filter (fun r => String.eqb (History.employee_id r) employeeId)
                      (tbl_rows t))))
      (task_history d)
  else None.

(** [SELECT ... FROM task_history WHERE id = $1]; the handlers read the
    view or the blob of the rows found.  The parameter is the text of the
    route; the statement fails when the engine does not read it as an
    [integer]. *)
Definition select_history_by_id (id : string) (d : db)
  : option (list History.row) :=
  k <- Pg.int4_in id ;;
  option_map
    (fun t => filter (fun r => (History.id r =? k)%Z) (tbl_rows t))
    (task_history d).

(** The parameter can be sent: it is NULL, or a text without NUL. *)
Definition bound (p : option string) : bool :=
  match p with
  | Some s => Pg.text_ok s
  | None => true
  end.

(** The parameter is NULL, or a text a [VARCHAR(n)] column takes. *)
Definition fits (n : nat) (p : option string) : bool :=
  match p with
  | Some s => match Pg.varchar n s with Some _ => true | None => false end
  | None => true
  end.

(** The row that the [INSERT] into [task_history] builds under the key
    [id], with the column types of the program's
    [CREATE TABLE task_history]. *)
Definition history_row (id : Z)
    (task_name employee_name employee_id email description : option string)
    (upload_doc : option Buffer) (task_status : option string)
    (current_timestamp : Z) : option History.row :=
  tn <- varchar_column 100 task_name ;;
  en <- varchar_column 100 employee_name ;;
  ei <- varchar_column 7 employee_id ;;
  em <- varchar_column 100 email ;;
  de <- text_column description ;;
  ts <- varchar_column 20 task_status ;;
  Some (History.mkRow id tn en ei em de upload_doc ts current_timestamp).

(** The next value of the serial column can be drawn. *)
Definition serial_left (t : table History.row) : bool :=
  ((1 <=? tbl_serial t) && (tbl_serial t <=? Pg.serial_max))%Z.

(** The store after a serial value was drawn and no row stored. *)
Definition drawn (t : table History.row) (d : db) : db :=
  mkDb (employees d) (tasks d)
       (Some (mkTable (tbl_columns t) (tbl_rows t) (tbl_serial t + 1)%Z)).

Section WithEngine.
Context {E : Engine}.

(** [INSERT INTO task_history (task_name, ..., allocated_time)
    VALUES ($1, ..., $7, CURRENT_TIMESTAMP) RETURNING ...].  The key is the
    next value of the serial column.  The statement fails, in this order:
    when the table is missing or a parameter cannot be sent; when a text is
    too long for its column; when the sequence is used up; when a NOT NULL
    column receives NULL or the key is taken.  From the moment the value is
    drawn it is used up, whatever becomes of the statement. *)
Definition insert_history
    (task_name employee_name employee_id email description : option string)
    (upload_doc : option Buffer) (task_status : option string)
    (current_timestamp : Z) (d : db) : option History.view * db :=
  match task_history d with
  | None => (None, d)
  | Some t =>
      if negb (bound task_name && bound employee_name && bound employee_id
               && bound email && bound description && bound task_status)
      then (None, d)
      else if negb (fits 100 task_name && fits 100 employee_name
                    && fits 7 employee_id && fits 100 email
                    && fits 20 task_status)
      then (None, if draws_first && serial_left t then drawn t d else d)
      else if negb (serial_left t) then (None, d)
      else
        match history_row (tbl_serial t) task_name employee_name employee_id
                email description upload_doc task_status current_timestamp
        with
        | None => (None, drawn t d)
        | Some r =>
            if existsb (fun r' => (History.id r' =? tbl_serial t)%Z)
                       (tbl_rows t)
            then (None, drawn t d)
            else (Some (History.view_of r),
                  mkDb (employees d) (tasks d)
                       (Some (mkTable (tbl_columns t) (tbl_rows t ++ [r])
                                      (tbl_serial t + 1)%Z)))
        end
  end.

End WithEngine.

End Store.

Import Store.

(* ================================================================== *)
(** * The first server variant *)

Module TaskForm.
(** Body of [POST /api/tasks]. *)
Record body : Type := mkBody {
  taskName : Js.value;
  employeeName : Js.value;
  employeeId : Js.value;
  email : Js.value;
  taskDescription : Js.value;
  allocatedDate : Js.value;
  deadline : Js.value;
  status : Js.value
}.
End TaskForm.

Module HistoryForm.
(** Text fields of [POST /api/task-history]. *)
Record body : Type := mkBody {
  taskName : Js.value;
  employeeName : Js.value;
  employeeId : Js.value;
  email : Js.value;
  description : Js.value;
  taskStatus : Js.value
}.
End HistoryForm.

Module Server.

Import Js.

(** JSON bodies the handlers send. *)
Inductive json : Type :=
| Error (msg : string)                 (* { error: msg } *)
| AnEmployee (r : Employee.row)
| ATask (r : Task.row)
| Tasks (rs : list Task.row)
| AHistory (v : History.view)
| Histories (vs : list History.view)
| Saved (v : History.view).            (* { success: true, data: v, message } *)

Inductive reply : Type :=
| Json (code : nat) (j : json)
| File (code : nat) (contentType disposition : string) (data : Buffer).

Definition code_of (r : reply) : nat :=
  match r with
  | Json c _ => c
  | File c _ _ _ => c
  end.

(** How the driver passes a value as a statement parameter: [null] and
    [undefined] become SQL NULL; a boolean, a number and a string are sent
    as [toString()] prints them, an array as an array literal, an object as
    its JSON text. *)
Definition param (v : value) : option string := Driver.prepareValue v.

(** A query-string parameter: absent, or a string. *)
Definition of_query (q : option string) : value :=
  match q with
  | Some s => Str s
  | None => Undefined
  end.

(** [GET /api/employees/:empId] *)
Definition getEmployee (up : bool) (empId : string) (d : db) : reply :=
  if negb (Regex.test empIdLookupRe empId) then
    Json 400 (Error "Invalid employee ID format")
  else
    match run up (select_employee empId d) with
    | Some [] => Json 404 (Error "Employee not found")
    | Some (r :: _) => Json 200 (AnEmployee r)
    | None => Json 500 (Error "Failed to fetch employee")
    end.

(** [GET /api/tasks] *)
Definition getTasks (up : bool) (employeeId : option string) (d : db)
  : reply :=
  if truthy (of_query employeeId) then
    if negb (test empIdRe (of_query employeeId)) then
      Json 400 (Error "Invalid employee ID format")
    else
      match run up (select_tasks_of (ToString (of_query employeeId)) d) with
      | Some rows => Json 200 (Tasks rows)
      | None => Json 500 (Error "Failed to fetch tasks")
      end
  else
    match run up (select_tasks d) with
    | Some rows => Json 200 (Tasks rows)
    | None => Json 500 (Error "Failed to fetch tasks")
    end.

Section WithEngine.
Context {E : Engine}.

(** [POST /api/tasks]; [date_now] is [Date.now()], [current_timestamp]
    the clock of the store. *)
Definition postTask (up : bool) (date_now current_timestamp : Z)
    (b : TaskForm.body) (d : db) : reply * db :=
  if negb (truthy (TaskForm.taskName b))
     || negb (truthy (TaskForm.employeeName b))
     || negb (truthy (TaskForm.employeeId b))
     || negb (truthy (TaskForm.email b))
     || negb (truthy (TaskForm.taskDescription b))
     || negb (truthy (TaskForm.allocatedDate b))
     || negb (truthy (TaskForm.deadline b))
  then (Json 400 (Error "All fields are required"), d)
  else if negb (test emailRe (TaskForm.email b)) then
    (Json 400 (Error "Invalid email format. Must be name@astrolitetech.com"),
     d)
  else if negb (test empIdRe (TaskForm.employeeId b)) then
    (Json 400 (Error "Invalid employee ID format"), d)
  else
    match
      run up
        (insert_task
           (param (Str (decimal date_now)))
           (param (TaskForm.taskName b))
           (param (TaskForm.employeeName b))
           (param (TaskForm.employeeId b))
           (param (TaskForm.email b))
           (param (TaskForm.taskDescription b))
           (param (TaskForm.allocatedDate b))
           (param (TaskForm.deadline b))
           (param (or (TaskForm.status b) (Str "assigned")))
           current_timestamp d)
    with
    | Some (r, d') => (Json 200 (ATask r), d')
    | None => (Json 500 (Error "Failed to save task"), d)
    end.

(** The fields of a task in a JSON reply ([res.json(result.rows[0])]),
    [created_at] apart: a text column shows the text stored, a [DATE]
    column what the driver and [JSON.stringify] make of the date. *)
Definition task_json (r : Task.row) : list (string * value) :=
  [ ("id", Str (Task.id r));
    ("task_name", Str (Task.task_name r));
    ("employee_name", Str (Task.employee_name r));
    ("employee_id", Str (Task.employee_id r));
    ("email", Str (Task.email r));
    ("task_description", Str (Task.task_description r));
    ("allocated_date", date_out (Task.allocated_date r));
    ("deadline", date_out (Task.deadline r));
    ("status", Str (Task.status r)) ].

End WithEngine.

(** [GET /api/tasks/:id] *)
Definition getTask (up : bool) (id : string) (d : db) : reply :=
  match run up (select_task id d) with
  | Some [] => Json 404 (Error "Task not found")
  | Some (r :: _) => Json 200 (ATask r)
  | None => Json 500 (Error "Failed to fetch task")
  end.

(** [GET /api/task-history] *)
Definition getTaskHistory (up : bool) (employeeId : option string) (d : db)
  : reply :=
  if truthy (of_query employeeId) then
    if negb (test empIdRe (of_query employeeId)) then
      Json 400 (Error "Invalid employee ID format")
    else
      match run up (select_history_of (ToString (of_query employeeId)) d) with
      | Some rows => Json 200 (Histories rows)
      | None => Json 500 (Error "Failed to fetch task history")
      end
  else
    match run up (select_history d) with
    | Some rows => Json 200 (Histories rows)
    | None => Json 500 (Error "Failed to fetch task history")
    end.

Section WithEngine.
Context {E : Engine}.

(** [POST /api/task-history], from the point where the multipart parser
    has filled [req.body] and [req.file]; [file] is [req.file.buffer]
    when a document was uploaded. *)
Definition postTaskHistory (up : bool) (current_timestamp : Z)
    (b : HistoryForm.body) (file : option Buffer) (d : db) : reply * db :=
  let fileBuffer := file in
  if negb (truthy (HistoryForm.taskName b))
     || negb (truthy (HistoryForm.employeeName b))
     || negb (truthy (HistoryForm.employeeId b))
     || negb (truthy (HistoryForm.email b))
     || negb (truthy (HistoryForm.description b))
     || negb (truthy (HistoryForm.taskStatus b))
  then (Json 400 (Error "All fields are required"), d)
  else if negb (test emailRe (HistoryForm.email b)) then
    (Json 400 (Error "Invalid email format"), d)
  else if negb (test empIdRe (HistoryForm.employeeId b)) then
    (Json 400 (Error "Invalid employee ID format"), d)
  else if up then
    match
      insert_history
        (param (HistoryForm.taskName b))
        (param (HistoryForm.employeeName b))
        (param (HistoryForm.employeeId b))
        (param (HistoryForm.email b))
        (param (HistoryForm.description b))
        fileBuffer
        (param (HistoryForm.taskStatus b))
        current_timestamp d
    with
    | (Some v, d') => (Json 200 (Saved v), d')
    | (None, d') => (Json 500 (Error "Failed to save task history"), d')
    end
  else (Json 500 (Error "Failed to save task history"), d).

End WithEngine.

(** [GET /api/task-history/:id/file]; [id] is the text of the route.  The
    reply carries the headers as [res.set] leaves them. *)
Definition getHistoryFile (up : bool) (id : string) (d : db) : reply :=
  match run up (select_history_by_id id d) with
  | None => Json 500 (Error "Failed to retrieve file")
  | Some [] => Json 404 (Error "File not found")
  | Some (r :: _) =>
      match History.upload_doc r with
      | None => Json 404 (Error "File not found")
      | Some fileBuffer =>
          File 200 (Express.content_type (sniffContentType fileBuffer))
               "inline" fileBuffer
      end
  end.

(** [GET /api/task-history/:id] *)
Definition getHistory (up : bool) (id : string) (d : db) : reply :=
  match run up (select_history_by_id id d) with
  | None => Json 500 (Error "Failed to fetch task history")
  | Some [] => Json 404 (Error "Task history not found")
  | Some (r :: _) => Json 200 (AHistory (History.view_of r))
  end.

(** ** Schema initialization and start-up *)

Definition employees_columns : list column :=
  [ ("emp_id", "VARCHAR(7) PRIMARY KEY");
    ("name", "VARCHAR(100) NOT NULL");
    ("email", "VARCHAR(100) NOT NULL");
    ("department", "VARCHAR(100) NOT NULL") ].

Definition tasks_columns : list column :=
  [ ("id", "VARCHAR(255) PRIMARY KEY");
    ("task_name", "VARCHAR(100) NOT NULL");
    ("employee_name", "VARCHAR(100) NOT NULL");
    ("employee_id", "VARCHAR(7) NOT NULL");
    ("email", "VARCHAR(100) NOT NULL");
    ("task_description", "TEXT NOT NULL");
    ("allocated_date", "DATE NOT NULL");
    ("deadline", "DATE NOT NULL");
    ("status", "VARCHAR(20) NOT NULL DEFAULT 'assigned'");
    ("created_at", "TIMESTAMP NOT NULL DEFAULT CURRENT_TIMESTAMP") ].

Definition task_history_columns : list column :=
  [ ("id", "SERIAL PRIMARY KEY");
    ("task_name", "VARCHAR(100) NOT NULL");
    ("employee_name", "VARCHAR(100) NOT NULL");
    ("employee_id", "VARCHAR(7) NOT NULL");
    ("email", "VARCHAR(100) NOT NULL");
    ("description", "TEXT NOT NULL");
    ("upload_doc", "BYTEA");
    ("task_status", "VARCHAR(20) NOT NULL");
    ("allocated_time", "TIMESTAMP NOT NULL DEFAULT CURRENT_TIMESTAMP") ].

(** The three [CREATE TABLE IF NOT EXISTS] statements, in order. *)
Definition create_tables (d : db) : db :=
  let d1 := mkDb (create_table_if_not_exists employees_columns (employees d))
                 (tasks d) (task_history d) in
  let d2 := mkDb (employees d1)
                 (create_table_if_not_exists tasks_columns (tasks d1))
                 (task_history d1) in
  mkDb (employees d2) (tasks d2)
       (create_table_if_not_exists task_history_columns (task_history d2)).

(** What the process does that the outside can see. *)
Inductive event : Type :=
| Query (attempt : nat)       (* the schema statements are sent *)
| Sleep (ms : Z)              (* setTimeout(res, delay) *)
| Listen                      (* app.listen(port, ipAddress) *)
| Exit (code : nat).          (* process.exit(code) *)

Inductive outcome : Type :=
| Returned
| Threw (msg : string).

(** The [for] loop of [initializeDatabase], with [n] iterations left.
    [ok attempt] tells whether the query of that attempt succeeds. *)
Fixpoint attempts (n attempt retries : nat) (delay : Z) (ok : nat -> bool)
    (d : db) : outcome * db * list event :=
  match n with
  | O => (Returned, d, [])
  | S n' =>
      if ok attempt then (Returned, create_tables d, [Query attempt])
      else if (attempt <? retries)%nat then
        let '(o, d', tr) := attempts n' (S attempt) retries delay ok d in
        (o, d', Query attempt :: Sleep delay :: tr)
      else
        (Threw "Failed to connect to PostgreSQL after multiple attempts.",
         d, [Query attempt])
  end.

(** [initializeDatabase(retries = 5, delay = 5000)] *)
Definition initializeDatabase (retries : nat) (delay : Z) (ok : nat -> bool)
    (d : db) : outcome * db * list event :=
  attempts retries 1 retries delay ok d.

(** [startServer()] *)
Definition startServer (ok : nat -> bool) (d : db) : db * list event :=
  match initializeDatabase 5 5000%Z ok d with
  | (Returned, d', tr) => (d', tr ++ [Listen])
  | (Threw _, d', tr) => (d', tr ++ [Exit 1])
  end.

End Server.

(* ================================================================== *)
(** * The second server variant: schema initialization *)

Module TaskV2.
(** A row of [tasks] in the second variant: no [email] column. *)
Record row : Type := mkRow {
  id : string;
  task_name : string;
  employee_name : string;
  employee_id : string;
  task_description : string;
  allocated_date : Z;
  deadline : Z;
  status : string;
  created_at : Z
}.
End TaskV2.

Module HistoryV2.
Record row : Type := mkRow {
  id : Z;
  task_name : string;
  employee_name : string;
  employee_id : string;
  upload_doc : option Buffer;
  task_status : string;
  allocated_time : Z
}.
End HistoryV2.

Module ServerV2.

Record db : Type := mkDb {
  tasks : option (table TaskV2.row);
  task_history : option (table HistoryV2.row)
}.

Definition tasks_columns : list column :=
  [ ("id", "VARCHAR(255) PRIMARY KEY");
    ("task_name", "VARCHAR(25) NOT NULL");
    ("employee_name", "VARCHAR(30) NOT NULL");
    ("employee_id", "VARCHAR(7) NOT NULL");
    ("task_description", "VARCHAR(60) NOT NULL");
    ("allocated_date", "DATE NOT NULL");
    ("deadline", "DATE NOT NULL");
    ("status", "VARCHAR(20) NOT NULL DEFAULT 'assigned'");
    ("created_at", "TIMESTAMP NOT NULL DEFAULT CURRENT_TIMESTAMP") ].

Definition task_history_columns : list column :=
  [ ("id", "SERIAL PRIMARY KEY");
    ("task_name", "VARCHAR(100) NOT NULL");
    ("employee_name", "VARCHAR(100) NOT NULL");
    ("employee_id", "VARCHAR(7) NOT NULL");
    ("upload_doc", "BYTEA");
    ("task_status", "VARCHAR(20) NOT NULL");
    ("allocated_time", "TIMESTAMP NOT NULL DEFAULT CURRENT_TIMESTAMP") ].

(** The statements of [initializeDatabase], in order: two
    [drop table if exists], then two [CREATE TABLE IF NOT EXISTS]. *)
Definition create_tables (d : db) : db :=
  let d1 := mkDb (drop_table_if_exists (tasks d)) (task_history d) in
  let d2 := mkDb (tasks d1) (drop_table_if_exists (task_history d1)) in
  let d3 := mkDb (create_table_if_not_exists tasks_columns (tasks d2))
                 (task_history d2) in
  mkDb (tasks d3)
       (create_table_if_not_exists task_history_columns (task_history d3)).

(** [initializeDatabase()]: one attempt; an error is logged and thrown
    again.  [ok] tells whether the query succeeds. *)
Definition initializeDatabase (ok : bool) (d : db) : Server.outcome * db :=
  if ok then (Server.Returned, create_tables d)
  else (Server.Threw "Error initializing database", d).

End ServerV2.

(* ================================================================== *)
(** * The validators as the specification words them *)

Module Spec.

Definition is_digit (c : ascii) : bool := in_item c (Range "0" "9").

Definition is_letter (c : ascii) : bool :=
  in_item c (Range "a" "z") || in_item c (Range "A" "Z").

Definition is_alnum (c : ascii) : bool := is_letter c || is_digit c.

(** Alphanumerics and [.], [_], [-]. *)
Definition is_local_char (c : ascii) : bool :=
  is_alnum c || Ascii.eqb c "." || Ascii.eqb c "_" || Ascii.eqb c "-".

Definition is_ATS (c : ascii) : bool :=
  Ascii.eqb c "A" || Ascii.eqb c "T" || Ascii.eqb c "S".

Fixpoint all_chars (p : ascii -> bool) (s : string) : bool :=
  match s with
  | EmptyString => true
  | String c s' => p c && all_chars p s'
  end.

Definition first_is (p : ascii -> bool) (s : string) : bool :=
  match s with
  | String c _ => p c
  | EmptyString => false
  end.

Fixpoint last_is (p : ascii -> bool) (s : string) : bool :=
  match s with
  | EmptyString => false
  | String c EmptyString => p c
  | String _ s' => last_is p s'
  end.

(** Local part and domain: what stands before and after the first [@]. *)
Fixpoint split_at_sign (s : string) : option (string * string) :=
  match s with
  | EmptyString => None
  | String c s' =>
      if Ascii.eqb c "@" then Some (EmptyString, s')
      else match split_at_sign s' with
           | Some (l, dom) => Some (String c l, dom)
           | None => None
           end
  end.

(** "the local part starts and ends with an alphanumeric character,
    contains only alphanumerics and [.], [_], [-] in between, and the
    domain is exactly [astrolitetech.com]" *)
Definition isValidCompanyEmail (email : string) : bool :=
  match split_at_sign email with
  | Some (local, domain) =>
      first_is is_alnum local && last_is is_alnum local
      && all_chars is_local_char local
      && String.eqb domain "astrolitetech.com"
  | None => false
  end.

(** What the program's expression accepts: as above, but the local part
    starts with a letter and has at least two characters. *)
Definition isValidCompanyEmail_amended (email : string) : bool :=
  match split_at_sign email with
  | Some (local, domain) =>
      (2 <=? String.length local)%nat
      && first_is is_letter local && last_is is_alnum local
      && all_chars is_local_char local
      && String.eqb domain "astrolitetech.com"
  | None => false
  end.

(** Strings matching [^[ATS]{3}0(?!000)[0-9]{3}$]: one of A, T, S in each
    of the first three positions, then [0], then three digits that are
    not [000]. *)
Definition lookup_id (s : string) : bool :=
  match s with
  | String c1 (String c2 (String c3 (String z
      (String d1 (String d2 (String d3 EmptyString)))))) =>
      is_ATS c1 && is_ATS c2 && is_ATS c3 && Ascii.eqb z "0"
      && is_digit d1 && is_digit d2 && is_digit d3
      && negb (Ascii.eqb d1 "0" && Ascii.eqb d2 "0" && Ascii.eqb d3 "0")
  | _ => false
  end.

(** Strings matching [^ATS0\d{3}$]: the literal prefix [ATS0], then three
    digits. *)
Definition creation_id (s : string) : bool :=
  match s with
  | String c1 (String c2 (String c3 (String z
      (String d1 (String d2 (String d3 EmptyString)))))) =>
      Ascii.eqb c1 "A" && Ascii.eqb c2 "T" && Ascii.eqb c3 "S"
      && Ascii.eqb z "0"
      && is_digit d1 && is_digit d2 && is_digit d3
  | _ => false
  end.

End Spec.

(* ================================================================== *)
(** * An engine for the examples *)

Module Sample.

Definition digit (c : ascii) : option Z :=
  if Pg.is_digit c then Some (Z.of_N (N_of_ascii c) - 48)%Z else None.

Definition number2 (a b : ascii) : option Z :=
  x <- digit a ;; y <- digit b ;; Some (10 * x + y)%Z.

Definition leap (y : Z) : bool :=
  ((y mod 4 =? 0) && (negb (y mod 100 =? 0) || (y mod 400 =? 0)))%Z.

Definition days_in (y m : Z) : Z :=
  if (m =? 2)%Z then (if leap y then 29 else 28)%Z
  else if ((m =? 4) || (m =? 6) || (m =? 9) || (m =? 11))%Z then 30%Z
  else 31%Z.

(** A date written [YYYY-MM-DD], which PostgreSQL reads the same way
    whatever its [DateStyle]; 15 January 2024 is held as 20240115.  The
    other spellings PostgreSQL knows are not read. *)
Definition date_in (s : string) : option Z :=
  match s with
  | String y1 (String y2 (String y3 (String y4 (String h1
      (String m1 (String m2 (String h2 (String d1 (String d2
         EmptyString))))))))) =>
      if Ascii.eqb h1 "-" && Ascii.eqb h2 "-" then
        a <- number2 y1 y2 ;;
        b <- number2 y3 y4 ;;
        m <- number2 m1 m2 ;;
        d <- number2 d1 d2 ;;
        let y := (100 * a + b)%Z in
        if ((1 <=? y) && (1 <=? m) && (m <=? 12) && (1 <=? d)
            && (d <=? days_in y m))%Z
        then Some (y * 10000 + m * 100 + d)%Z
        else None
      else None
  | _ => None
  end.

Definition digit_char (n : Z) : ascii :=
  ascii_of_N (Z.to_N (48 + n mod 10)).

Definition pad2 (n : Z) : string :=
  String (digit_char (n / 10)) (String (digit_char n) EmptyString).

(** The driver reads a [DATE] into a [Date] at local midnight, which
    [JSON.stringify] writes as a timestamp; here for a server that runs
    in UTC. *)
Definition date_out (day : Z) : Js.value :=
  Js.Str (pad2 (day / 1000000) ++ pad2 (day / 10000) ++ "-"
          ++ pad2 (day / 100) ++ "-" ++ pad2 day ++ "T00:00:00.000Z")%string.

End Sample.

(** The engine of the examples; it draws the serial value before it checks
    the widths. *)
#[global] Instance sample_engine : Engine := {|
  date_in := Sample.date_in;
  date_out := Sample.date_out;
  draws_first := true
|}.

(* ================================================================== *)
(** * Notions used in the statements *)

Import Server.

(** Case analysis on every test of a character that occurs in the goal. *)
Ltac char_cases :=
  repeat match goal with
         | |- context [Spec.is_ATS ?c] => destruct (Spec.is_ATS c)
         | |- context [Spec.is_digit ?c] => destruct (Spec.is_digit c)
         | |- context [Ascii.eqb ?c ?d] => destruct (Ascii.eqb c d)
         end;
  try reflexivity.

(** No character of the string is above 127. *)
Definition all_ascii (s : string) : bool :=
  Spec.all_chars (fun c => (N_of_ascii c <=? 127)%N) s.

(** While a sequence is open, the next byte must be a continuation byte. *)
Definition dec_wf (st : Utf8.state) : Prop :=
  Utf8.needed st <> 0 -> (128 <= Utf8.lower st)%N.

(** A small store for examples: two tasks of two employees and one history
    record with a PDF document.  The dates are as the engine of the
    examples holds them. *)
Definition demo_task_1 : Task.row :=
  Task.mkRow "1700000000001" "Quarterly report" "Asha" "ATS0123"
    "asha@astrolitetech.com" "Write the report" 20240115 20240131
    "assigned" 10.

Definition demo_task_2 : Task.row :=
  Task.mkRow "1700000000002" "Audit" "Ravi" "ATS0456"
    "ravi@astrolitetech.com" "Check the books" 20240116 20240201
    "in progress" 20.

Definition demo_tasks : table Task.row :=
  mkTable Server.tasks_columns [demo_task_1; demo_task_2] 1.

Definition demo_history_1 : History.row :=
  History.mkRow 1 "Quarterly report" "Asha" "ATS0123"
    "asha@astrolitetech.com" "Done" (Some [x25; x50; x44; x46; x2d])
    "completed" 30.

Definition demo_history : table History.row :=
  mkTable Server.task_history_columns [demo_history_1] 2.

Definition demo_db : db :=
  mkDb (Some (mkTable Server.employees_columns [] 1))
       (Some demo_tasks) (Some demo_history).

(** A request to [POST /api/tasks] for the example store. *)
Definition demo_task_body (status : Js.value) : TaskForm.body :=
  TaskForm.mkBody (Js.Str "Payroll") (Js.Str "Asha") (Js.Str "ATS0123")
    (Js.Str "asha@astrolitetech.com") (Js.Str "Run payroll")
    (Js.Str "2024-02-01") (Js.Str "2024-02-05") status.

(** The row it is stored as. *)
Definition demo_task_3 : Task.row :=
  Task.mkRow "1700000000003" "Payroll" "Asha" "ATS0123"
    "asha@astrolitetech.com" "Run payroll" 20240201 20240205
    "assigned" 40.

(** A request to [POST /api/task-history] for the example store. *)
Definition demo_history_body : HistoryForm.body :=
  HistoryForm.mkBody (Js.Str "Audit") (Js.Str "Ravi") (Js.Str "ATS0456")
    (Js.Str "ravi@astrolitetech.com") (Js.Str "Books checked")
    (Js.Str "completed").

(** The row it is stored as, with or without a document. *)
Definition demo_history_2 (doc : option Buffer) : History.row :=
  History.mkRow 2 "Audit" "Ravi" "ATS0456" "ravi@astrolitetech.com"
    "Books checked" doc "completed" 50.

(** A text of [n] letters. *)
Fixpoint letters (n : nat) : string :=
  match n with
  | O => EmptyString
  | S n' => String "x" (letters n')
  end.

(** Every required field of [POST /api/tasks] is truthy. *)
Definition task_fields_present (b : TaskForm.body) : bool :=
  Js.truthy (TaskForm.taskName b) && Js.truthy (TaskForm.employeeName b)
  && Js.truthy (TaskForm.employeeId b) && Js.truthy (TaskForm.email b)
  && Js.truthy (TaskForm.taskDescription b)
  && Js.truthy (TaskForm.allocatedDate b) && Js.truthy (TaskForm.deadline b).

(** Every required field of [POST /api/task-history] is truthy. *)
Definition history_fields_present (b : HistoryForm.body) : bool :=
  Js.truthy (HistoryForm.taskName b) && Js.truthy (HistoryForm.employeeName b)
  && Js.truthy (HistoryForm.employeeId b) && Js.truthy (HistoryForm.email b)
  && Js.truthy (HistoryForm.description b)
  && Js.truthy (HistoryForm.taskStatus b).

(** [a] may stand before [b] in a result ordered by [key] descending. *)
Definition before_desc {R : Type} (key : R -> Z) (a b : R) : Prop :=
  (key b <= key a)%Z.

(** The row the store builds from a request to [POST /api/tasks], when
    every column takes its value. *)
Definition task_row_of {engine : Engine} (b : TaskForm.body)
    (date_now current_timestamp : Z) : option Task.row :=
  Store.task_row
    (param (Js.Str (Js.decimal date_now)))
    (param (TaskForm.taskName b))
    (param (TaskForm.employeeName b))
    (param (TaskForm.employeeId b))
    (param (TaskForm.email b))
    (param (TaskForm.taskDescription b))
    (param (TaskForm.allocatedDate b))
    (param (TaskForm.deadline b))
    (param (Js.or (TaskForm.status b) (Js.Str "assigned")))
    current_timestamp.

(** No row of the table has this key. *)
Definition task_id_free (id : string) (t : table Task.row) : bool :=
  negb (existsb (fun r => String.eqb (Task.id r) id) (tbl_rows t)).

(** The store after a row was appended to [tasks]. *)
Definition with_task (r : Task.row) (t : table Task.row) (d : db) : db :=
  mkDb (employees d)
       (Some (mkTable (tbl_columns t) (tbl_rows t ++ [r]) (tbl_serial t)))
       (task_history d).

(** No row of the table has this key. *)
Definition history_id_free (id : Z) (t : table History.row) : bool :=
  negb (existsb (fun r => (History.id r =? id)%Z) (tbl_rows t)).

(** The row the store builds under the key [id] from a request to
    [POST /api/task-history], when every column takes its value. *)
Definition history_row_of (b : HistoryForm.body) (file : option Buffer)
    (id current_timestamp : Z) : option History.row :=
  Store.history_row id
    (param (HistoryForm.taskName b))
    (param (HistoryForm.employeeName b))
    (param (HistoryForm.employeeId b))
    (param (HistoryForm.email b))
    (param (HistoryForm.description b))
    file
    (param (HistoryForm.taskStatus b))
    current_timestamp.

(** The store after a row was appended to [task_history]. *)
Definition with_history (r : History.row) (t : table History.row) (d : db)
  : db :=
  mkDb (employees d) (tasks d)
       (Some (mkTable (tbl_columns t) (tbl_rows t ++ [r])
                      (tbl_serial t + 1)%Z)).

(** A failed attempt that is followed by another one. *)
Definition failed_round (delay : Z) (attempt : nat) : list event :=
  [Query attempt; Sleep delay].

(** The table exists. *)
Definition exists_table {R : Type} (t : option (table R)) : bool :=
  match t with Some _ => true | None => false end.

(** A store on which the first variant's initializer has run: its three
    tables exist. *)
Definition initialized (d : db) : bool :=
  exists_table (employees d) && exists_table (tasks d)
  && exists_table (task_history d).

(** The same for the second variant and its two tables. *)
Definition initialized_v2 (d : ServerV2.db) : bool :=
  exists_table (ServerV2.tasks d) && exists_table (ServerV2.task_history d).

(** A store of the second variant with one task and one history record. *)
Definition demo_db_v2 : ServerV2.db :=
  ServerV2.mkDb
    (Some (mkTable ServerV2.tasks_columns
             [ TaskV2.mkRow "1700000000001" "Quarterly report" "Asha"
                 "ATS0123" "Write the report" 20240115 20240131
                 "assigned" 10 ] 1))
    (Some (mkTable ServerV2.task_history_columns
             [ HistoryV2.mkRow 1 "Quarterly report" "Asha" "ATS0123" None
                 "completed" 30 ] 2)).

(* ================================================================== *)
(** * Uploads *)

Module Upload.

Definition allowedTypes : list string :=
  [ "application/pdf";
    "application/msword";
    "application/vnd.openxmlformats-officedocument.wordprocessingml.document";
    "image/jpeg";
    "image/png";
    "text/plain" ].

(** An error object: an instance of [multer.MulterError], or another
    [Error]; both carry a message. *)
Inductive error : Type :=
| MulterError (message : string)
| OtherError (message : string).

(** What [fileFilter] passes to its callback: [cb(null, true)] or
    [cb(err)]. *)
Inductive verdict : Type :=
| Accept
| Reject (err : error).

(** [allowedTypes.includes(mimetype)] *)
Definition includes (l : list string) (x : string) : bool :=
  existsb (String.eqb x) l.

(** [fileFilter], as a function of [file.mimetype]. *)
Definition fileFilter (mimetype : string) : verdict :=
  if includes allowedTypes mimetype then Accept
  else Reject (OtherError
         "Invalid file type. Allowed: PDF, DOC, DOCX, JPG, JPEG, PNG, TXT").

(** The error-handling middleware: status and [error] text of the reply. *)
Definition errorHandler (err : error) : Server.reply :=
  match err with
  | MulterError message =>
      Server.Json 400 (Server.Error ("Multer error: " ++ message))
  | OtherError message =>
      Server.Json 500
        (Server.Error
           (Js.ToString (Js.or (Js.Str message)
                               (Js.Str "Internal server error"))))
  end.

(** [limits.fileSize] *)
Definition fileSize : nat := 5 * 1024 * 1024.

End Upload.

(* ================================================================== *)
(** * The application and its layers *)

Module App.

(** What [app.use], [app.get] and [app.post] register. *)
Inductive layer : Type :=
| Use (name : string)               (* a middleware *)
| OnError                           (* the error-handling middleware *)
| Route (method path : string).

(** The layers of the first variant, in the order of the program text. *)
Definition stack : list layer :=
  [ Use "cors";
    Use "express.json";
    Use "express.static";
    Route "GET" "/favicon.ico";
    OnError;
    Route "GET" "/api/employees/:empId";
    Route "GET" "/api/tasks";
    Route "POST" "/api/tasks";
    Route "GET" "/api/tasks/:id";
    Route "GET" "/api/task-history";
    Route "POST" "/api/task-history";
    Route "GET" "/api/task-history/:id/file";
    Route "GET" "/api/task-history/:id";
    Route "GET" "/hr";
    Route "GET" "/employee";
    Use "not found" ].

Definition layer_eqb (a b : layer) : bool :=
  match a, b with
  | Use x, Use y => String.eqb x y
  | OnError, OnError => true
  | Route m p, Route m' p' => String.eqb m m' && String.eqb p p'
  | _, _ => false
  end.

(** The layers registered after [l]. *)
Fixpoint after (l : layer) (layers : list layer) : list layer :=
  match layers with
  | [] => []
  | x :: rest => if layer_eqb x l then rest else after l rest
  end.

Definition is_error_handler (l : layer) : bool :=
  match l with OnError => true | _ => false end.

(** A reply of the program, or the page of Express's built-in error
    handler. *)
Inductive answer : Type :=
| Handled (r : Server.reply)
| Default (code : nat).

(** [next(err)] in layer [l]: Express passes the error to the first
    error-handling layer registered after [l]; when there is none, its
    built-in handler answers 500 for an error without a status. *)
Definition on_error (l : layer) (err : Upload.error) : answer :=
  if existsb is_error_handler (after l stack)
  then Handled (Upload.errorHandler err)
  else Default 500.

Section WithEngine.
Context {E : Engine}.

(** The route [POST /api/task-history]: [upload.single('uploadDoc')], then
    the handler.  [file] is the part named [uploadDoc], with the type the
    client declared for it.  A document the filter rejects, or one of more
    than [fileSize] bytes, ends the request with an error before the
    handler runs.  Whether a document of exactly [fileSize] bytes is
    refused as well depends on the version of the multipart parser;
    [at_limit] tells. *)
Definition postTaskHistory (at_limit up : bool) (current_timestamp : Z)
    (b : HistoryForm.body) (file : option (string * Buffer)) (d : db)
  : answer * db :=
  match file with
  | None =>
      let '(r, d') := Server.postTaskHistory up current_timestamp b None d in
      (Handled r, d')
  | Some (mimetype, buffer) =>
      match Upload.fileFilter mimetype with
      | Upload.Reject err =>
          (on_error (Route "POST" "/api/task-history") err, d)
      | Upload.Accept =>
          if (Upload.fileSize <? List.length buffer)%nat
             || (at_limit && (List.length buffer =? Upload.fileSize)%nat)
          then
            (on_error (Route "POST" "/api/task-history")
               (Upload.MulterError "File too large"), d)
          else
            let '(r, d') :=
              Server.postTaskHistory up current_timestamp b (Some buffer) d in
            (Handled r, d')
      end
  end.

End WithEngine.

End App.

(* ================================================================== *)
(** * The first variant as a whole *)

Module Api.

(** A request to one of the API routes of the first variant. *)
Inductive request : Type :=
| GetEmployee (empId : string)
| GetTasks (employeeId : option string)
| PostTask (date_now current_timestamp : Z) (b : TaskForm.body)
| GetTask (id : string)
| GetTaskHistory (employeeId : option string)
| PostTaskHistory (current_timestamp : Z) (b : HistoryForm.body)
    (file : option Buffer)
| GetHistoryFile (id : string)
| GetHistory (id : string).

Section WithEngine.
Context {E : Engine}.

(** The handler of the route, run while the pool is in state [up]. *)
Definition handle (up : bool) (r : request) (d : db) : Server.reply * db :=
  match r with
  | GetEmployee empId => (Server.getEmployee up empId d, d)
  | GetTasks q => (Server.getTasks up q d, d)
  | PostTask t1 t2 b => Server.postTask up t1 t2 b d
  | GetTask id => (Server.getTask up id d, d)
  | GetTaskHistory q => (Server.getTaskHistory up q d, d)
  | PostTaskHistory t b file => Server.postTaskHistory up t b file d
  | GetHistoryFile id => (Server.getHistoryFile up id d, d)
  | GetHistory id => (Server.getHistory up id d, d)
  end.

(** The store after a sequence of requests, served one after the other. *)
Fixpoint serve (rs : list (bool * request)) (d : db) : db :=
  match rs with
  | [] => d
  | (up, r) :: rs' => serve rs' (snd (handle up r d))
  end.

End WithEngine.

(** The store of a server that started on an empty database. *)
Definition fresh : db := Server.create_tables Store.empty.

End Api.

(** The texts of a stored task are within the widths of their columns. *)
Definition task_row_fits (r : Task.row) : Prop :=
  Pg.char_length (Task.id r) <= 255
  /\ Pg.char_length (Task.task_name r) <= 100
  /\ Pg.char_length (Task.employee_name r) <= 100
  /\ Pg.char_length (Task.employee_id r) <= 7
  /\ Pg.char_length (Task.email r) <= 100
  /\ Pg.char_length (Task.status r) <= 20.

(** The same for a stored history record. *)
Definition history_row_fits (r : History.row) : Prop :=
  Pg.char_length (History.task_name r) <= 100
  /\ Pg.char_length (History.employee_name r) <= 100
  /\ Pg.char_length (History.employee_id r) <= 7
  /\ Pg.char_length (History.email r) <= 100
  /\ Pg.char_length (History.task_status r) <= 20.

(** Keys of [tasks] are pairwise different, and every row fits. *)
Definition tasks_ok (t : table Task.row) : Prop :=
  NoDup (map Task.id (tbl_rows t))
  /\ Forall task_row_fits (tbl_rows t).

(** Keys of [task_history] are pairwise different, at least 1 and below
    the next serial value, which is not beyond the end of the sequence by
    more than one; every row fits. *)
Definition history_ok (t : table History.row) : Prop :=
  NoDup (map History.id (tbl_rows t))
  /\ Forall (fun r => (1 <= History.id r < tbl_serial t)%Z) (tbl_rows t)
  /\ (1 <= tbl_serial t <= Pg.serial_max + 1)%Z
  /\ Forall history_row_fits (tbl_rows t).

(** The three tables exist with the declared columns, [employees] is
    empty, and the two other tables are as above. *)
Definition store_ok (d : db) : Prop :=
  exists te tt th,
    employees d = Some te /\ tasks d = Some tt /\ task_history d = Some th
    /\ tbl_rows te = []
    /\ tbl_columns te = Server.employees_columns
    /\ tbl_columns tt = Server.tasks_columns
    /\ tbl_columns th = Server.task_history_columns
    /\ tasks_ok tt /\ history_ok th.

(** The first table keeps its rows, possibly with new ones after them. *)
Definition rows_extended {R : Type} (before after : option (table R)) : Prop :=
  match before, after with
  | Some t, Some t' =>
      tbl_columns t' = tbl_columns t
      /\ exists added, tbl_rows t' = tbl_rows t ++ added
  | None, None => True
  | _, _ => False
  end.

(** Number of times the schema statements are sent. *)
Fixpoint queries (tr : list Server.event) : nat :=
  match tr with
  | [] => 0
  | Server.Query _ :: tr' => S (queries tr')
  | _ :: tr' => queries tr'
  end.

(** Total time slept, in milliseconds. *)
Fixpoint slept (tr : list Server.event) : Z :=
  match tr with
  | [] => 0
  | Server.Sleep ms :: tr' => ms + slept tr'
  | _ :: tr' => slept tr'
  end.

(** The five labels the sniffer knows. *)
Definition sniff_labels : list string :=
  [ "application/pdf"; "image/png"; "image/jpeg"; "text/plain";
    "application/octet-stream" ].

(** The request passes the three checks of [POST /api/tasks]. *)
Definition task_request_valid (b : TaskForm.body) : bool :=
  task_fields_present b
  && Js.test emailRe (TaskForm.email b)
  && Js.test empIdRe (TaskForm.employeeId b).

(** The request passes the three checks of [POST /api/task-history]. *)
Definition history_request_valid (b : HistoryForm.body) : bool :=
  history_fields_present b
  && Js.test emailRe (HistoryForm.email b)
  && Js.test empIdRe (HistoryForm.employeeId b).

(** Every character is a printable ASCII character or a blank. *)
Definition printable (s : string) : bool :=
  Pg.every (fun c => ((0x20 <=? N_of_ascii c) && (N_of_ascii c <=? 0x7E))%N) s.

(* ================================================================== *)
(** * The schema scripts *)

Module InitSql.

(** An index: its name, its table and its column. *)
Record index : Type := mkIndex {
  idx_name : string;
  idx_table : string;
  idx_column : string
}.

(** The tables and the indexes of the database. *)
Record catalog : Type := mkCatalog {
  relations : db;
  indexes : list index
}.

Definition nothing : catalog := mkCatalog Store.empty [].

Definition employees_columns : list column :=
  [ ("emp_id", "VARCHAR(7) PRIMARY KEY");
    ("name", "VARCHAR(100) NOT NULL");
    ("email", "VARCHAR(100) NOT NULL");
    ("department", "VARCHAR(100) NOT NULL") ].

Definition tasks_columns : list column :=
  [ ("id", "VARCHAR(255) PRIMARY KEY");
    ("task_name", "VARCHAR(100) NOT NULL");
    ("employee_name", "VARCHAR(100) NOT NULL");
    ("employee_id", "VARCHAR(7) NOT NULL");
    ("email", "VARCHAR(100) NOT NULL");
    ("task_description", "TEXT NOT NULL");
    ("allocated_date", "DATE NOT NULL");
    ("deadline", "DATE NOT NULL");
    ("status", "VARCHAR(20) NOT NULL DEFAULT 'assigned'");
    ("created_at", "TIMESTAMP NOT NULL DEFAULT CURRENT_TIMESTAMP") ].

Definition task_history_columns : list column :=
  [ ("id", "SERIAL PRIMARY KEY");
    ("task_name", "VARCHAR(100) NOT NULL");
    ("employee_name", "VARCHAR(100) NOT NULL");
    ("employee_id", "VARCHAR(7) NOT NULL");
    ("email", "VARCHAR(100) NOT NULL");
    ("description", "TEXT NOT NULL");
    ("upload_doc", "BYTEA");
    ("task_status", "VARCHAR(20) NOT NULL");
    ("allocated_time", "TIMESTAMP NOT NULL DEFAULT CURRENT_TIMESTAMP") ].

(** Columns of a table of the database, by name. *)
Definition columns_of (table : string) (d : db) : option (list column) :=
  if String.eqb table "employees" then option_map tbl_columns (employees d)
  else if String.eqb table "tasks" then option_map tbl_columns (tasks d)
  else if String.eqb table "task_history" then
    option_map tbl_columns (task_history d)
  else None.

Definition has_column (cols : list column) (c : string) : bool :=
  existsb (fun x => String.eqb (fst x) c) cols.

(** [CREATE INDEX IF NOT EXISTS name ON table(column)]: an error ([None])
    when the table or the column does not exist; nothing to do when the
    name is taken. *)
Definition create_index_if_not_exists (name table col : string)
    (c : catalog) : option catalog :=
  match columns_of table (relations c) with
  | None => None
  | Some cols =>
      if has_column cols col then
        if existsb (fun i => String.eqb (idx_name i) name) (indexes c)
        then Some c
        else Some (mkCatalog (relations c)
                             (indexes c ++ [mkIndex name table col]))
      else None
  end.

(** The three [CREATE TABLE IF NOT EXISTS] statements of [init.sql]. *)
Definition create_tables (c : catalog) : catalog :=
  let d := relations c in
  let d1 := mkDb (create_table_if_not_exists employees_columns (employees d))
                 (tasks d) (task_history d) in
  let d2 := mkDb (employees d1)
                 (create_table_if_not_exists tasks_columns (tasks d1))
                 (task_history d1) in
  let d3 := mkDb (employees d2) (tasks d2)
                 (create_table_if_not_exists task_history_columns
                    (task_history d2)) in
  mkCatalog d3 (indexes c).

Definition and_then (c : option catalog) (f : catalog -> option catalog)
  : option catalog :=
  match c with
  | Some c' => f c'
  | None => None
  end.

(** [init.sql], statement by statement; the script stops at the first
    error. *)
Definition run (c : catalog) : option catalog :=
  and_then
    (and_then
       (and_then
          (create_index_if_not_exists "idx_tasks_employee_id" "tasks"
             "employee_id" (create_tables c))
          (create_index_if_not_exists "idx_tasks_status" "tasks" "status"))
       (create_index_if_not_exists "idx_task_history_employee_id"
          "task_history" "employee_id"))
    (create_index_if_not_exists "idx_task_history_task_status"
       "task_history" "task_status").

End InitSql.

Module SqlSql.

Definition tasks_columns : list column :=
  [ ("id", "VARCHAR(255) PRIMARY KEY");
    ("task_name", "VARCHAR(25) NOT NULL");
    ("employee_name", "VARCHAR(30) NOT NULL");
    ("employee_id", "VARCHAR(7) NOT NULL");
    ("task_description", "VARCHAR(60) NOT NULL");
    ("allocated_date", "DATE NOT NULL");
    ("deadline", "DATE NOT NULL");
    ("status", "VARCHAR(20) NOT NULL DEFAULT 'assigned'");
    ("created_at", "TIMESTAMP NOT NULL DEFAULT CURRENT_TIMESTAMP") ].

Definition task_history_columns : list column :=
  [ ("id", "SERIAL PRIMARY KEY");
    ("task_name", "VARCHAR(100) NOT NULL");
    ("employee_name", "VARCHAR(100) NOT NULL");
    ("employee_id", "VARCHAR(7) NOT NULL");
    ("upload_doc", "BYTEA");
    ("task_status", "VARCHAR(20) NOT NULL");
    ("allocated_time", "TIMESTAMP NOT NULL DEFAULT CURRENT_TIMESTAMP") ].

(** The two [CREATE TABLE IF NOT EXISTS] statements of [sql.sql]. *)
Definition run (d : ServerV2.db) : ServerV2.db :=
  let d1 := ServerV2.mkDb
              (create_table_if_not_exists tasks_columns (ServerV2.tasks d))
              (ServerV2.task_history d) in
  ServerV2.mkDb (ServerV2.tasks d1)
    (create_table_if_not_exists task_history_columns
       (ServerV2.task_history d1)).

End SqlSql.

(* ================================================================== *)
(** * The second server variant: routes *)

Module Whitespace.

Definition code_is (c : ascii) (n : N) : bool := (N_of_ascii c =? n)%N.

(** Tab, line feed, vertical tab, form feed, carriage return, space. *)
Definition is_ascii_space (c : ascii) : bool :=
  code_is c 0x09 || code_is c 0x0A || code_is c 0x0B || code_is c 0x0C
  || code_is c 0x0D || code_is c 0x20.

(** What is left of the string after the white-space character ([\s]) at
    its head, if there is one.  Beyond ASCII these are U+00A0, U+1680,
    U+2000 to U+200A, U+2028, U+2029, U+202F, U+205F, U+3000 and U+FEFF,
    read here in UTF-8. *)
Definition strip_one (s : string) : option string :=
  match s with
  | EmptyString => None
  | String c r =>
      if is_ascii_space c then Some r
      else
        match r with
        | EmptyString => None
        | String d r1 =>
            if code_is c 0xC2 then
              if code_is d 0xA0 then Some r1 else None
            else
              match r1 with
              | EmptyString => None
              | String e r2 =>
                  if code_is c 0xE1 then
                    if code_is d 0x9A && code_is e 0x80 then Some r2 else None
                  else if code_is c 0xE2 then
                    if code_is d 0x80 then
                      if ((0x80 <=? N_of_ascii e) && (N_of_ascii e <=? 0x8A))%N
                         || code_is e 0xA8 || code_is e 0xA9 || code_is e 0xAF
                      then Some r2 else None
                    else if code_is d 0x81 && code_is e 0x9F then Some r2
                    else None
                  else if code_is c 0xE3 then
                    if code_is d 0x80 && code_is e 0x80 then Some r2 else None
                  else if code_is c 0xEF then
                    if code_is d 0xBB && code_is e 0xBF then Some r2 else None
                  else None
              end
        end
  end.

(** One pass over the string; [in_run] tells whether the character just
    read was white space.  [fuel] bounds the number of characters read. *)
Fixpoint replace_runs (fuel : nat) (in_run : bool) (s : string) : string :=
  match fuel with
  | O => EmptyString
  | S fuel' =>
      match strip_one s with
      | Some rest =>
          if in_run then replace_runs fuel' true rest
          else String "_" (replace_runs fuel' true rest)
      | None =>
          match s with
          | EmptyString => EmptyString
          | String c r => String c (replace_runs fuel' false r)
          end
      end
  end.

(** [s.replace(/\s+/g, '_')] *)
Definition replace (s : string) : string :=
  replace_runs (String.length s) false s.

End Whitespace.

Module RoutesV2.

(** What [GET /api/task-history] and [POST /api/task-history] select. *)
Record view : Type := mkView {
  v_id : Z;
  v_task_name : string;
  v_employee_name : string;
  v_employee_id : string;
  v_task_status : string;
  v_allocated_time : Z
}.

Definition view_of (r : HistoryV2.row) : view :=
  mkView (HistoryV2.id r) (HistoryV2.task_name r) (HistoryV2.employee_name r)
         (HistoryV2.employee_id r) (HistoryV2.task_status r)
         (HistoryV2.allocated_time r).

Inductive json : Type :=
| Error (msg : string)
| ATask (r : TaskV2.row)
| Tasks (rs : list TaskV2.row)
| AHistory (v : view)
| Histories (vs : list view).

Inductive reply : Type :=
| Json (code : nat) (j : json)
| File (code : nat) (contentType disposition : string) (data : Buffer).

Definition code_of (r : reply) : nat :=
  match r with
  | Json c _ => c
  | File c _ _ _ => c
  end.

(** [SELECT * FROM tasks ORDER BY created_at DESC] *)
Definition select_tasks (d : ServerV2.db) : option (list TaskV2.row) :=
  option_map (fun t => order_by_desc TaskV2.created_at (tbl_rows t))
             (ServerV2.tasks d).

(** [SELECT * FROM tasks WHERE id = $1] *)
Definition select_task (id : string) (d : ServerV2.db)
  : option (list TaskV2.row) :=
  if Pg.text_ok id then
    option_map
      (fun t => filter (fun r => String.eqb (TaskV2.id r) id) (tbl_rows t))
      (ServerV2.tasks d)
  else None.

Section WithEngine.
Context {E : Engine}.

(** The row that the [INSERT] into [tasks] builds from its eight
    parameters and the clock, with the column types of the second
    variant's [CREATE TABLE tasks]. *)
Definition task_row
    (id task_name employee_name employee_id task_description
     allocated_date deadline status : option string)
    (current_timestamp : Z) : option TaskV2.row :=
  i <- varchar_column 255 id ;;
  tn <- varchar_column 25 task_name ;;
  en <- varchar_column 30 employee_name ;;
  ei <- varchar_column 7 employee_id ;;
  td <- varchar_column 60 task_description ;;
  ad <- date_column allocated_date ;;
  dl <- date_column deadline ;;
  st <- varchar_column 20 status ;;
  Some (TaskV2.mkRow i tn en ei td ad dl st current_timestamp).

(** [INSERT INTO tasks (id, ..., status, created_at) VALUES ($1, ..., $8,
    CURRENT_TIMESTAMP) RETURNING *] *)
Definition insert_task
    (id task_name employee_name employee_id task_description
     allocated_date deadline status : option string)
    (current_timestamp : Z) (d : ServerV2.db)
  : option (TaskV2.row * ServerV2.db) :=
  t <- ServerV2.tasks d ;;
  r <- task_row id task_name employee_name employee_id task_description
         allocated_date deadline status current_timestamp ;;
  if existsb (fun r' => String.eqb (TaskV2.id r') (TaskV2.id r)) (tbl_rows t)
  then None
  else Some (r, ServerV2.mkDb
                  (Some (mkTable (tbl_columns t) (tbl_rows t ++ [r])
                                 (tbl_serial t)))
                  (ServerV2.task_history d)).

End WithEngine.

(** [SELECT upload_doc, task_name FROM task_history WHERE id = $1]; the
    parameter is the text of the route. *)
Definition select_history_by_id (id : string) (d : ServerV2.db)
  : option (list HistoryV2.row) :=
  k <- Pg.int4_in id ;;
  option_map
    (fun t => filter (fun r => (HistoryV2.id r =? k)%Z) (tbl_rows t))
    (ServerV2.task_history d).

(** [GET /api/tasks] *)
Definition getTasks (up : bool) (d : ServerV2.db) : reply :=
  match run up (select_tasks d) with
  | Some rows => Json 200 (Tasks rows)
  | None => Json 500 (Error "Failed to fetch tasks")
  end.

Section WithEngine.
Context {E : Engine}.

(** [POST /api/tasks]; the body may carry an [email], which this variant
    does not read. *)
Definition postTask (up : bool) (date_now current_timestamp : Z)
    (b : TaskForm.body) (d : ServerV2.db) : reply * ServerV2.db :=
  if negb (Js.truthy (TaskForm.taskName b))
     || negb (Js.truthy (TaskForm.employeeName b))
     || negb (Js.truthy (TaskForm.employeeId b))
     || negb (Js.truthy (TaskForm.taskDescription b))
     || negb (Js.truthy (TaskForm.allocatedDate b))
     || negb (Js.truthy (TaskForm.deadline b))
  then (Json 400 (Error "All fields are required"), d)
  else
    match
      run up
        (insert_task
           (Server.param (Js.Str (Js.decimal date_now)))
           (Server.param (TaskForm.taskName b))
           (Server.param (TaskForm.employeeName b))
           (Server.param (TaskForm.employeeId b))
           (Server.param (TaskForm.taskDescription b))
           (Server.param (TaskForm.allocatedDate b))
           (Server.param (TaskForm.deadline b))
           (Server.param (Js.or (TaskForm.status b) (Js.Str "assigned")))
           current_timestamp d)
    with
    | Some (r, d') => (Json 200 (ATask r), d')
    | None => (Json 500 (Error "Failed to save task"), d)
    end.

End WithEngine.

(** [GET /api/tasks/:id] *)
Definition getTask (up : bool) (id : string) (d : ServerV2.db) : reply :=
  match run up (select_task id d) with
  | Some [] => Json 404 (Error "Task not found")
  | Some (r :: _) => Json 200 (ATask r)
  | None => Json 500 (Error "Failed to fetch task")
  end.

(** The double quote. *)
Definition dquote : string := String "034" EmptyString.

(** The [Content-Disposition] of a document of the task [task_name]. *)
Definition disposition (task_name : string) : string :=
  let taskName := Whitespace.replace task_name in
  "attachment; filename=" ++ dquote ++ taskName ++ "_document" ++ dquote.

(** [GET /api/task-history/:id/file]; [id] is the text of the route.
    [res.set] throws on a header value Node refuses, and the handler then
    answers 500. *)
Definition getHistoryFile (up : bool) (id : string) (d : ServerV2.db)
  : reply :=
  match run up (select_history_by_id id d) with
  | None => Json 500 (Error "Failed to retrieve file")
  | Some [] => Json 404 (Error "File not found")
  | Some (r :: _) =>
      match HistoryV2.upload_doc r with
      | None => Json 404 (Error "File not found")
      | Some fileBuffer =>
          if Express.header_ok (disposition (HistoryV2.task_name r)) then
            File 200 (Express.content_type "application/octet-stream")
                 (disposition (HistoryV2.task_name r)) fileBuffer
          else Json 500 (Error "Failed to retrieve file")
      end
  end.

(** [startServer()]: one attempt at the schema, then listen or exit. *)
Definition startServer (ok : bool) (d : ServerV2.db)
  : ServerV2.db * list Server.event :=
  match ServerV2.initializeDatabase ok d with
  | (Server.Returned, d') => (d', [Server.Query 1; Server.Listen])
  | (Server.Threw _, d') => (d', [Server.Query 1; Server.Exit 1])
  end.

End RoutesV2.

(** Every required field of the second variant's [POST /api/tasks] is
    truthy. *)
Definition task_fields_present_v2 (b : TaskForm.body) : bool :=
  Js.truthy (TaskForm.taskName b) && Js.truthy (TaskForm.employeeName b)
  && Js.truthy (TaskForm.employeeId b)
  && Js.truthy (TaskForm.taskDescription b)
  && Js.truthy (TaskForm.allocatedDate b) && Js.truthy (TaskForm.deadline b).

(** No character of the string is ASCII white space. *)
Definition no_ascii_space (s : string) : bool :=
  Spec.all_chars (fun c => negb (Whitespace.is_ascii_space c)) s.

(** Every character is ASCII and none is white space. *)
Definition plain_ascii (s : string) : bool :=
  Spec.all_chars
    (fun c => (N_of_ascii c <=? 127)%N && negb (Whitespace.is_ascii_space c))
    s.

(** An index of that name exists. *)
Definition has_index (name : string) (c : InitSql.catalog) : bool :=
  existsb (fun i => String.eqb (InitSql.idx_name i) name) (InitSql.indexes c).

(** An empty database of the second variant. *)
Definition empty_v2 : ServerV2.db := ServerV2.mkDb None None.

(** The row the second variant's store builds from a request, when every
    column takes its value. *)
Definition task_row_of_v2 {engine : Engine} (b : TaskForm.body)
    (date_now current_timestamp : Z) : option TaskV2.row :=
  RoutesV2.task_row
    (param (Js.Str (Js.decimal date_now)))
    (param (TaskForm.taskName b))
    (param (TaskForm.employeeName b))
    (param (TaskForm.employeeId b))
    (param (TaskForm.taskDescription b))
    (param (TaskForm.allocatedDate b))
    (param (TaskForm.deadline b))
    (param (Js.or (TaskForm.status b) (Js.Str "assigned")))
    current_timestamp.

(** No row of the table has this key. *)
Definition task_id_free_v2 (id : string) (t : table TaskV2.row) : bool :=
  negb (existsb (fun r => String.eqb (TaskV2.id r) id) (tbl_rows t)).

(** The store after a row was appended to [tasks]. *)
Definition with_task_v2 (r : TaskV2.row) (t : table TaskV2.row)
    (d : ServerV2.db) : ServerV2.db :=
  ServerV2.mkDb
    (Some (mkTable (tbl_columns t) (tbl_rows t ++ [r]) (tbl_serial t)))
    (ServerV2.task_history d).

(** The row of the example store of the second variant. *)
Definition demo_tasks_v2 : table TaskV2.row :=
  mkTable ServerV2.tasks_columns
    [ TaskV2.mkRow "1700000000001" "Quarterly report" "Asha" "ATS0123"
        "Write the report" 20240115 20240131 "assigned" 10 ] 1.

(** A request the first variant refuses twice over: no e-mail, and an
    employee id of another shape. *)
Definition demo_task_body_v2 (employeeId : string) : TaskForm.body :=
  TaskForm.mkBody (Js.Str "Payroll") (Js.Str "Asha") (Js.Str employeeId)
    Js.Undefined (Js.Str "Run payroll") (Js.Str "2024-02-01")
    (Js.Str "2024-02-05") Js.Undefined.

(** A history table of the second variant with one document, stored under
    the key 1 for the task [task_name]. *)
Definition demo_history_v2 (task_name : string) : table HistoryV2.row :=
  mkTable ServerV2.task_history_columns
    [ HistoryV2.mkRow 1 task_name "Asha" "ATS0123"
        (Some [x25; x50; x44; x46; x2d]) "completed" 30 ] 2.

(* ================================================================== *)
(** * Characters and literals of the values sent to the store *)

(** A character that is neither NUL, nor a blank, nor part of a sequence
    of several bytes. *)
Definition is_plain (c : ascii) : bool :=
  negb (N_of_ascii c =? 0)%N && negb (Pg.is_blank c)
  && negb (Pg.is_continuation c).

(** A character [escapeElement] leaves as it is. *)
Definition is_unescaped (c : ascii) : bool :=
  negb (Ascii.eqb c Driver.backslash || Ascii.eqb c Driver.dquote).

(** The array literal of a one-element array of a string. *)
Definition array_of (s : string) : string :=
  ("{" ++ Driver.escapeElement s ++ "}")%string.

(* ================================================================== *)
(** * Proof steps used more than once *)

(** Case analysis on the eight bits of a character. *)
Ltac by_bits c :=
  destruct c as [[] [] [] [] [] [] [] []]; vm_compute;
  repeat split; intros; congruence.

(** In a hypothesis that a chain of columns gives a row, name what each
    column gives. *)
Ltac columns H :=
  unfold and_then in H;
  repeat match type of H with
         | context [match ?x with Some _ => _ | None => _ end] =>
             destruct x eqn:?; [|discriminate H]
         end.

(** One column that refuses its value is enough for the row not to be
    built. *)
Ltac refused :=
  unfold task_row_of, task_row, history_row_of, history_row, and_then;
  repeat match goal with
         | H : _ = None |- _ => rewrite H
         | |- context [match ?x with Some _ => _ | None => _ end] =>
             destruct x; try reflexivity
         end.

(* ================================================================== *)
(** * Properties of the matcher *)

Section Matcher.

Lemma search_bol_later (r : re) (s : string) (pos : nat) :
  search (Seq Bol r) (S pos) s = false.
Proof.
  revert pos; induction s as [|c s IH]; intro pos; simpl.
  - reflexivity.
  - apply IH.
Qed.

(** An expression that starts with [^] can only match at position 0. *)
Lemma test_bol (r : re) (s : string) :
  Regex.test (Seq Bol r) s = m r (fun _ _ => true) 0 s.
Proof.
  unfold Regex.test. destruct s as [|c s]; simpl.
  - now rewrite orb_false_r.
  - now rewrite search_bol_later, orb_false_r.
Qed.

(** [star_cls] succeeds exactly when some prefix made of characters of
    the class can be split off so that the continuation accepts what is
    left. *)
Lemma star_cls_true (p : ascii -> bool) (k : cont) (s : string) (pos : nat) :
  star_cls p k pos s = true <->
  exists pre rest,
    s = (pre ++ rest)%string /\ Spec.all_chars p pre = true
    /\ k (pos + String.length pre) rest = true.
Proof.
  revert pos; induction s as [|c s IH]; intro pos; simpl.
  - split.
    + intro H. exists EmptyString, EmptyString. simpl.
      now rewrite Nat.add_0_r.
    + intros (pre & rest & E & _ & K).
      destruct pre; simpl in E; [|discriminate].
      subst rest. simpl in K. now rewrite Nat.add_0_r in K.
  - rewrite orb_true_iff, andb_true_iff, IH. split.
    + intros [[P (pre & rest & E & A & K)] | K].
      * exists (String c pre), rest. simpl. rewrite P, A. subst s.
        repeat split. now rewrite Nat.add_succ_r.
      * exists EmptyString, (String c s). simpl.
        now rewrite Nat.add_0_r.
    + intros (pre & rest & E & A & K). destruct pre as [|c' pre]; simpl in *.
      * right. subst rest. now rewrite Nat.add_0_r in K.
      * left. injection E as -> ->. apply andb_true_iff in A as [P A].
        split; [exact P|]. exists pre, rest. repeat split; auto.
        now rewrite Nat.add_succ_r in K.
Qed.

End Matcher.

(** ** Employee identifiers *)

Lemma in_cls_ATS (c : ascii) :
  in_cls [One "A"; One "T"; One "S"]%char c = Spec.is_ATS c.
Proof. unfold in_cls, Spec.is_ATS; simpl. now rewrite orb_false_r, !orb_assoc. Qed.

Lemma in_cls_digit (c : ascii) :
  in_cls [Range "0" "9"]%char c = Spec.is_digit c.
Proof. unfold in_cls, Spec.is_digit; simpl. now rewrite orb_false_r. Qed.

Lemma empIdLookupRe_spec (s : string) :
  Regex.test empIdLookupRe s = Spec.lookup_id s.
Proof.
  unfold empIdLookupRe. cbn [seqs]. rewrite test_bol.
  cbn [seqs rep m lits].
  do 8 (try destruct s as [|? s]); cbn [m Spec.lookup_id];
    rewrite ?in_cls_ATS, ?in_cls_digit; char_cases.
Qed.

Lemma empIdRe_spec (s : string) :
  Regex.test empIdRe s = Spec.creation_id s.
Proof.
  unfold empIdRe. cbn [seqs]. rewrite test_bol.
  cbn [seqs rep m lits].
  do 8 (try destruct s as [|? s]); cbn [m Spec.creation_id];
    rewrite ?in_cls_digit; char_cases.
Qed.

(** ** The company e-mail expression *)

Lemma in_cls_letter (c : ascii) :
  in_cls [Range "a" "z"; Range "A" "Z"]%char c = Spec.is_letter c.
Proof. unfold in_cls, Spec.is_letter; simpl. now rewrite orb_false_r. Qed.

Lemma in_cls_alnum (c : ascii) :
  in_cls [Range "a" "z"; Range "A" "Z"; Range "0" "9"]%char c
  = Spec.is_alnum c.
Proof.
  unfold in_cls, Spec.is_alnum, Spec.is_letter, Spec.is_digit; simpl.
  now rewrite orb_false_r, orb_assoc.
Qed.

Lemma in_cls_local (c : ascii) :
  in_cls [Range "a" "z"; Range "A" "Z"; Range "0" "9";
          One "."; One "_"; One "-"]%char c
  = Spec.is_local_char c.
Proof.
  unfold in_cls, Spec.is_local_char, Spec.is_alnum, Spec.is_letter,
    Spec.is_digit; simpl.
  now rewrite orb_false_r, !orb_assoc.
Qed.

Lemma all_chars_ext (p q : ascii -> bool) (s : string) :
  (forall c, p c = q c) -> Spec.all_chars p s = Spec.all_chars q s.
Proof.
  intro E. induction s as [|c s IH]; simpl; [reflexivity|].
  now rewrite E, IH.
Qed.

Lemma all_chars_app (p : ascii -> bool) (s t : string) :
  Spec.all_chars p (s ++ t) = Spec.all_chars p s && Spec.all_chars p t.
Proof.
  induction s as [|c s IH]; simpl; [reflexivity|].
  now rewrite IH, andb_assoc.
Qed.

(** A literal run matches exactly when the input starts with it. *)
Lemma m_lits (w : string) (k : cont) (pos : nat) (s : string) :
  m (lits w) k pos s = true <->
  exists rest, s = (w ++ rest)%string /\ k (pos + String.length w) rest = true.
Proof.
  revert pos s; induction w as [|c w IH]; intros pos s; simpl.
  - rewrite Nat.add_0_r. split.
    + intro K. now exists s.
    + now intros (rest & -> & K).
  - destruct s as [|d s].
    + split; [discriminate|]. now intros (rest & E & _).
    + rewrite andb_true_iff, IH. split.
      * intros [E (rest & -> & K)]. apply Ascii.eqb_eq in E as ->.
        exists rest. split; [reflexivity|]. now rewrite Nat.add_succ_r.
      * intros (rest & E & K). injection E as -> ->. split.
        -- apply Ascii.eqb_refl.
        -- exists rest. split; [reflexivity|].
           now rewrite Nat.add_succ_r in K.
Qed.

Lemma m_eol (pos : nat) (s : string) :
  m Eol (fun _ _ => true) pos s = true <-> s = EmptyString.
Proof. destruct s; simpl; split; congruence. Qed.

(** The shape of the strings the e-mail expression accepts. *)
Lemma emailRe_shape (s : string) :
  Regex.test emailRe s = true <->
  exists c0 mid cl,
    s = String c0 (mid ++ String cl "@astrolitetech.com")
    /\ Spec.is_letter c0 = true
    /\ Spec.all_chars Spec.is_local_char mid = true
    /\ Spec.is_alnum cl = true.
Proof.
  unfold emailRe. cbn [seqs]. rewrite test_bol. cbn [m].
  destruct s as [|c0 s].
  - split; [discriminate|]. now intros (? & ? & ? & ? & _).
  - rewrite andb_true_iff, in_cls_letter, star_cls_true. split.
    + intros (L & pre & rest & -> & A & K).
      destruct rest as [|cl rest]; [discriminate|].
      apply andb_true_iff in K as [C K]. rewrite in_cls_alnum in C.
      apply m_lits in K as (r1 & -> & K).
      cbn [m] in K. destruct r1 as [|dot r1]; [discriminate|].
      apply andb_true_iff in K as [D K]. apply Ascii.eqb_eq in D as ->.
      apply m_lits in K as (r2 & -> & K).
      cbn [m seqs] in K. destruct r2; [|discriminate].
      exists c0, pre, cl. repeat split; auto.
      now rewrite <- (all_chars_ext _ _ pre in_cls_local).
    + intros (c0' & mid & cl & E & L & A & C). injection E as <- ->.
      split; [exact L|]. exists mid, (String cl "@astrolitetech.com").
      split; [reflexivity|]. split.
      * now rewrite (all_chars_ext _ _ mid in_cls_local).
      * rewrite in_cls_alnum, C. reflexivity.
Qed.

Lemma split_at_sign_app (l dom : string) :
  Spec.all_chars (fun c => negb (Ascii.eqb c "@")) l = true ->
  Spec.split_at_sign (l ++ String "@" dom) = Some (l, dom).
Proof.
  induction l as [|c l IH]; simpl; intro A; [reflexivity|].
  apply andb_true_iff in A as [N A]. apply negb_true_iff in N.
  now rewrite N, IH.
Qed.

Lemma split_at_sign_some (s l dom : string) :
  Spec.split_at_sign s = Some (l, dom) -> s = (l ++ String "@" dom)%string.
Proof.
  revert l; induction s as [|c s IH]; simpl; intros l E; [discriminate|].
  destruct (Ascii.eqb_spec c "@") as [->|N].
  - now injection E as <- <-.
  - destruct (Spec.split_at_sign s) as [[l' dom']|]; [|discriminate].
    injection E as <- <-. simpl. f_equal. now apply IH.
Qed.

Lemma local_char_not_at (c : ascii) :
  Spec.is_local_char c = true -> negb (Ascii.eqb c "@") = true.
Proof.
  destruct (Ascii.eqb_spec c "@") as [->|N]; [discriminate|reflexivity].
Qed.

Lemma all_local_no_at (s : string) :
  Spec.all_chars Spec.is_local_char s = true ->
  Spec.all_chars (fun c => negb (Ascii.eqb c "@")) s = true.
Proof.
  induction s as [|c s IH]; simpl; [reflexivity|].
  intro A. apply andb_true_iff in A as [C A].
  now rewrite (local_char_not_at c C), IH.
Qed.

Lemma last_is_snoc (p : ascii -> bool) (s : string) (c : ascii) :
  Spec.last_is p (s ++ String c "") = p c.
Proof.
  induction s as [|d s IH]; [reflexivity|].
  simpl. destruct (s ++ String c "")%string eqn:E; [|exact IH].
  destruct s; discriminate.
Qed.

Lemma string_snoc (c : ascii) (s : string) :
  exists init last, String c s = (init ++ String last "")%string.
Proof.
  revert c; induction s as [|d s IH]; intro c.
  - now exists EmptyString, c.
  - destruct (IH d) as (init & last & E).
    exists (String c init), last. simpl. now rewrite E.
Qed.

Lemma length_snoc (s : string) (c : ascii) :
  String.length (s ++ String c "") = S (String.length s).
Proof. induction s; simpl; congruence. Qed.

Lemma is_letter_alnum (c : ascii) :
  Spec.is_letter c = true -> Spec.is_alnum c = true.
Proof. unfold Spec.is_alnum. now intros ->. Qed.

Lemma is_alnum_local (c : ascii) :
  Spec.is_alnum c = true -> Spec.is_local_char c = true.
Proof. unfold Spec.is_local_char. now intros ->. Qed.

Lemma snoc_append (s : string) (c : ascii) (t : string) :
  (s ++ String c t = (s ++ String c "") ++ t)%string.
Proof. induction s as [|d s IH]; simpl; [reflexivity|]. now rewrite IH. Qed.

Lemma last_is_framed (p : ascii -> bool) (c0 : ascii) (mid : string)
    (cl : ascii) :
  Spec.last_is p (String c0 (mid ++ String cl "")) = p cl.
Proof. exact (last_is_snoc p (String c0 mid) cl). Qed.

Lemma all_chars_framed (p : ascii -> bool) (c0 : ascii) (mid : string)
    (cl : ascii) :
  Spec.all_chars p (String c0 (mid ++ String cl ""))
  = p c0 && (Spec.all_chars p mid && p cl).
Proof. simpl. rewrite all_chars_app. simpl. now rewrite andb_true_r. Qed.

Lemma length_framed (c0 : ascii) (mid : string) (cl : ascii) :
  (2 <=? String.length (String c0 (mid ++ String cl "")))%nat = true.
Proof. simpl. now rewrite length_snoc. Qed.

(** The program's e-mail test, as a property of local part and domain. *)
Lemma emailRe_amended (s : string) :
  Regex.test emailRe s = Spec.isValidCompanyEmail_amended s.
Proof.
  apply eq_true_iff_eq. rewrite emailRe_shape.
  unfold Spec.isValidCompanyEmail_amended. split.
  - intros (c0 & mid & cl & -> & L & A & C).
    assert (L' := is_alnum_local c0 (is_letter_alnum c0 L)).
    assert (C' := is_alnum_local cl C).
    rewrite (snoc_append mid cl "@astrolitetech.com").
    change (String c0 ((mid ++ String cl "") ++ "@astrolitetech.com"))
      with (String c0 (mid ++ String cl "")
            ++ String "@" "astrolitetech.com")%string.
    rewrite split_at_sign_app.
    + rewrite length_framed, last_is_framed, all_chars_framed.
      cbn [Spec.first_is]. now rewrite L, C, A, L', C'.
    + rewrite all_chars_framed, (all_local_no_at mid A).
      now rewrite (local_char_not_at c0 L'), (local_char_not_at cl C').
  - destruct (Spec.split_at_sign s) as [[l dom]|] eqn:E; [|discriminate].
    intro H. apply split_at_sign_some in E. subst s.
    apply andb_true_iff in H as [H Hd].
    apply andb_true_iff in H as [H Ha].
    apply andb_true_iff in H as [H Hl].
    apply andb_true_iff in H as [Hn Hf].
    apply String.eqb_eq in Hd. subst dom.
    destruct l as [|c0 [|c1 l]]; try discriminate.
    destruct (string_snoc c1 l) as (mid & cl & El).
    exists c0, mid, cl. rewrite El in *.
    rewrite last_is_framed in Hl. rewrite all_chars_framed in Ha.
    cbn [Spec.first_is] in Hf.
    apply andb_true_iff in Ha as [_ Ha]. apply andb_true_iff in Ha as [Ha _].
    repeat split; auto.
    simpl. f_equal. now rewrite <- snoc_append.
Qed.

(** ** Buffers: decoding and the ASCII test *)

Lemma N_of_ascii_of_byte (b : byte) :
  N_of_ascii (ascii_of_byte b) = Byte.to_N b.
Proof. destruct b; reflexivity. Qed.

Lemma byte_eqb_N (a b : byte) :
  Byte.eqb a b = (Byte.to_N a =? Byte.to_N b)%N.
Proof.
  destruct (Byte.eqb a b) eqn:E.
  - apply Byte.byte_dec_bl in E. subst. now rewrite N.eqb_refl.
  - symmetry. apply N.eqb_neq. intro H. apply Byte.eqb_false in E.
    apply E. apply (f_equal Byte.of_N) in H.
    rewrite !Byte.of_to_N in H. now injection H.
Qed.

(** [/^[\x00-\x7F]*$/] accepts exactly the strings without a character
    above 127. *)
Lemma asciiRe_spec (s : string) : Regex.test asciiRe s = all_ascii s.
Proof.
  unfold asciiRe. cbn [seqs]. rewrite test_bol. cbn [m].
  generalize 0. induction s as [|c s IH]; intro pos; [reflexivity|].
  cbn [star_cls all_ascii Spec.all_chars]. rewrite orb_false_r.
  unfold all_ascii in IH. rewrite IH.
  unfold in_cls. cbn [existsb in_item]. rewrite orb_false_r.
  change (N_of_ascii "000") with 0%N. change (N_of_ascii "127") with 127%N.
  now rewrite (proj2 (N.leb_le 0 _) (N.le_0_l _)).
Qed.

Lemma all_ascii_app (s t : string) :
  all_ascii (s ++ t) = all_ascii s && all_ascii t.
Proof. apply all_chars_app. Qed.

Lemma all_ascii_chars (bs : list byte) :
  all_ascii (Utf8.chars bs) = forallb is_ascii_byte bs.
Proof.
  induction bs as [|b bs IH]; [reflexivity|].
  unfold all_ascii in *. cbn [Utf8.chars Spec.all_chars forallb].
  now rewrite IH, N_of_ascii_of_byte.
Qed.

Lemma dec_wf_init : dec_wf Utf8.init.
Proof. intro H. now elim H. Qed.

Lemma lead_ascii (b : byte) :
  let '(out, st') := Utf8.lead b in
  dec_wf st'
  /\ all_ascii out && Nat.eqb (Utf8.needed st') 0 = is_ascii_byte b.
Proof.
  unfold Utf8.lead, is_ascii_byte.
  destruct (Byte.to_N b <=? 127)%N eqn:A.
  - split; [apply dec_wf_init|].
    cbn [Utf8.chars all_ascii Spec.all_chars Utf8.init Utf8.needed Nat.eqb].
    now rewrite N_of_ascii_of_byte, A.
  - destruct (Utf8.within 194 223 (Byte.to_N b)).
    + split; [|reflexivity]. intros _; simpl; lia.
    + destruct (Utf8.within 224 239 (Byte.to_N b)).
      * split; [|reflexivity]. intros _; simpl.
        destruct (Byte.to_N b =? 224)%N; lia.
      * destruct (Utf8.within 240 244 (Byte.to_N b)).
        -- split; [|reflexivity]. intros _; simpl.
           destruct (Byte.to_N b =? 240)%N; lia.
        -- split; [apply dec_wf_init|reflexivity].
Qed.

Lemma step_ascii (st : Utf8.state) (b : byte) :
  dec_wf st ->
  let '(out, st') := Utf8.step st b in
  dec_wf st'
  /\ all_ascii out && Nat.eqb (Utf8.needed st') 0
     = Nat.eqb (Utf8.needed st) 0 && is_ascii_byte b.
Proof.
  intro W. unfold Utf8.step.
  destruct (Utf8.needed st) as [|n'] eqn:N.
  - exact (lead_ascii b).
  - assert (128 <= Utf8.lower st)%N as L by (apply W; congruence).
    cbn [Nat.eqb andb].
    destruct (Utf8.within (Utf8.lower st) (Utf8.upper st) (Byte.to_N b)) eqn:R.
    + destruct n' as [|n''].
      * split; [apply dec_wf_init|].
        rewrite all_ascii_chars, forallb_app. cbn [forallb].
        unfold Utf8.within in R. apply andb_true_iff in R as [R _].
        apply N.leb_le in R.
        assert (is_ascii_byte b = false) as -> by
          (unfold is_ascii_byte; apply N.leb_gt; lia).
        now rewrite !andb_false_r.
      * split; [intros _; simpl; lia|]. cbn [Utf8.needed Nat.eqb].
        now rewrite andb_false_r.
    + pose proof (lead_ascii b) as H. destruct (Utf8.lead b) as [out st'].
      destruct H as [W' _]. split; [exact W'|].
      rewrite all_ascii_app. reflexivity.
Qed.

Lemma decode_from_ascii (bs : list byte) (st : Utf8.state) :
  dec_wf st ->
  all_ascii (Utf8.decode_from st bs)
  = Nat.eqb (Utf8.needed st) 0 && forallb is_ascii_byte bs.
Proof.
  revert st; induction bs as [|b bs IH]; intros st W.
  - cbn [Utf8.decode_from forallb]. now destruct (Utf8.needed st).
  - cbn [Utf8.decode_from forallb].
    pose proof (step_ascii st b W) as H.
    destruct (Utf8.step st b) as [out st']. destruct H as [W' H].
    rewrite all_ascii_app, (IH st' W'), !andb_assoc, H. reflexivity.
Qed.

(** Decoding a buffer gives an all-ASCII string exactly when every byte of
    the buffer is below 128. *)
Lemma toString_ascii (buf : Buffer) :
  Regex.test asciiRe (Utf8.toString buf) = forallb is_ascii_byte buf.
Proof.
  rewrite asciiRe_spec. unfold Utf8.toString.
  now rewrite (decode_from_ascii buf Utf8.init dec_wf_init).
Qed.

(* ================================================================== *)
(** * Properties of the engine's input functions *)

Lemma every_app (p : ascii -> bool) (a b : string) :
  Pg.every p (a ++ b) = Pg.every p a && Pg.every p b.
Proof.
  induction a as [|c a IH]; cbn; [reflexivity|].
  now rewrite IH, andb_assoc.
Qed.

Lemma every_impl (p q : ascii -> bool) (s : string) :
  (forall c, p c = true -> q c = true) ->
  Pg.every p s = true -> Pg.every q s = true.
Proof.
  intro H. induction s as [|c s IH]; cbn; [reflexivity|].
  intro A. apply andb_true_iff in A as [A B].
  now rewrite (H c A), IH.
Qed.

Lemma every_all_chars (p : ascii -> bool) (s : string) :
  Pg.every p s = Spec.all_chars p s.
Proof. induction s as [|c s IH]; cbn; [reflexivity|now rewrite IH]. Qed.

(** ** Widths *)

Lemma clip_app (n : nat) (s : string) :
  (fst (Pg.clip n s) ++ snd (Pg.clip n s))%string = s.
Proof.
  revert n. induction s as [|c s IH]; intro n; cbn; [reflexivity|].
  destruct (Pg.is_continuation c).
  - specialize (IH n). destruct (Pg.clip n s) as [a b]. cbn in *.
    now rewrite IH.
  - destruct n as [|n]; [reflexivity|].
    specialize (IH n). destruct (Pg.clip n s) as [a b]. cbn in *.
    now rewrite IH.
Qed.

Lemma clip_length (n : nat) (s : string) :
  Pg.char_length (fst (Pg.clip n s)) <= n.
Proof.
  revert n. induction s as [|c s IH]; intro n; cbn; [lia|].
  destruct (Pg.is_continuation c) eqn:C.
  - specialize (IH n). destruct (Pg.clip n s) as [a b]. cbn in *.
    now rewrite C.
  - destruct n as [|n]; [cbn; lia|].
    specialize (IH n). destruct (Pg.clip n s) as [a b]. cbn in *.
    rewrite C. lia.
Qed.

Lemma clip_all (n : nat) (s : string) :
  Pg.char_length s <= n -> Pg.clip n s = (s, EmptyString).
Proof.
  revert n. induction s as [|c s IH]; intros n L; cbn in *; [reflexivity|].
  destruct (Pg.is_continuation c).
  - now rewrite (IH n L).
  - destruct n as [|n]; [lia|]. now rewrite (IH n) by lia.
Qed.

Lemma char_length_le (s : string) : Pg.char_length s <= String.length s.
Proof.
  induction s as [|c s IH]; cbn; [lia|].
  destruct (Pg.is_continuation c); lia.
Qed.

(** A text within the width is stored as it is. *)
Lemma varchar_fits (n : nat) (s : string) :
  Pg.char_length s <= n -> Pg.varchar n s = Some s.
Proof. intro L. unfold Pg.varchar. now rewrite (clip_all n s L). Qed.

(** What is stored is within the width, and is the text without the
    blanks in excess. *)
Lemma varchar_some (n : nat) (s x : string) :
  Pg.varchar n s = Some x ->
  Pg.char_length x <= n
  /\ exists excess,
       s = (x ++ excess)%string /\ Pg.every Pg.is_blank excess = true.
Proof.
  unfold Pg.varchar. pose proof (clip_app n s) as A.
  pose proof (clip_length n s) as L.
  destruct (Pg.clip n s) as [a b]. cbn in *.
  destruct (Pg.every Pg.is_blank b) eqn:B; [|discriminate].
  intro H. injection H as <-. split; [exact L|].
  exists b. now split.
Qed.

(** More characters than the width, the last of which is no blank, are
    refused. *)
Lemma every_blank_no_blank (s : string) :
  Pg.every Pg.is_blank s = true ->
  Pg.every (fun c => negb (Pg.is_blank c)) s = true ->
  s = EmptyString.
Proof.
  destruct s as [|c s]; [reflexivity|]. cbn.
  destruct (Pg.is_blank c); cbn; discriminate.
Qed.

(** A text without blanks is stored as it is, or refused. *)
Lemma varchar_no_blank (n : nat) (s x : string) :
  Pg.every (fun c => negb (Pg.is_blank c)) s = true ->
  Pg.varchar n s = Some x -> x = s.
Proof.
  intros N V. apply varchar_some in V as (_ & excess & -> & B).
  rewrite every_app in N. apply andb_true_iff in N as [_ N].
  rewrite (every_blank_no_blank excess B N).
  clear. induction x as [|c x IH]; cbn; [reflexivity|]. now rewrite <- IH at 1.
Qed.

Lemma varchar_too_long (n : nat) (s : string) :
  Pg.every (fun c => negb (Pg.is_blank c)) s = true ->
  n < Pg.char_length s -> Pg.varchar n s = None.
Proof.
  intros N L. destruct (Pg.varchar n s) as [x|] eqn:V; [|reflexivity].
  pose proof (varchar_no_blank n s x N V) as ->.
  apply varchar_some in V as [L' _]. lia.
Qed.

Lemma char_length_letters (n : nat) : Pg.char_length (letters n) = n.
Proof. induction n as [|n IH]; cbn; [reflexivity|now rewrite IH]. Qed.

Lemma no_blank_letters (n : nat) :
  Pg.every (fun c => negb (Pg.is_blank c)) (letters n) = true.
Proof. induction n as [|n IH]; cbn; [reflexivity|exact IH]. Qed.

(** ** Texts the server reads *)

Lemma printable_text_ok (s : string) :
  printable s = true -> Pg.text_ok s = true.
Proof.
  apply every_impl. intro c. by_bits c.
Qed.

Lemma digit_not_nul (c : ascii) :
  Spec.is_digit c = true -> negb (N_of_ascii c =? 0)%N = true.
Proof. by_bits c. Qed.

Lemma ATS_not_nul (c : ascii) :
  Spec.is_ATS c = true -> negb (N_of_ascii c =? 0)%N = true.
Proof. by_bits c. Qed.

Lemma eqb_not_nul (c d : ascii) :
  Ascii.eqb c d = true -> negb (N_of_ascii d =? 0)%N = true ->
  negb (N_of_ascii c =? 0)%N = true.
Proof. intro H. apply Ascii.eqb_eq in H. now subst. Qed.

Lemma lookup_id_text_ok (s : string) :
  Spec.lookup_id s = true -> Pg.text_ok s = true.
Proof.
  destruct s as [|c1 [|c2 [|c3 [|z [|d1 [|d2 [|d3 [|]]]]]]]];
    try discriminate.
  unfold Spec.lookup_id. intro H.
  repeat (apply andb_true_iff in H as [H ?]).
  unfold Pg.text_ok. cbn [Pg.every].
  rewrite (ATS_not_nul c1), (ATS_not_nul c2), (ATS_not_nul c3),
    (eqb_not_nul z "0"), (digit_not_nul d1), (digit_not_nul d2),
    (digit_not_nul d3) by (assumption || reflexivity).
  reflexivity.
Qed.

Lemma creation_id_shape (s : string) :
  Spec.creation_id s = true ->
  Pg.text_ok s = true /\ String.length s = 7
  /\ Pg.every (fun c => negb (Pg.is_blank c)) s = true.
Proof.
  destruct s as [|c1 [|c2 [|c3 [|z [|d1 [|d2 [|d3 [|]]]]]]]];
    try discriminate.
  unfold Spec.creation_id. intro H.
  repeat (apply andb_true_iff in H as [H ?]).
  repeat match goal with
         | E : Ascii.eqb _ _ = true |- _ => apply Ascii.eqb_eq in E; subst
         end.
  assert (forall c, Spec.is_digit c = true ->
                    negb (N_of_ascii c =? 0)%N = true
                    /\ negb (Pg.is_blank c) = true) as D.
  { intro c. by_bits c. }
  destruct (D d1) as [? ?]; [assumption|].
  destruct (D d2) as [? ?]; [assumption|].
  destruct (D d3) as [? ?]; [assumption|].
  split; [|split; [reflexivity|]].
  - unfold Pg.text_ok. cbn [Pg.every].
    repeat match goal with
           | E : negb (N_of_ascii _ =? 0)%N = true |- _ => rewrite E; clear E
           end.
    reflexivity.
  - cbn [Pg.every].
    repeat match goal with
           | E : negb (Pg.is_blank _) = true |- _ => rewrite E; clear E
           end.
    reflexivity.
Qed.

Lemma empIdRe_text_ok (s : string) :
  Regex.test empIdRe s = true -> Pg.text_ok s = true.
Proof. rewrite empIdRe_spec. intro H. now apply creation_id_shape in H. Qed.

Lemma empIdLookupRe_text_ok (s : string) :
  Regex.test empIdLookupRe s = true -> Pg.text_ok s = true.
Proof. rewrite empIdLookupRe_spec. apply lookup_id_text_ok. Qed.

(** A validated employee id is stored as it is. *)
Lemma creation_id_column (s : string) :
  Spec.creation_id s = true -> varchar_column 7 (Some s) = Some s.
Proof.
  intro H. apply creation_id_shape in H as (T & L & _).
  unfold varchar_column, and_then. rewrite T.
  apply varchar_fits. pose proof (char_length_le s). lia.
Qed.

(** ** Decimal texts *)

Lemma string_of_uint_digits (u : Decimal.uint) :
  Pg.every Pg.is_digit (NilEmpty.string_of_uint u) = true.
Proof.
  induction u; cbn [NilEmpty.string_of_uint Pg.every];
    try rewrite IHu; reflexivity.
Qed.

(** The text of an integer: a sign if it is negative, then the digits of
    its absolute value, of which there is at least one. *)
Lemma decimal_shape (z : Z) :
  exists u,
    u <> Decimal.Nil
    /\ Js.decimal z
       = ((if (z <? 0)%Z then "-" else "") ++ NilEmpty.string_of_uint u)%string
    /\ Z.of_uint u = Z.abs z.
Proof.
  destruct z as [|p|p].
  - exists (Decimal.D0 Decimal.Nil). repeat split. discriminate.
  - exists (Pos.to_uint p).
    pose proof (DecimalPos.Unsigned.to_uint_nonnil p) as N.
    split; [exact N|]. split.
    + unfold Js.decimal. cbn [Z.to_int NilZero.string_of_int Z.ltb Z.compare].
      cbn [append]. unfold NilZero.string_of_uint.
      destruct (Pos.to_uint p); [now elim N|reflexivity..].
    + unfold Z.of_uint. now rewrite DecimalPos.Unsigned.of_to.
  - exists (Pos.to_uint p).
    pose proof (DecimalPos.Unsigned.to_uint_nonnil p) as N.
    split; [exact N|]. split.
    + unfold Js.decimal. cbn [Z.to_int NilZero.string_of_int Z.ltb Z.compare].
      cbn [append]. unfold NilZero.string_of_uint.
      destruct (Pos.to_uint p); [now elim N|reflexivity..].
    + unfold Z.of_uint. now rewrite DecimalPos.Unsigned.of_to.
Qed.

Lemma digit_facts (c : ascii) :
  Pg.is_digit c = true ->
  Pg.is_space c = false /\ Ascii.eqb c "-" = false /\ Ascii.eqb c "+" = false
  /\ negb (N_of_ascii c =? 0)%N = true /\ negb (Pg.is_blank c) = true.
Proof. by_bits c. Qed.

Lemma decimal_text_ok (z : Z) :
  Pg.text_ok (Js.decimal z) = true
  /\ Pg.every (fun c => negb (Pg.is_blank c)) (Js.decimal z) = true.
Proof.
  destruct (decimal_shape z) as (u & _ & -> & _).
  pose proof (string_of_uint_digits u) as D.
  assert (Pg.text_ok (NilEmpty.string_of_uint u) = true) as T.
  { revert D. apply every_impl. intros c H. now apply digit_facts in H. }
  assert (Pg.every (fun c => negb (Pg.is_blank c))
            (NilEmpty.string_of_uint u) = true) as B.
  { revert D. apply every_impl. intros c H. now apply digit_facts in H. }
  destruct (z <? 0)%Z; cbn [append]; [|now split].
  unfold Pg.text_ok in *. cbn [Pg.every]. rewrite T, B. now split.
Qed.

(** The key of a task is stored as the clock prints it, or refused. *)
Lemma decimal_column (n : nat) (z : Z) (x : string) :
  varchar_column n (Some (Js.decimal z)) = Some x -> x = Js.decimal z.
Proof.
  unfold varchar_column, and_then.
  destruct (decimal_text_ok z) as [T B]. rewrite T.
  now apply varchar_no_blank.
Qed.

Lemma span_digits_all (s : string) :
  Pg.every Pg.is_digit s = true -> Pg.span_digits s = (s, EmptyString).
Proof.
  induction s as [|c s IH]; cbn; [reflexivity|].
  intro H. apply andb_true_iff in H as [C H]. now rewrite C, (IH H).
Qed.

(** The engine reads the text of an integer key as that key. *)
Lemma int4_in_decimal (k : Z) :
  (-2147483648 <= k <= 2147483647)%Z -> Pg.int4_in (Js.decimal k) = Some k.
Proof.
  intro R. destruct (decimal_shape k) as (u & N & -> & V).
  pose proof (string_of_uint_digits u) as D.
  pose proof (NilEmpty.usu u) as U.
  pose proof (span_digits_all _ D) as S.
  assert (exists c r, NilEmpty.string_of_uint u = String c r
                      /\ Pg.is_digit c = true) as (c & r & Eq & Dc).
  { destruct u; [now elim N|..]; cbn [NilEmpty.string_of_uint];
      eexists _, _; split; reflexivity. }
  destruct (digit_facts c Dc) as (Sp & Mi & Pl & _).
  unfold Pg.int4_in. destruct (k <? 0)%Z eqn:Neg; cbn [append].
  - cbn [Pg.skip_spaces]. change (Pg.is_space "-") with false.
    cbn iota. change (Ascii.eqb "-" "-") with true. cbn iota.
    rewrite S, Eq. cbn beta iota. rewrite <- Eq, U. cbn [Pg.every].
    apply Z.ltb_lt in Neg.
    replace (- Z.of_uint u)%Z with k by lia.
    destruct (Z.leb_spec (-2147483648) k); [|lia].
    destruct (Z.leb_spec k 2147483647); [|lia]. reflexivity.
  - assert (Pg.skip_spaces (NilEmpty.string_of_uint u)
            = NilEmpty.string_of_uint u) as K.
    { rewrite Eq. cbn [Pg.skip_spaces]. now rewrite Sp. }
    rewrite K, Eq. cbn beta iota. rewrite Mi, Pl. cbn beta iota.
    rewrite <- Eq, S, Eq. cbn beta iota.
    rewrite <- Eq, U. cbn [Pg.every].
    apply Z.ltb_ge in Neg.
    replace (Z.of_uint u) with k by lia.
    destruct (Z.leb_spec (-2147483648) k); [|lia].
    destruct (Z.leb_spec k 2147483647); [|lia]. reflexivity.
Qed.

Lemma length_append (a b : string) :
  String.length (a ++ b) = String.length a + String.length b.
Proof. induction a as [|c a IH]; cbn; [reflexivity|now rewrite IH]. Qed.

Lemma append_empty (s : string) : (s ++ "")%string = s.
Proof. induction s as [|c s IH]; cbn; [reflexivity|now rewrite IH]. Qed.

(* ================================================================== *)
(** * The content-type sniffer *)

(** C1, counterexample.  The five-step algorithm labels the three ASCII
    bytes [abc] [text/plain] and the bare JPEG prefix [FF D8 FF]
    [image/jpeg]; the handler labels both [application/octet-stream],
    because it only looks at blobs of more than four bytes. *)
Lemma C1_short_blob_counterexample :
  (sniff_spec [x61; x62; x63] = "text/plain"
   /\ sniffContentType [x61; x62; x63] = "application/octet-stream")
  /\ (sniff_spec [xff; xd8; xff] = "image/jpeg"
      /\ sniffContentType [xff; xd8; xff] = "application/octet-stream").
Proof. repeat split. Qed.

(** C1, amended.  On every blob of more than four bytes the handler's
    label is the one the five-step first-match algorithm gives (PDF, PNG,
    JPEG magic numbers, then the ASCII test on the first 100 bytes, then
    [application/octet-stream]); on every blob of at most four bytes it is
    [application/octet-stream]. *)
Theorem C1_sniffer_amended (blob : Buffer) :
  sniffContentType blob
  = if (4 <? List.length blob)%nat then sniff_spec blob
    else "application/octet-stream".
Proof.
  unfold sniffContentType, sniff_spec.
  destruct (4 <? List.length blob)%nat eqn:Len; [|reflexivity].
  rewrite toString_ascii. unfold slice0.
  generalize (forallb is_ascii_byte (firstn 100 blob)). intro txt.
  destruct blob as [|b0 [|b1 [|b2 [|b3 [|b4 rest]]]]]; try discriminate.
  unfold index_is, index, bytes_eqb.
  cbn [nth_error option_map firstn List.length combine forallb fst snd
       Nat.eqb andb].
  rewrite !byte_eqb_N.
  change (Byte.to_N x25) with 37%N. change (Byte.to_N x50) with 80%N.
  change (Byte.to_N x44) with 68%N. change (Byte.to_N x46) with 70%N.
  change (Byte.to_N x89) with 137%N. change (Byte.to_N x4e) with 78%N.
  change (Byte.to_N x47) with 71%N. change (Byte.to_N xff) with 255%N.
  change (Byte.to_N xd8) with 216%N.
  rewrite !andb_true_r.
  repeat match goal with
         | |- context [(Byte.to_N ?b =? ?n)%N] =>
             destruct (Byte.to_N b =? n)%N
         end;
  reflexivity.
Qed.

(* ================================================================== *)
(** * Validation in the handlers *)

Lemma task_required_check (b : TaskForm.body) :
  negb (Js.truthy (TaskForm.taskName b))
  || negb (Js.truthy (TaskForm.employeeName b))
  || negb (Js.truthy (TaskForm.employeeId b))
  || negb (Js.truthy (TaskForm.email b))
  || negb (Js.truthy (TaskForm.taskDescription b))
  || negb (Js.truthy (TaskForm.allocatedDate b))
  || negb (Js.truthy (TaskForm.deadline b))
  = negb (task_fields_present b).
Proof.
  unfold task_fields_present.
  repeat match goal with
         | |- context [Js.truthy ?v] => destruct (Js.truthy v)
         end; reflexivity.
Qed.

Lemma history_required_check (b : HistoryForm.body) :
  negb (Js.truthy (HistoryForm.taskName b))
  || negb (Js.truthy (HistoryForm.employeeName b))
  || negb (Js.truthy (HistoryForm.employeeId b))
  || negb (Js.truthy (HistoryForm.email b))
  || negb (Js.truthy (HistoryForm.description b))
  || negb (Js.truthy (HistoryForm.taskStatus b))
  = negb (history_fields_present b).
Proof.
  unfold history_fields_present.
  repeat match goal with
         | |- context [Js.truthy ?v] => destruct (Js.truthy v)
         end; reflexivity.
Qed.

(** The three checks of [POST /api/tasks], in the order of the handler. *)
Lemma postTask_checks {engine : Engine} (up : bool) (t1 t2 : Z) (b : TaskForm.body) (d : db) :
  postTask up t1 t2 b d =
  if negb (task_fields_present b) then
    (Json 400 (Error "All fields are required"), d)
  else if negb (Js.test emailRe (TaskForm.email b)) then
    (Json 400 (Error "Invalid email format. Must be name@astrolitetech.com"), d)
  else if negb (Js.test empIdRe (TaskForm.employeeId b)) then
    (Json 400 (Error "Invalid employee ID format"), d)
  else
    match
      run up
        (insert_task
           (param (Js.Str (Js.decimal t1)))
           (param (TaskForm.taskName b))
           (param (TaskForm.employeeName b))
           (param (TaskForm.employeeId b))
           (param (TaskForm.email b))
           (param (TaskForm.taskDescription b))
           (param (TaskForm.allocatedDate b))
           (param (TaskForm.deadline b))
           (param (Js.or (TaskForm.status b) (Js.Str "assigned")))
           t2 d)
    with
    | Some (r, d') => (Json 200 (ATask r), d')
    | None => (Json 500 (Error "Failed to save task"), d)
    end.
Proof. unfold postTask. now rewrite task_required_check. Qed.

Lemma postTaskHistory_checks {engine : Engine} (up : bool) (t : Z) (b : HistoryForm.body)
    (file : option Buffer) (d : db) :
  postTaskHistory up t b file d =
  if negb (history_fields_present b) then
    (Json 400 (Error "All fields are required"), d)
  else if negb (Js.test emailRe (HistoryForm.email b)) then
    (Json 400 (Error "Invalid email format"), d)
  else if negb (Js.test empIdRe (HistoryForm.employeeId b)) then
    (Json 400 (Error "Invalid employee ID format"), d)
  else if up then
    match
      insert_history
        (param (HistoryForm.taskName b))
        (param (HistoryForm.employeeName b))
        (param (HistoryForm.employeeId b))
        (param (HistoryForm.email b))
        (param (HistoryForm.description b))
        file
        (param (HistoryForm.taskStatus b))
        t d
    with
    | (Some v, d') => (Json 200 (Saved v), d')
    | (None, d') => (Json 500 (Error "Failed to save task history"), d')
    end
  else (Json 500 (Error "Failed to save task history"), d).
Proof. unfold postTaskHistory. now rewrite history_required_check. Qed.

(** C2, counterexample.  A one-character local part, and a local part that
    starts with a digit, start and end with an alphanumeric character, so
    the specification accepts them; the program's expression rejects both,
    and [POST /api/tasks] answers 400. *)
Lemma C2_short_local_part_counterexample :
  (Spec.isValidCompanyEmail "a@astrolitetech.com" = true
   /\ Regex.test emailRe "a@astrolitetech.com" = false)
  /\ (Spec.isValidCompanyEmail "9a@astrolitetech.com" = true
      /\ Regex.test emailRe "9a@astrolitetech.com" = false)
  /\ fst (postTask true 1700000000000 0
            (TaskForm.mkBody (Js.Str "Report") (Js.Str "Asha")
               (Js.Str "ATS0123") (Js.Str "a@astrolitetech.com")
               (Js.Str "Write it") (Js.Str "2024-01-15")
               (Js.Str "2024-01-31") Js.Undefined)
            (create_tables Store.empty))
     = Json 400 (Error "Invalid email format. Must be name@astrolitetech.com").
Proof. repeat split. Qed.

(** C2, amended.  The e-mail test of [POST /api/tasks] and
    [POST /api/task-history] accepts a string iff its local part has at
    least two characters, starts with a letter, ends with an alphanumeric
    character and contains only alphanumerics and [.], [_], [-], and the
    domain is exactly [astrolitetech.com]; [a.b-c_9@astrolitetech.com] is
    accepted, [a@astrolitetech.com], [.abc@astrolitetech.com] and
    [abc@other.com] are rejected; a request whose fields are all present
    and whose e-mail is rejected gets a 400 response. *)
Theorem C2_email_validator_amended {engine : Engine} :
  (forall s, Regex.test emailRe s = Spec.isValidCompanyEmail_amended s)
  /\ Regex.test emailRe "a.b-c_9@astrolitetech.com" = true
  /\ Regex.test emailRe "a@astrolitetech.com" = false
  /\ Regex.test emailRe ".abc@astrolitetech.com" = false
  /\ Regex.test emailRe "abc@other.com" = false
  /\ (forall up t1 t2 b d,
         task_fields_present b = true ->
         Js.test emailRe (TaskForm.email b) = false ->
         postTask up t1 t2 b d
         = (Json 400
              (Error "Invalid email format. Must be name@astrolitetech.com"),
            d))
  /\ (forall up t b file d,
         history_fields_present b = true ->
         Js.test emailRe (HistoryForm.email b) = false ->
         postTaskHistory up t b file d
         = (Json 400 (Error "Invalid email format"), d)).
Proof.
  split; [exact emailRe_amended|].
  do 4 (split; [reflexivity|]).
  split.
  - intros up t1 t2 b d P E. rewrite postTask_checks, P, E. reflexivity.
  - intros up t b file d P E. rewrite postTaskHistory_checks, P, E.
    reflexivity.
Qed.

(** A request the theorem applies to: every field present, one-character
    local part. *)
Lemma C2_email_validator_witness :
  postTask true 1700000000000 0
    (TaskForm.mkBody (Js.Str "Report") (Js.Str "Asha") (Js.Str "ATS0123")
       (Js.Str "a@astrolitetech.com") (Js.Str "Write it")
       (Js.Str "2024-01-15") (Js.Str "2024-01-31") Js.Undefined)
    Store.empty
  = (Json 400 (Error "Invalid email format. Must be name@astrolitetech.com"),
     Store.empty).
Proof.
  apply (proj1 (proj2 (proj2 (proj2 (proj2 (proj2
           C2_email_validator_amended)))))); reflexivity.
Defined.

(** C3.  The employee-lookup endpoint accepts exactly the strings made of
    three characters among A, T, S, then [0], then three digits other than
    [000]; the task and task-history endpoints accept exactly [ATS0]
    followed by three digits.  Each endpoint answers 400 exactly on the
    strings its own predicate rejects; [ATS0000] is rejected by the lookup
    and accepted by the others. *)
Theorem C3_two_employee_id_predicates {engine : Engine} :
  (forall s, Regex.test empIdLookupRe s = Spec.lookup_id s)
  /\ (forall s, Regex.test empIdRe s = Spec.creation_id s)
  /\ (forall up s d,
         code_of (getEmployee up s d) = 400 <-> Spec.lookup_id s = false)
  /\ (forall up s d,
         s <> "" ->
         (code_of (getTasks up (Some s) d) = 400
          <-> Spec.creation_id s = false))
  /\ (forall up s d,
         s <> "" ->
         (code_of (getTaskHistory up (Some s) d) = 400
          <-> Spec.creation_id s = false))
  /\ (forall up t1 t2 b d,
         task_fields_present b = true ->
         Js.test emailRe (TaskForm.email b) = true ->
         (code_of (fst (postTask up t1 t2 b d)) = 400
          <-> Spec.creation_id (Js.ToString (TaskForm.employeeId b)) = false))
  /\ (forall up t b file d,
         history_fields_present b = true ->
         Js.test emailRe (HistoryForm.email b) = true ->
         (code_of (fst (postTaskHistory up t b file d)) = 400
          <-> Spec.creation_id (Js.ToString (HistoryForm.employeeId b))
              = false))
  /\ (Spec.lookup_id "ATS0000" = false /\ Spec.creation_id "ATS0000" = true)
  /\ (Spec.lookup_id "SAT0001" = true /\ Spec.creation_id "SAT0001" = false).
Proof.
  split; [exact empIdLookupRe_spec|].
  split; [exact empIdRe_spec|].
  split.
  { intros up s d. unfold getEmployee. rewrite empIdLookupRe_spec.
    destruct (Spec.lookup_id s); cbn [negb].
    - destruct (run up (select_employee s d)) as [[|r rs]|]; cbn [code_of];
        split; discriminate.
    - split; reflexivity. }
  split.
  { intros up s d N. unfold getTasks. cbn [of_query Js.truthy].
    destruct (String.eqb_spec s "") as [->|_]; [now elim N|]. cbn [negb].
    unfold Js.test. cbn [Js.ToString]. rewrite empIdRe_spec.
    destruct (Spec.creation_id s); cbn [negb].
    - destruct (run up (select_tasks_of s d)); cbn [code_of];
        split; discriminate.
    - split; reflexivity. }
  split.
  { intros up s d N. unfold getTaskHistory. cbn [of_query Js.truthy].
    destruct (String.eqb_spec s "") as [->|_]; [now elim N|]. cbn [negb].
    unfold Js.test. cbn [Js.ToString]. rewrite empIdRe_spec.
    destruct (Spec.creation_id s); cbn [negb].
    - destruct (run up (select_history_of s d)); cbn [code_of];
        split; discriminate.
    - split; reflexivity. }
  split.
  { intros up t1 t2 b d P E. rewrite postTask_checks, P, E. cbn [negb].
    unfold Js.test. rewrite empIdRe_spec.
    destruct (Spec.creation_id _); cbn [negb].
    - destruct (run up _) as [[r d']|]; cbn [fst code_of]; split; discriminate.
    - split; reflexivity. }
  split.
  { intros up t b file d P E. rewrite postTaskHistory_checks, P, E.
    cbn [negb]. unfold Js.test. rewrite empIdRe_spec.
    destruct (Spec.creation_id _); cbn [negb].
    - destruct up; [|split; discriminate].
      destruct (insert_history _ _ _ _ _ _ _ _ _) as [[v|] d'];
        cbn [fst code_of]; split; discriminate.
    - split; reflexivity. }
  repeat split.
Qed.

(** The boundary string at the listing endpoint: not a 400. *)
Lemma C3_two_employee_id_predicates_witness :
  code_of (getTasks true (Some "ATS0000") (create_tables Store.empty)) = 400
  <-> Spec.creation_id "ATS0000" = false.
Proof.
  apply (proj1 (proj2 (proj2 (proj2 C3_two_employee_id_predicates)))).
  discriminate.
Defined.



(* ================================================================== *)
(** * Ordering of result sets *)

Section OrderBy.

Context {R : Type} (key : R -> Z).

Lemma insert_desc_perm (x : R) (l : list R) :
  Permutation (x :: l) (insert_desc key x l).
Proof.
  induction l as [|y l IH]; simpl; [apply Permutation_refl|].
  destruct (key y <=? key x)%Z; [apply Permutation_refl|].
  eapply perm_trans; [apply perm_swap|]. now apply perm_skip.
Qed.

Lemma order_by_desc_perm (l : list R) : Permutation l (order_by_desc key l).
Proof.
  induction l as [|x l IH]; simpl; [apply perm_nil|].
  eapply perm_trans; [|apply insert_desc_perm]. now apply perm_skip.
Qed.

Lemma insert_desc_sorted (x : R) (l : list R) :
  StronglySorted (before_desc key) l ->
  StronglySorted (before_desc key) (insert_desc key x l).
Proof.
  induction 1 as [|y l S IH F]; simpl.
  - constructor; constructor.
  - destruct (key y <=? key x)%Z eqn:C.
    + apply Z.leb_le in C. constructor; [now constructor|].
      constructor; [exact C|].
      eapply Forall_impl; [|exact F]. unfold before_desc. intros; lia.
    + apply Z.leb_gt in C. constructor; [exact IH|].
      eapply Permutation_Forall; [apply insert_desc_perm|].
      constructor; [unfold before_desc; lia|exact F].
Qed.

Lemma order_by_desc_sorted (l : list R) :
  StronglySorted (before_desc key) (order_by_desc key l).
Proof.
  induction l as [|x l IH]; simpl; [constructor|].
  now apply insert_desc_sorted.
Qed.

End OrderBy.

(** C7.  Without a filter (or with an empty one, which the handler treats
    as absent) [GET /api/tasks] returns every row of [tasks], newest
    [created_at] first.  A non-empty filter that is not [ATS0] followed by
    three digits gets a 400 "Invalid employee ID format" whatever the state
    of the store; one that is gets exactly the rows whose [employee_id]
    equals it, newest first. *)
Theorem C7_list_tasks :
  (forall d t,
      tasks d = Some t ->
      exists rows,
        getTasks true None d = Json 200 (Tasks rows)
        /\ Permutation rows (tbl_rows t)
        /\ StronglySorted (before_desc Task.created_at) rows)
  /\ (forall up d, getTasks up (Some "") d = getTasks up None d)
  /\ (forall up s d,
         s <> "" -> Regex.test empIdRe s = false ->
         getTasks up (Some s) d
         = Json 400 (Error "Invalid employee ID format"))
  /\ (forall s d t,
         s <> "" -> Regex.test empIdRe s = true -> tasks d = Some t ->
         exists rows,
           getTasks true (Some s) d = Json 200 (Tasks rows)
           /\ Permutation rows
                (filter (fun r => String.eqb (Task.employee_id r) s)
                        (tbl_rows t))
           /\ (forall r, In r rows
                         <-> In r (tbl_rows t) /\ Task.employee_id r = s)
           /\ StronglySorted (before_desc Task.created_at) rows).
Proof.
  split.
  { intros d t T. unfold getTasks, select_tasks. cbn [of_query Js.truthy run].
    rewrite T. cbn [option_map]. eexists. split; [reflexivity|]. split.
    - apply Permutation_sym, order_by_desc_perm.
    - apply order_by_desc_sorted. }
  split; [reflexivity|].
  split.
  { intros up s d N E. unfold getTasks. cbn [of_query Js.truthy].
    destruct (String.eqb_spec s "") as [->|_]; [now elim N|]. cbn [negb].
    unfold Js.test. cbn [Js.ToString]. now rewrite E. }
  intros s d t N E T. unfold getTasks, select_tasks_of.
  cbn [of_query Js.truthy].
  destruct (String.eqb_spec s "") as [->|_]; [now elim N|]. cbn [negb].
  unfold Js.test. cbn [Js.ToString run].
  rewrite E, (empIdRe_text_ok s E), T. cbn [negb option_map].
  eexists. split; [reflexivity|].
  assert (Permutation
            (order_by_desc Task.created_at
               (filter (fun r => String.eqb (Task.employee_id r) s)
                       (tbl_rows t)))
            (filter (fun r => String.eqb (Task.employee_id r) s)
                    (tbl_rows t))) as P
    by apply Permutation_sym, order_by_desc_perm.
  split; [exact P|]. split; [|apply order_by_desc_sorted].
  intro r. split.
  - intro H. apply (Permutation_in _ P) in H. apply filter_In in H as [H M].
    split; [exact H|]. now apply String.eqb_eq.
  - intros [H M]. apply (Permutation_in _ (Permutation_sym P)).
    apply filter_In. split; [exact H|]. now apply String.eqb_eq.
Qed.

(** A store with two tasks of two employees, listed for one of them. *)
Lemma C7_list_tasks_witness :
  exists rows,
    getTasks true (Some "ATS0123") demo_db = Json 200 (Tasks rows)
    /\ Permutation rows
         (filter (fun r => String.eqb (Task.employee_id r) "ATS0123")
                 (tbl_rows demo_tasks))
    /\ (forall r, In r rows <->
          In r (tbl_rows demo_tasks) /\ Task.employee_id r = "ATS0123")
    /\ StronglySorted (before_desc Task.created_at) rows.
Proof.
  apply (proj2 (proj2 (proj2 C7_list_tasks)) "ATS0123" demo_db demo_tasks);
    [discriminate | reflexivity | reflexivity].
Defined.

(* ================================================================== *)
(** * Creating and fetching tasks *)

Lemma param_truthy (v : Js.value) :
  Js.truthy v = true -> param v = Some (Driver.text v).
Proof. destruct v; simpl; congruence. Qed.

Lemma or_truthy (v : Js.value) (s : string) :
  s <> "" -> Js.truthy (Js.or v (Js.Str s)) = true.
Proof.
  intro N. unfold Js.or. destruct (Js.truthy v) eqn:T; [exact T|].
  simpl. now destruct (String.eqb_spec s "").
Qed.

Lemma or_falsy (v w : Js.value) : Js.truthy v = false -> Js.or v w = w.
Proof. intro F. unfold Js.or. now rewrite F. Qed.

Lemma filter_none {A : Type} (p : A -> bool) (l : list A) :
  existsb p l = false -> filter p l = [].
Proof.
  induction l as [|x l IH]; simpl; [reflexivity|].
  intro H. apply orb_false_iff in H as [-> H]. now apply IH.
Qed.

(** A string within the width of its column is kept as it is. *)
Lemma varchar_column_str (n : nat) (s x : string) :
  varchar_column n (param (Js.Str s)) = Some x ->
  Pg.char_length s <= n -> x = s.
Proof.
  change (param (Js.Str s)) with (Some s). unfold varchar_column, and_then.
  destruct (Pg.text_ok s); [|discriminate].
  intros V L. rewrite (varchar_fits n s L) in V. now injection V.
Qed.

Lemma text_column_str (s x : string) :
  text_column (param (Js.Str s)) = Some x -> x = s.
Proof.
  change (param (Js.Str s)) with (Some s). unfold text_column, and_then.
  destruct (Pg.text_ok s); [|discriminate].
  intro V. now injection V.
Qed.

Lemma date_column_str {engine : Engine} (s : string) (day : Z) :
  date_column (param (Js.Str s)) = Some day -> date_in s = Some day.
Proof.
  change (param (Js.Str s)) with (Some s). unfold date_column, and_then.
  now destruct (Pg.text_ok s).
Qed.

(** What a column keeps is within its width. *)
Lemma varchar_column_length (n : nat) (p : option string) (x : string) :
  varchar_column n p = Some x -> Pg.char_length x <= n.
Proof.
  unfold varchar_column, and_then. destruct p as [s|]; [|discriminate].
  destruct (Pg.text_ok s); [|discriminate].
  intro V. now apply varchar_some in V.
Qed.

(** [POST /api/tasks], case by case: the three checks, then the pool, the
    table, the columns and the key. *)
Lemma postTask_cases {engine : Engine} (up : bool) (t1 t2 : Z)
    (b : TaskForm.body) (d : db) :
  postTask up t1 t2 b d =
  if negb (task_fields_present b) then
    (Json 400 (Error "All fields are required"), d)
  else if negb (Js.test emailRe (TaskForm.email b)) then
    (Json 400 (Error "Invalid email format. Must be name@astrolitetech.com"), d)
  else if negb (Js.test empIdRe (TaskForm.employeeId b)) then
    (Json 400 (Error "Invalid employee ID format"), d)
  else
    match up, tasks d, task_row_of b t1 t2 with
    | true, Some t, Some r =>
        if task_id_free (Task.id r) t
        then (Json 200 (ATask r), with_task r t d)
        else (Json 500 (Error "Failed to save task"), d)
    | _, _, _ => (Json 500 (Error "Failed to save task"), d)
    end.
Proof.
  rewrite postTask_checks.
  destruct (negb (task_fields_present b)); [reflexivity|].
  destruct (negb (Js.test emailRe _)); [reflexivity|].
  destruct (negb (Js.test empIdRe _)); [reflexivity|].
  unfold run, insert_task, task_row_of, task_id_free, with_task.
  destruct up; [|reflexivity].
  destruct (tasks d) as [t|]; cbn [and_then]; [|reflexivity].
  destruct (task_row _ _ _ _ _ _ _ _ _ _) as [r|]; cbn [and_then];
    [|reflexivity].
  now destruct (existsb _ (tbl_rows t)).
Qed.

(** When the request is answered with a row. *)
Lemma postTask_200 {engine : Engine} (up : bool) (t1 t2 : Z)
    (b : TaskForm.body) (d d' : db) (r : Task.row) :
  postTask up t1 t2 b d = (Json 200 (ATask r), d')
  <-> up = true
      /\ task_request_valid b = true
      /\ task_row_of b t1 t2 = Some r
      /\ exists t,
           tasks d = Some t /\ task_id_free (Task.id r) t = true
           /\ d' = with_task r t d.
Proof.
  rewrite postTask_cases. unfold task_request_valid.
  destruct (task_fields_present b); cbn [negb andb];
    [|split; [discriminate|now intros (_ & H & _)]].
  destruct (Js.test emailRe _); cbn [negb andb];
    [|split; [discriminate|now intros (_ & H & _)]].
  destruct (Js.test empIdRe _); cbn [negb andb];
    [|split; [discriminate|now intros (_ & H & _)]].
  destruct up; [|split; [discriminate|now intros (H & _)]].
  destruct (tasks d) as [t|];
    [|split; [discriminate|now intros (_ & _ & _ & t & H & _)]].
  destruct (task_row_of b t1 t2) as [r0|];
    [|split; [discriminate|now intros (_ & _ & H & _)]].
  destruct (task_id_free (Task.id r0) t) eqn:F.
  - split.
    + intro H. injection H as -> <-. repeat split. now exists t.
    + intros (_ & _ & H & t' & T & _ & ->). injection H as ->.
      now injection T as ->.
  - split; [discriminate|].
    intros (_ & _ & H & t' & T & F' & _). injection H as ->.
    injection T as ->. congruence.
Qed.

(** The columns of the row, one by one. *)
Lemma task_row_of_columns {engine : Engine} (b : TaskForm.body) (t1 t2 : Z)
    (r : Task.row) :
  task_row_of b t1 t2 = Some r ->
  Task.id r = Js.decimal t1
  /\ varchar_column 100 (param (TaskForm.taskName b))
     = Some (Task.task_name r)
  /\ varchar_column 100 (param (TaskForm.employeeName b))
     = Some (Task.employee_name r)
  /\ varchar_column 7 (param (TaskForm.employeeId b))
     = Some (Task.employee_id r)
  /\ varchar_column 100 (param (TaskForm.email b)) = Some (Task.email r)
  /\ text_column (param (TaskForm.taskDescription b))
     = Some (Task.task_description r)
  /\ date_column (param (TaskForm.allocatedDate b))
     = Some (Task.allocated_date r)
  /\ date_column (param (TaskForm.deadline b)) = Some (Task.deadline r)
  /\ varchar_column 20
       (param (Js.or (TaskForm.status b) (Js.Str "assigned")))
     = Some (Task.status r)
  /\ Task.created_at r = t2.
Proof.
  unfold task_row_of, task_row. intro H. columns H.
  injection H as <-. cbn [Task.id Task.task_name Task.employee_name
    Task.employee_id Task.email Task.task_description Task.allocated_date
    Task.deadline Task.status Task.created_at].
  repeat split. now apply (decimal_column 255).
Qed.

Lemma task_row_of_id {engine : Engine} (b : TaskForm.body) (t1 t2 : Z)
    (r : Task.row) :
  task_row_of b t1 t2 = Some r -> Task.id r = Js.decimal t1.
Proof. intro H. now apply task_row_of_columns in H. Qed.

(** With a falsy [status] the row has the default. *)
Lemma task_row_of_falsy_status {engine : Engine} (b : TaskForm.body)
    (t1 t2 : Z) (r : Task.row) :
  Js.truthy (TaskForm.status b) = false ->
  task_row_of b t1 t2 = Some r -> Task.status r = "assigned".
Proof.
  intros F H. apply task_row_of_columns in H.
  destruct H as (_ & _ & _ & _ & _ & _ & _ & _ & S & _).
  rewrite (or_falsy _ _ F) in S. cbn in S. now injection S.
Qed.

Lemma getTask_after_insert (r : Task.row) (t : table Task.row) (d : db) :
  Pg.text_ok (Task.id r) = true ->
  task_id_free (Task.id r) t = true ->
  getTask true (Task.id r) (with_task r t d) = Json 200 (ATask r).
Proof.
  intros K F. unfold getTask, select_task, with_task. rewrite K.
  cbn [run tasks option_map].
  cbn [tbl_rows]. rewrite filter_app.
  unfold task_id_free in F. apply negb_true_iff in F.
  rewrite (filter_none _ _ F). cbn [filter app].
  now rewrite String.eqb_refl.
Qed.

(** C6, counterexample.  The payload passes every check of the handler and
    is stored; the row fetched under the returned id carries its
    [allocated_date] as the timestamp [2024-02-01T00:00:00.000Z], not as
    the submitted [2024-02-01].  A second payload, valid as well, has a
    task name of 101 letters: the column refuses it, the request is
    answered 500 and there is no row to fetch. *)
Lemma C6_round_trip_counterexample :
  (exists r d',
      postTask true 1700000000003 40 (demo_task_body Js.Undefined) demo_db
      = (Json 200 (ATask r), d')
      /\ getTask true (Task.id r) d' = Json 200 (ATask r)
      /\ TaskForm.allocatedDate (demo_task_body Js.Undefined)
         = Js.Str "2024-02-01"
      /\ In ("allocated_date", Js.Str "2024-02-01T00:00:00.000Z")
            (task_json r))
  /\ (let b := TaskForm.mkBody (Js.Str (letters 101)) (Js.Str "Asha")
                 (Js.Str "ATS0123") (Js.Str "asha@astrolitetech.com")
                 (Js.Str "Run payroll") (Js.Str "2024-02-01")
                 (Js.Str "2024-02-05") Js.Undefined in
      task_request_valid b = true
      /\ postTask true 1700000000003 40 b demo_db
         = (Json 500 (Error "Failed to save task"), demo_db)).
Proof.
  split.
  - exists demo_task_3, (with_task demo_task_3 demo_tasks demo_db).
    repeat split. do 6 right. left. reflexivity.
  - split; reflexivity.
Qed.

(** C6, amended.  A request to [POST /api/tasks] is answered with a row
    exactly when it passes the three checks, every column of [tasks]
    takes its value and the key is free; [GET /api/tasks/:id] with the
    returned id then yields that same row.  The key is the text of the
    millisecond clock; each [VARCHAR(n)] column holds what it keeps of the
    text the driver sends for the field, which for a string of at most [n]
    characters is the string itself; [task_description] holds the text
    sent; the two [DATE] columns hold the dates the engine reads in the
    texts sent, not the texts, and the reply shows them as the driver and
    [JSON.stringify] write a date; [status] holds the submitted status or
    the default, and [created_at] the clock of the store. *)
Theorem C6_task_round_trip_amended {engine : Engine} (b : TaskForm.body)
    (t1 t2 : Z) (d : db) :
  (forall r d',
      postTask true t1 t2 b d = (Json 200 (ATask r), d')
      <-> task_request_valid b = true
          /\ task_row_of b t1 t2 = Some r
          /\ exists t,
               tasks d = Some t /\ task_id_free (Task.id r) t = true
               /\ d' = with_task r t d)
  /\ (forall r d',
         postTask true t1 t2 b d = (Json 200 (ATask r), d') ->
         getTask true (Task.id r) d' = Json 200 (ATask r))
  /\ (forall r,
         task_row_of b t1 t2 = Some r ->
         Task.id r = Js.decimal t1
         /\ varchar_column 100 (param (TaskForm.taskName b))
            = Some (Task.task_name r)
         /\ varchar_column 100 (param (TaskForm.employeeName b))
            = Some (Task.employee_name r)
         /\ varchar_column 7 (param (TaskForm.employeeId b))
            = Some (Task.employee_id r)
         /\ varchar_column 100 (param (TaskForm.email b))
            = Some (Task.email r)
         /\ text_column (param (TaskForm.taskDescription b))
            = Some (Task.task_description r)
         /\ date_column (param (TaskForm.allocatedDate b))
            = Some (Task.allocated_date r)
         /\ date_column (param (TaskForm.deadline b))
            = Some (Task.deadline r)
         /\ varchar_column 20
              (param (Js.or (TaskForm.status b) (Js.Str "assigned")))
            = Some (Task.status r)
         /\ Task.created_at r = t2)
  /\ (forall n s x,
         varchar_column n (param (Js.Str s)) = Some x ->
         Pg.char_length s <= n -> x = s)
  /\ (forall s x, text_column (param (Js.Str s)) = Some x -> x = s)
  /\ (forall s day,
         date_column (param (Js.Str s)) = Some day -> date_in s = Some day)
  /\ (forall r s1 s2,
         task_row_of b t1 t2 = Some r ->
         TaskForm.allocatedDate b = Js.Str s1 ->
         TaskForm.deadline b = Js.Str s2 ->
         exists day1 day2,
           date_in s1 = Some day1 /\ date_in s2 = Some day2
           /\ In ("allocated_date", date_out day1) (task_json r)
           /\ In ("deadline", date_out day2) (task_json r)).
Proof.
  split; [|split; [|split; [|split; [|split; [|split]]]]].
  - intros r d'. rewrite postTask_200. split.
    + now intros (_ & H).
    + intro H. now split.
  - intros r d' H. apply postTask_200 in H as (_ & _ & R & t & T & F & ->).
    apply getTask_after_insert; [|exact F].
    rewrite (task_row_of_id b t1 t2 r R). apply decimal_text_ok.
  - intro r. apply task_row_of_columns.
  - apply varchar_column_str.
  - apply text_column_str.
  - intros s day. apply date_column_str.
  - intros r s1 s2 R A D.
    apply task_row_of_columns in R as (_ & _ & _ & _ & _ & _ & Ad & Dl & _).
    rewrite A in Ad. rewrite D in Dl.
    apply date_column_str in Ad. apply date_column_str in Dl.
    exists (Task.allocated_date r), (Task.deadline r).
    repeat split; try assumption; cbn; tauto.
Qed.

(** The request of the example store, stored and fetched again. *)
Lemma C6_task_round_trip_witness :
  getTask true (Task.id demo_task_3)
    (with_task demo_task_3 demo_tasks demo_db)
  = Json 200 (ATask demo_task_3)
  /\ date_in "2024-02-01" = Some (Task.allocated_date demo_task_3).
Proof.
  split.
  - apply (proj1 (proj2 (C6_task_round_trip_amended
                           (demo_task_body Js.Undefined)
                           1700000000003 40 demo_db))).
    reflexivity.
  - apply (proj1 (proj2 (proj2 (proj2 (proj2 (proj2
             (C6_task_round_trip_amended (demo_task_body Js.Undefined)
                1700000000003 40 demo_db))))))).
    reflexivity.
Defined.

(** C10.  When the [status] of a request to [POST /api/tasks] is falsy
    (absent, [null], [false], [0] or the empty string), a row the request
    is answered with has status [assigned], and so has every row the
    request adds to [tasks], whatever the state of the pool.  The request
    is answered with such a row when it passes the three checks, every
    column takes its value and the key is free. *)
Theorem C10_falsy_status_defaults {engine : Engine} (b : TaskForm.body)
    (t1 t2 : Z) (d : db) :
  Js.truthy (TaskForm.status b) = false ->
  (forall up r d',
      postTask up t1 t2 b d = (Json 200 (ATask r), d') ->
      Task.status r = "assigned"
      /\ exists t,
           tasks d = Some t
           /\ option_map tbl_rows (tasks d') = Some (tbl_rows t ++ [r]))
  /\ (forall up t t' r',
         tasks d = Some t ->
         tasks (snd (postTask up t1 t2 b d)) = Some t' ->
         In r' (tbl_rows t') ->
         In r' (tbl_rows t) \/ Task.status r' = "assigned")
  /\ (forall t r,
         task_request_valid b = true ->
         tasks d = Some t ->
         task_row_of b t1 t2 = Some r ->
         task_id_free (Task.id r) t = true ->
         postTask true t1 t2 b d = (Json 200 (ATask r), with_task r t d)
         /\ Task.status r = "assigned").
Proof.
  intro S. split; [|split].
  - intros up r d' H. apply postTask_200 in H as (_ & _ & R & t & T & _ & ->).
    split; [now apply (task_row_of_falsy_status b t1 t2)|].
    now exists t.
  - intros up t t' r' T T' I. rewrite postTask_cases in T'.
    destruct (negb (task_fields_present b));
      [cbn in T'; rewrite T in T'; injection T' as <-; now left|].
    destruct (negb (Js.test emailRe _));
      [cbn in T'; rewrite T in T'; injection T' as <-; now left|].
    destruct (negb (Js.test empIdRe _));
      [cbn in T'; rewrite T in T'; injection T' as <-; now left|].
    rewrite T in T'.
    destruct up;
      [|cbn in T'; rewrite T in T'; injection T' as <-; now left].
    destruct (task_row_of b t1 t2) as [r|] eqn:R;
      [|cbn in T'; rewrite T in T'; injection T' as <-; now left].
    destruct (task_id_free (Task.id r) t);
      [|cbn in T'; rewrite T in T'; injection T' as <-; now left].
    cbn in T'. injection T' as <-. cbn in I.
    apply in_app_or in I as [I|[<-|[]]]; [now left|right].
    now apply (task_row_of_falsy_status b t1 t2).
  - intros t r V T R F. split.
    + apply postTask_200. repeat split; try assumption. now exists t.
    + now apply (task_row_of_falsy_status b t1 t2).
Qed.

(** The empty string as the status of the request of the example store,
    and the other falsy values. *)
Lemma C10_falsy_status_witness :
  (postTask true 1700000000003 40 (demo_task_body (Js.Str "")) demo_db
   = (Json 200 (ATask demo_task_3), with_task demo_task_3 demo_tasks demo_db)
   /\ Task.status demo_task_3 = "assigned")
  /\ Js.truthy (Js.Num "0") = false
  /\ Js.truthy Js.Null = false
  /\ Js.truthy Js.Undefined = false
  /\ Js.truthy (Js.Bool false) = false.
Proof.
  split; [|repeat split].
  apply (proj2 (proj2 (C10_falsy_status_defaults (demo_task_body (Js.Str ""))
                         1700000000003 40 demo_db eq_refl))
           demo_tasks demo_task_3);
    reflexivity.
Defined.

(* ================================================================== *)
(** * Task history and its documents *)

Lemma filter_head_find {A : Type} (p : A -> bool) (l : list A) :
  hd_error (filter p l) = find p l.
Proof.
  induction l as [|x l IH]; simpl; [reflexivity|].
  now destruct (p x).
Qed.

Lemma find_none_iff {A : Type} (p : A -> bool) (l : list A) :
  find p l = None <-> forall x, In x l -> p x = false.
Proof.
  split; [intros H x; now apply find_none|].
  induction l as [|x l IH]; simpl; [reflexivity|]. intro H.
  rewrite (H x (or_introl eq_refl)). apply IH. intros y Y. apply H. now right.
Qed.

(** The file handler, in terms of the first row found under the key the
    engine reads in the route parameter. *)
Lemma getHistoryFile_find (id : string) (k : Z) (d : db)
    (t : table History.row) :
  Pg.int4_in id = Some k ->
  task_history d = Some t ->
  getHistoryFile true id d
  = match find (fun r => (History.id r =? k)%Z) (tbl_rows t) with
    | None => Json 404 (Error "File not found")
    | Some r =>
        match History.upload_doc r with
        | None => Json 404 (Error "File not found")
        | Some fileBuffer =>
            File 200 (Express.content_type (sniffContentType fileBuffer))
                 "inline" fileBuffer
        end
    end.
Proof.
  intros K T. unfold getHistoryFile, select_history_by_id. cbn [run].
  rewrite K, T. cbn [and_then option_map]. rewrite <- filter_head_find.
  now destruct (filter _ (tbl_rows t)).
Qed.

(** A route parameter that is no [integer] makes the statement fail. *)
Lemma getHistoryFile_no_key (up : bool) (id : string) (d : db) :
  Pg.int4_in id = None ->
  getHistoryFile up id d = Json 500 (Error "Failed to retrieve file").
Proof.
  intro K. unfold getHistoryFile, select_history_by_id. rewrite K.
  now destruct up.
Qed.

Lemma varchar_column_some (n : nat) (p : option string) (x : string) :
  varchar_column n p = Some x -> bound p = true /\ fits n p = true.
Proof.
  unfold varchar_column, and_then, bound, fits.
  destruct p as [s|]; [|discriminate].
  destruct (Pg.text_ok s); [|discriminate].
  intro V. now rewrite V.
Qed.

Lemma text_column_some (p : option string) (x : string) :
  text_column p = Some x -> bound p = true.
Proof.
  unfold text_column, and_then, bound.
  destruct p as [s|]; [|discriminate].
  now destruct (Pg.text_ok s).
Qed.

(** When the columns take the values, every parameter can be sent and
    every text fits. *)
Lemma history_row_accepts (id : Z) (tn en ei em de : option string)
    (doc : option Buffer) (ts : option string) (now : Z) (r : History.row) :
  history_row id tn en ei em de doc ts now = Some r ->
  bound tn && bound en && bound ei && bound em && bound de && bound ts = true
  /\ fits 100 tn && fits 100 en && fits 7 ei && fits 100 em && fits 20 ts
     = true.
Proof.
  unfold history_row. intro H. columns H.
  repeat match goal with
         | V : varchar_column _ _ = Some _ |- _ =>
             apply varchar_column_some in V as [-> ->]
         | V : text_column _ = Some _ |- _ =>
             apply text_column_some in V as ->
         end.
  now split.
Qed.

(** The [INSERT] into [task_history] returns a row exactly when the table
    exists, a serial value is left, the columns take the values and the
    key is free. *)
Lemma insert_history_some {engine : Engine} (tn en ei em de : option string)
    (doc : option Buffer) (ts : option string) (now : Z) (d d' : db)
    (v : History.view) :
  insert_history tn en ei em de doc ts now d = (Some v, d')
  <-> exists t r,
        task_history d = Some t
        /\ serial_left t = true
        /\ history_row (tbl_serial t) tn en ei em de doc ts now = Some r
        /\ history_id_free (tbl_serial t) t = true
        /\ v = History.view_of r
        /\ d' = with_history r t d.
Proof.
  unfold insert_history, history_id_free, with_history. split.
  - destruct (task_history d) as [t|]; [|discriminate].
    destruct (negb (_ && bound ts)); [discriminate|].
    destruct (negb (_ && fits 20 ts)); [discriminate|].
    destruct (serial_left t) eqn:S; [|discriminate]. cbn [negb].
    destruct (history_row _ _ _ _ _ _ _ _ _) as [r|] eqn:R; [|discriminate].
    destruct (existsb _ (tbl_rows t)) eqn:X; [discriminate|].
    intro H. injection H as <- <-. exists t, r. rewrite X. now repeat split.
  - intros (t & r & -> & S & R & F & -> & ->).
    destruct (history_row_accepts _ _ _ _ _ _ _ _ _ _ R) as [-> ->].
    rewrite S, R. cbn [negb]. apply negb_true_iff in F. now rewrite F.
Qed.

(** Whatever becomes of the [INSERT], the store afterwards is the store
    before, the store with a serial value used up, or the store with the
    new row. *)
Lemma insert_history_store {engine : Engine} (tn en ei em de : option string)
    (doc : option Buffer) (ts : option string) (now : Z) (d : db) :
  snd (insert_history tn en ei em de doc ts now d) = d
  \/ (exists t,
         task_history d = Some t /\ serial_left t = true
         /\ snd (insert_history tn en ei em de doc ts now d) = drawn t d)
  \/ (exists t r,
         task_history d = Some t /\ serial_left t = true
         /\ history_row (tbl_serial t) tn en ei em de doc ts now = Some r
         /\ history_id_free (tbl_serial t) t = true
         /\ snd (insert_history tn en ei em de doc ts now d)
            = with_history r t d).
Proof.
  unfold insert_history, history_id_free, with_history.
  destruct (task_history d) as [t|]; [|now left].
  destruct (negb (_ && bound ts)); [now left|].
  destruct (negb (_ && fits 20 ts)).
  { destruct draws_first; [|now left].
    destruct (serial_left t) eqn:S; [|now left].
    right. left. now exists t. }
  destruct (serial_left t) eqn:S; [|now left]. cbn [negb].
  destruct (history_row _ _ _ _ _ _ _ _ _) as [r|] eqn:R.
  - destruct (existsb _ (tbl_rows t)) eqn:X.
    + right. left. now exists t.
    + right. right. exists t, r. rewrite X. now repeat split.
  - right. left. now exists t.
Qed.

(** When [POST /api/task-history] is answered with a record. *)
Lemma postTaskHistory_200 {engine : Engine} (up : bool) (now : Z)
    (b : HistoryForm.body) (file : option Buffer) (d d' : db)
    (v : History.view) :
  postTaskHistory up now b file d = (Json 200 (Saved v), d')
  <-> up = true
      /\ history_request_valid b = true
      /\ exists t r,
           task_history d = Some t
           /\ serial_left t = true
           /\ history_row_of b file (tbl_serial t) now = Some r
           /\ history_id_free (tbl_serial t) t = true
           /\ v = History.view_of r
           /\ d' = with_history r t d.
Proof.
  rewrite postTaskHistory_checks. unfold history_request_valid.
  destruct (history_fields_present b); cbn [negb andb];
    [|split; [discriminate|now intros (_ & H & _)]].
  destruct (Js.test emailRe _); cbn [negb andb];
    [|split; [discriminate|now intros (_ & H & _)]].
  destruct (Js.test empIdRe _); cbn [negb andb];
    [|split; [discriminate|now intros (_ & H & _)]].
  destruct up; [|split; [discriminate|now intros (H & _)]].
  unfold history_row_of. rewrite <- insert_history_some.
  destruct (insert_history _ _ _ _ _ _ _ _ _) as [[v0|] d0].
  - split.
    + intro H. injection H as -> ->. now repeat split.
    + intros (_ & _ & H). now injection H as -> ->.
  - split; [discriminate|]. now intros (_ & _ & H).
Qed.

(** The columns of the record, one by one. *)
Lemma history_row_of_columns (b : HistoryForm.body) (file : option Buffer)
    (id now : Z) (r : History.row) :
  history_row_of b file id now = Some r ->
  History.id r = id
  /\ varchar_column 100 (param (HistoryForm.taskName b))
     = Some (History.task_name r)
  /\ varchar_column 100 (param (HistoryForm.employeeName b))
     = Some (History.employee_name r)
  /\ varchar_column 7 (param (HistoryForm.employeeId b))
     = Some (History.employee_id r)
  /\ varchar_column 100 (param (HistoryForm.email b))
     = Some (History.email r)
  /\ text_column (param (HistoryForm.description b))
     = Some (History.description r)
  /\ History.upload_doc r = file
  /\ varchar_column 20 (param (HistoryForm.taskStatus b))
     = Some (History.task_status r)
  /\ History.allocated_time r = now.
Proof.
  unfold history_row_of, history_row. intro H. columns H.
  injection H as <-. now repeat split.
Qed.

Lemma find_snoc_free {A : Type} (p : A -> bool) (l : list A) (x : A) :
  existsb p l = false -> p x = true -> find p (l ++ [x]) = Some x.
Proof.
  intros N P. rewrite <- filter_head_find, filter_app, (filter_none _ _ N).
  cbn. now rewrite P.
Qed.

(** The record just stored is the one found under its key. *)
Lemma find_stored (b : HistoryForm.body) (file : option Buffer) (now : Z)
    (t : table History.row) (r : History.row) :
  history_row_of b file (tbl_serial t) now = Some r ->
  history_id_free (tbl_serial t) t = true ->
  find (fun r' => (History.id r' =? tbl_serial t)%Z) (tbl_rows t ++ [r])
  = Some r.
Proof.
  intros R F. apply find_snoc_free.
  - unfold history_id_free in F. now apply negb_true_iff in F.
  - apply history_row_of_columns in R as [-> _]. apply Z.eqb_refl.
Qed.

(** A serial value that is left is an [integer] the engine reads back. *)
Lemma serial_left_key (t : table History.row) :
  serial_left t = true ->
  Pg.int4_in (Js.decimal (tbl_serial t)) = Some (tbl_serial t).
Proof.
  unfold serial_left, Pg.serial_max. intro S.
  apply andb_true_iff in S as [A B].
  apply Z.leb_le in A. apply Z.leb_le in B.
  apply int4_in_decimal. lia.
Qed.

(** C8, counterexample.  No record of the example store has the key
    2147483648, yet the file endpoint does not answer 404 for it: the key
    is no [integer], the statement fails, and the answer is 500.  The same
    holds for a key that is no number. *)
Lemma C8_key_counterexample :
  (forall r, In r (tbl_rows demo_history) -> History.id r <> 2147483648%Z)
  /\ getHistoryFile true "2147483648" demo_db
     = Json 500 (Error "Failed to retrieve file")
  /\ getHistoryFile true "first" demo_db
     = Json 500 (Error "Failed to retrieve file").
Proof.
  split; [|split; reflexivity].
  intros r [<-|[]]. discriminate.
Qed.

(** C8, amended.  The route parameter reaches the store as text.  When the
    engine does not read it as an [integer] (a number beyond 2147483647, a
    text that is no number) the endpoint answers 500.  When it reads the
    key [k] in it, and the store can be reached, the endpoint answers 404
    exactly when [task_history] has no row under [k] or the row's
    [upload_doc] is NULL.  The text of a key within the range of [integer]
    is read as that key.  A [POST /api/task-history] without a file that
    is answered 200 reports [has_file] false, and the file endpoint of the
    new record then answers 404; the request is so answered when it passes
    the checks, a serial value is left, the columns take its values and the
    key is free. *)
Theorem C8_history_file_amended {engine : Engine} :
  (forall up id d,
      Pg.int4_in id = None ->
      getHistoryFile up id d = Json 500 (Error "Failed to retrieve file"))
  /\ (forall id k d t,
         Pg.int4_in id = Some k ->
         task_history d = Some t ->
         (code_of (getHistoryFile true id d) = 404
          <-> (forall r, In r (tbl_rows t) -> History.id r <> k)
              \/ (exists r,
                     find (fun r => (History.id r =? k)%Z) (tbl_rows t)
                     = Some r
                     /\ History.upload_doc r = None)))
  /\ (forall k,
         (-2147483648 <= k <= 2147483647)%Z ->
         Pg.int4_in (Js.decimal k) = Some k)
  /\ (forall b now d v d',
         postTaskHistory true now b None d = (Json 200 (Saved v), d') ->
         History.has_file v = false
         /\ getHistoryFile true (Js.decimal (History.v_id v)) d'
            = Json 404 (Error "File not found"))
  /\ (forall b now d t r,
         history_request_valid b = true ->
         task_history d = Some t ->
         serial_left t = true ->
         history_row_of b None (tbl_serial t) now = Some r ->
         history_id_free (tbl_serial t) t = true ->
         postTaskHistory true now b None d
         = (Json 200 (Saved (History.view_of r)), with_history r t d)).
Proof.
  split; [|split; [|split; [|split]]].
  - apply getHistoryFile_no_key.
  - intros id k d t K T. rewrite (getHistoryFile_find id k d t K T).
    destruct (find _ (tbl_rows t)) as [r|] eqn:Fd.
    + destruct (History.upload_doc r) as [buf|] eqn:U; cbn [code_of].
      * split; [discriminate|]. intros [H|(r' & Er & U')].
        -- apply find_some in Fd as [In_r Eq]. apply Z.eqb_eq in Eq.
           now elim (H r In_r).
        -- injection Er as <-. congruence.
      * split; [|reflexivity]. intros _. right. now exists r.
    + cbn [code_of]. split; [|reflexivity]. intros _. left.
      intros r In_r Eq. rewrite find_none_iff in Fd.
      specialize (Fd r In_r). apply Z.eqb_neq in Fd. now elim Fd.
  - apply int4_in_decimal.
  - intros b now d v d' H.
    apply postTaskHistory_200 in H
      as (_ & _ & t & r & T & S & R & F & -> & ->).
    pose proof (history_row_of_columns _ _ _ _ _ R) as (I & _ & _ & _ & _ & _ & U & _).
    split; [cbn; now rewrite U|].
    cbn [History.view_of History.v_id]. rewrite I.
    rewrite (getHistoryFile_find _ (tbl_serial t) (with_history r t d)
               (mkTable (tbl_columns t) (tbl_rows t ++ [r])
                        (tbl_serial t + 1)%Z)
               (serial_left_key t S) eq_refl).
    cbn [tbl_rows]. rewrite (find_stored b None now t r R F). now rewrite U.
  - intros b now d t r V T S R F. apply postTaskHistory_200.
    repeat split; try assumption. now exists t, r.
Qed.

(** A record saved without a document in the example store, and its file. *)
Lemma C8_history_file_witness :
  History.has_file (History.view_of (demo_history_2 None)) = false
  /\ getHistoryFile true
       (Js.decimal (History.v_id (History.view_of (demo_history_2 None))))
       (with_history (demo_history_2 None) demo_history demo_db)
     = Json 404 (Error "File not found").
Proof.
  apply (proj1 (proj2 (proj2 (proj2 C8_history_file_amended)))
           demo_history_body 50%Z demo_db).
  reflexivity.
Defined.

(* ================================================================== *)
(** * Start-up *)

(** The loop from attempt [a] on, with [n >= 1] iterations left: either
    some attempt [k] succeeds after [k - a] failed rounds, or every attempt
    up to [retries] fails and the last one throws. *)
Lemma attempts_spec (delay : Z) (ok : nat -> bool) (d : db) (retries : nat) :
  forall n a,
    a + n = S retries -> 1 <= n ->
    (exists k,
        a <= k <= retries /\ ok k = true
        /\ (forall j, a <= j < k -> ok j = false)
        /\ attempts (S retries - a) a retries delay ok d
           = (Returned, create_tables d,
              flat_map (failed_round delay) (seq a (k - a)) ++ [Query k]))
    \/ ((forall j, a <= j <= retries -> ok j = false)
        /\ attempts (S retries - a) a retries delay ok d
           = (Threw "Failed to connect to PostgreSQL after multiple attempts.",
              d,
              flat_map (failed_round delay) (seq a (retries - a))
              ++ [Query retries])).
Proof.
  induction n as [|n IH]; intros a E N; [lia|].
  replace (S retries - a) with (S n) by lia. cbn [attempts].
  destruct (ok a) eqn:Oa.
  - left. exists a. split; [lia|]. split; [exact Oa|].
    split; [intros j Hj; lia|]. now rewrite Nat.sub_diag.
  - destruct (a <? retries)%nat eqn:L.
    + apply Nat.ltb_lt in L.
      destruct (IH (S a)) as [(k & Hk & Ok & Fl & Eq)|(Fl & Eq)]; try lia.
      * left. exists k. split; [lia|]. split; [exact Ok|]. split.
        -- intros j Hj. destruct (Nat.eq_dec j a) as [->|]; [exact Oa|].
           apply Fl; lia.
        -- replace (S retries - S a) with n in Eq by lia. rewrite Eq.
           replace (k - a) with (S (k - S a)) by lia. reflexivity.
      * right. split.
        -- intros j Hj. destruct (Nat.eq_dec j a) as [->|]; [exact Oa|].
           apply Fl; lia.
        -- replace (S retries - S a) with n in Eq by lia. rewrite Eq.
           replace (retries - a) with (S (retries - S a)) by lia.
           reflexivity.
    + apply Nat.ltb_ge in L. assert (a = retries) as -> by lia.
      right. split.
      * intros j Hj. assert (j = retries) as -> by lia. exact Oa.
      * now rewrite Nat.sub_diag.
Qed.

(** C5.  Whatever the outcome of each attempt, start-up runs in one of two
    ways.  Either some attempt [k] among the first five succeeds: every
    attempt before it failed and was followed by a wait of 5000 ms, the
    tables are created, and the server starts to listen right after
    attempt [k].  Or all five attempts fail: four waits of 5000 ms separate
    them, the store is untouched, and the process exits with status 1
    without ever listening. *)
Theorem C5_startup_retries (ok : nat -> bool) (d : db) :
  (exists k,
      1 <= k <= 5 /\ ok k = true /\ (forall j, 1 <= j < k -> ok j = false)
      /\ startServer ok d
         = (create_tables d,
            flat_map (failed_round 5000) (seq 1 (k - 1)) ++ [Query k; Listen]))
  \/ ((forall j, 1 <= j <= 5 -> ok j = false)
      /\ startServer ok d
         = (d, flat_map (failed_round 5000) (seq 1 4) ++ [Query 5; Exit 1])
      /\ ~ In Listen (snd (startServer ok d))).
Proof.
  unfold startServer, initializeDatabase.
  destruct (attempts_spec 5000 ok d 5 5 1 eq_refl (le_n_S _ _ (Nat.le_0_l _)))
    as [(k & Hk & Ok & Fl & Eq)|(Fl & Eq)];
    change (5 - 1) with 4 in *; change (6 - 1) with 5 in *; rewrite Eq.
  - left. exists k. repeat split; [lia|lia|exact Ok|exact Fl|].
    now rewrite <- app_assoc.
  - right. split; [exact Fl|]. split; [reflexivity|].
    cbn. intros [H|[H|[H|[H|[H|[H|[H|[H|[H|[H|[]]]]]]]]]]]; discriminate.
Qed.

(* ================================================================== *)
(** * Schema initialization, run again *)

(** C4, counterexample.  In the second variant, running the initializer
    on an initialized store that holds one task and one history record
    succeeds and leaves both tables empty. *)
Lemma C4_second_variant_counterexample :
  initialized_v2 demo_db_v2 = true
  /\ fst (ServerV2.initializeDatabase true demo_db_v2) = Returned
  /\ option_map (fun t => List.length (tbl_rows t)) (ServerV2.tasks demo_db_v2)
     = Some 1
  /\ option_map (fun t => List.length (tbl_rows t))
       (ServerV2.tasks (snd (ServerV2.initializeDatabase true demo_db_v2)))
     = Some 0
  /\ option_map (fun t => List.length (tbl_rows t))
       (ServerV2.task_history
          (snd (ServerV2.initializeDatabase true demo_db_v2)))
     = Some 0
  /\ snd (ServerV2.initializeDatabase true demo_db_v2) <> demo_db_v2.
Proof. repeat split. discriminate. Qed.

(** C4, amended.  In the first variant, initializing an initialized store
    again raises no error and returns the store unchanged: same tables,
    same columns, same rows.  In the second variant a second run raises no
    error either and leaves the schema as the first run left it, but both
    runs drop [tasks] and [task_history]: the tables are empty afterwards,
    whatever rows they held. *)
Theorem C4_schema_initialization_again :
  (forall d,
      initialized d = true ->
      create_tables d = d
      /\ forall ok, ok 1 = true ->
           initializeDatabase 5 5000 ok d = (Returned, d, [Query 1]))
  /\ (forall d, initialized (create_tables d) = true)
  /\ (forall d,
         fst (ServerV2.initializeDatabase true d) = Returned
         /\ ServerV2.create_tables d
            = ServerV2.mkDb
                (Some (mkTable ServerV2.tasks_columns [] 1))
                (Some (mkTable ServerV2.task_history_columns [] 1))
         /\ ServerV2.create_tables (ServerV2.create_tables d)
            = ServerV2.create_tables d).
Proof.
  split.
  { intros [e t h] I. unfold initialized in I. cbn in I.
    destruct e, t, h; try discriminate.
    split; [reflexivity|]. intros ok O.
    unfold initializeDatabase. cbn [attempts]. now rewrite O. }
  split.
  { intros [[e|] [t|] [h|]]; reflexivity. }
  intro d. repeat split.
Qed.

Lemma C4_schema_initialization_witness :
  create_tables demo_db = demo_db
  /\ forall ok, ok 1 = true ->
       initializeDatabase 5 5000 ok demo_db = (Returned, demo_db, [Query 1]).
Proof.
  apply (proj1 C4_schema_initialization_again demo_db). reflexivity.
Defined.

(* ================================================================== *)
(** * Sample runs *)

Example sniff_pdf :
  sniffContentType [x25; x50; x44; x46; x2d] = "application/pdf".
Proof. reflexivity. Qed.

Example sniff_png :
  sniffContentType [x89; x50; x4e; x47; x0d; x0a] = "image/png".
Proof. reflexivity. Qed.

Example sniff_jpeg :
  sniffContentType [xff; xd8; xff; xe0; x00] = "image/jpeg".
Proof. reflexivity. Qed.

Example sniff_ascii_50 :
  sniffContentType (repeat x61 50) = "text/plain".
Proof. reflexivity. Qed.

(** [h], e-acute in UTF-8, [llo]: decoded to a string with one character
    above 127. *)
Example sniff_accented :
  sniffContentType [x68; xc3; xa9; x6c; x6c; x6f] = "application/octet-stream".
Proof. reflexivity. Qed.

(** A lone continuation byte decodes to U+FFFD. *)
Example sniff_ill_formed :
  Utf8.toString [x61; x80; x62]
  = String "a" (Utf8.replacement ++ "b")
  /\ sniffContentType [x61; x80; x62; x63; x64] = "application/octet-stream".
Proof. split; reflexivity. Qed.

Example sniff_png_of_four_bytes :
  sniffContentType [x89; x50; x4e; x47] = "application/octet-stream".
Proof. reflexivity. Qed.

Example lookup_accepts_any_ATS_prefix :
  Regex.test empIdLookupRe "SSA0001" = true
  /\ Regex.test empIdRe "SSA0001" = false.
Proof. split; reflexivity. Qed.

Example id_with_trailing_newline :
  Regex.test empIdRe (String "A" (String "T" (String "S" (String "0"
    (String "1" (String "2" (String "3" (String "010" ""))))))))
  = false.
Proof. reflexivity. Qed.

Example email_with_digit_first :
  Regex.test emailRe "9a@astrolitetech.com" = false
  /\ Regex.test emailRe "a9@astrolitetech.com" = true.
Proof. split; reflexivity. Qed.

Example startup_third_attempt :
  snd (startServer (fun k => Nat.eqb k 3) Store.empty)
  = [Query 1; Sleep 5000; Query 2; Sleep 5000; Query 3; Listen].
Proof. reflexivity. Qed.

Example startup_never :
  snd (startServer (fun _ => false) Store.empty)
  = [Query 1; Sleep 5000; Query 2; Sleep 5000; Query 3; Sleep 5000;
     Query 4; Sleep 5000; Query 5; Exit 1].
Proof. reflexivity. Qed.

Example list_newest_first :
  getTasks true None demo_db = Json 200 (Tasks [demo_task_2; demo_task_1]).
Proof. reflexivity. Qed.

Example stored_document_is_served :
  getHistoryFile true "1" demo_db
  = File 200 "application/pdf" "inline" [x25; x50; x44; x46; x2d].
Proof. reflexivity. Qed.

(** The key may come with blanks and a sign, as the engine reads it. *)
Example key_with_blanks :
  getHistoryFile true " +1 " demo_db = getHistoryFile true "1" demo_db
  /\ getHistory true "1.0" demo_db
     = Json 500 (Error "Failed to fetch task history").
Proof. split; reflexivity. Qed.

(** A one-element array passes the e-mail check as the string it holds,
    and is sent to the store as an array literal. *)
Example array_for_email :
  Js.test emailRe (Js.Arr [Js.Str "ab@astrolitetech.com"]) = true
  /\ param (Js.Arr [Js.Str "ab@astrolitetech.com"])
     = Some ("{" ++ Driver.escapeElement "ab@astrolitetech.com" ++ "}")%string.
Proof. split; reflexivity. Qed.

(** Blanks beyond the width of a column are cut off; anything else beyond
    it is refused. *)
Example width_of_status :
  Pg.varchar 20 "in progress             " = Some "in progress         "
  /\ Pg.varchar 20 "waiting for the review" = None.
Proof. split; reflexivity. Qed.

Example store_down :
  getTasks false None demo_db = Json 500 (Error "Failed to fetch tasks").
Proof. reflexivity. Qed.

(* ================================================================== *)
(** * Fetching by key *)

Lemma filter_hd_some {A : Type} (p : A -> bool) (l : list A) (x : A) :
  hd_error (filter p l) = Some x -> In x l /\ p x = true.
Proof.
  rewrite filter_head_find. apply find_some.
Qed.

(** X1.  [GET /api/employees/:empId] answers 400 exactly on a malformed
    id; a 200 reply carries a row stored under the requested id; with the
    store reachable and the table present, a well-formed id gets 404
    exactly when no row is stored under it.  A row stored under a
    malformed id can never be fetched. *)
Theorem X1_employee_lookup (up : bool) (empId : string) (d : db) :
  (code_of (getEmployee up empId d) = 400 <-> Spec.lookup_id empId = false)
  /\ (forall r,
         getEmployee up empId d = Json 200 (AnEmployee r) ->
         Employee.emp_id r = empId /\ Spec.lookup_id empId = true
         /\ exists te, employees d = Some te /\ In r (tbl_rows te))
  /\ (forall te,
         up = true -> employees d = Some te -> Spec.lookup_id empId = true ->
         (code_of (getEmployee up empId d) = 404
          <-> forall r, In r (tbl_rows te) -> Employee.emp_id r <> empId))
  /\ (forall te r,
         employees d = Some te -> In r (tbl_rows te) ->
         Spec.lookup_id (Employee.emp_id r) = false ->
         getEmployee up (Employee.emp_id r) d
         = Json 400 (Error "Invalid employee ID format")).
Proof.
  unfold getEmployee. rewrite empIdLookupRe_spec.
  split; [|split; [|split]].
  - destruct (Spec.lookup_id empId); cbn [negb].
    + destruct (run up (select_employee empId d)) as [[|r rs]|];
        cbn [code_of]; split; discriminate.
    + split; reflexivity.
  - intros r. destruct (Spec.lookup_id empId) eqn:L; cbn [negb];
      [|discriminate].
    destruct up; cbn [run]; [|discriminate].
    unfold select_employee. rewrite (lookup_id_text_ok empId L).
    destruct (employees d) as [te|]; cbn [option_map]; [|discriminate].
    destruct (filter _ (tbl_rows te)) as [|r' rs] eqn:F; [discriminate|].
    intro H. injection H as <-.
    assert (hd_error (filter (fun r => String.eqb (Employee.emp_id r) empId)
                             (tbl_rows te)) = Some r') as Hd
      by now rewrite F.
    apply filter_hd_some in Hd as [I E]. apply String.eqb_eq in E.
    split; [exact E|]. split; [reflexivity|]. now exists te.
  - intros te -> T L. rewrite L. cbn [negb run].
    unfold select_employee. rewrite (lookup_id_text_ok empId L), T.
    cbn [option_map].
    destruct (filter _ (tbl_rows te)) as [|r' rs] eqn:F; cbn [code_of].
    + split; [|reflexivity]. intros _ r I E.
      assert (In r (filter (fun r => String.eqb (Employee.emp_id r) empId)
                           (tbl_rows te))) as C
        by (apply filter_In; split; [exact I|now apply String.eqb_eq]).
      now rewrite F in C.
    + split; [discriminate|]. intro H.
      assert (In r' (filter (fun r => String.eqb (Employee.emp_id r) empId)
                            (tbl_rows te))) as C by (rewrite F; now left).
      apply filter_In in C as [I E]. apply String.eqb_eq in E.
      now elim (H r' I).
  - intros te r _ _ L. now rewrite empIdLookupRe_spec, L.
Qed.

(** An employee provisioned under [ATS0000] is out of reach. *)
Lemma X1_employee_lookup_witness :
  getEmployee true "ATS0000"
    (mkDb (Some (mkTable employees_columns
                   [Employee.mkRow "ATS0000" "Asha" "asha@astrolitetech.com"
                      "Finance"] 1))
          None None)
  = Json 400 (Error "Invalid employee ID format").
Proof.
  apply (proj2 (proj2 (proj2
           (X1_employee_lookup true "ATS0000"
              (mkDb (Some (mkTable employees_columns
                       [Employee.mkRow "ATS0000" "Asha"
                          "asha@astrolitetech.com" "Finance"] 1))
                    None None))))
           (mkTable employees_columns
              [Employee.mkRow "ATS0000" "Asha" "asha@astrolitetech.com"
                 "Finance"] 1)
           (Employee.mkRow "ATS0000" "Asha" "asha@astrolitetech.com"
              "Finance"));
    [reflexivity | now left | reflexivity].
Defined.

Lemma getTask_find (id : string) (d : db) (t : table Task.row) :
  Pg.text_ok id = true ->
  tasks d = Some t ->
  getTask true id d
  = match find (fun r => String.eqb (Task.id r) id) (tbl_rows t) with
    | Some r => Json 200 (ATask r)
    | None => Json 404 (Error "Task not found")
    end.
Proof.
  intros K T. unfold getTask, select_task. cbn [run]. rewrite K, T.
  cbn [option_map]. rewrite <- filter_head_find.
  now destruct (filter _ (tbl_rows t)).
Qed.

Lemma getTask_no_key (up : bool) (id : string) (d : db) :
  Pg.text_ok id = false ->
  getTask up id d = Json 500 (Error "Failed to fetch task").
Proof.
  intro K. unfold getTask, select_task. rewrite K. now destruct up.
Qed.

Lemma getHistory_find (id : string) (k : Z) (d : db)
    (t : table History.row) :
  Pg.int4_in id = Some k ->
  task_history d = Some t ->
  getHistory true id d
  = match find (fun r => (History.id r =? k)%Z) (tbl_rows t) with
    | Some r => Json 200 (AHistory (History.view_of r))
    | None => Json 404 (Error "Task history not found")
    end.
Proof.
  intros K T. unfold getHistory, select_history_by_id. cbn [run].
  rewrite K, T. cbn [and_then option_map]. rewrite <- filter_head_find.
  now destruct (filter _ (tbl_rows t)).
Qed.

Lemma getHistory_no_key (up : bool) (id : string) (d : db) :
  Pg.int4_in id = None ->
  getHistory up id d = Json 500 (Error "Failed to fetch task history").
Proof.
  intro K. unfold getHistory, select_history_by_id. rewrite K.
  now destruct up.
Qed.

(** X2.  [GET /api/tasks/:id] sends its key as a text: a key with a NUL
    character makes the statement fail and is answered 500; any other key,
    with the store reachable and the table present, is answered 404
    exactly when no row is stored under it, and otherwise 200 with the
    first such row.  [GET /api/task-history/:id] sends its key to an
    [integer] column: a key the engine does not read as an [integer] is
    answered 500; a key read as [k] is answered 404 exactly when no row is
    stored under [k], and otherwise 200 with the view of the first such
    row; two keys read alike are answered alike. *)
Theorem X2_fetch_by_key :
  (forall up id d,
      Pg.text_ok id = false ->
      getTask up id d = Json 500 (Error "Failed to fetch task"))
  /\ (forall id d t,
         Pg.text_ok id = true ->
         tasks d = Some t ->
         (code_of (getTask true id d) = 404
          <-> forall r, In r (tbl_rows t) -> Task.id r <> id)
         /\ forall r,
              getTask true id d = Json 200 (ATask r)
              <-> find (fun r => String.eqb (Task.id r) id) (tbl_rows t)
                  = Some r)
  /\ (forall up id d,
         Pg.int4_in id = None ->
         getHistory up id d
         = Json 500 (Error "Failed to fetch task history"))
  /\ (forall id k d t,
         Pg.int4_in id = Some k ->
         task_history d = Some t ->
         (code_of (getHistory true id d) = 404
          <-> forall r, In r (tbl_rows t) -> History.id r <> k)
         /\ forall v,
              getHistory true id d = Json 200 (AHistory v)
              <-> exists r,
                    find (fun r => (History.id r =? k)%Z) (tbl_rows t)
                    = Some r
                    /\ v = History.view_of r)
  /\ (forall up id id' d,
         Pg.int4_in id = Pg.int4_in id' ->
         getHistory up id d = getHistory up id' d).
Proof.
  split; [apply getTask_no_key|]. split; [|split; [apply getHistory_no_key|]].
  - intros id d t K T. rewrite (getTask_find id d t K T).
    destruct (find _ (tbl_rows t)) as [r|] eqn:F; cbn [code_of].
    + split.
      * split; [discriminate|]. intro H. apply find_some in F as [I E].
        apply String.eqb_eq in E. now elim (H r I).
      * intro r'. split; intro H; injection H as ->; reflexivity.
    + split.
      * split; [|reflexivity]. intros _ r I E. rewrite find_none_iff in F.
        specialize (F r I). cbn in F. apply String.eqb_neq in F. now elim F.
      * intro r'. split; discriminate.
  - split.
    + intros id k d t K T. rewrite (getHistory_find id k d t K T).
      destruct (find _ (tbl_rows t)) as [r|] eqn:F; cbn [code_of].
      * split.
        -- split; [discriminate|]. intro H. apply find_some in F as [I E].
           apply Z.eqb_eq in E. now elim (H r I).
        -- intro v. split.
           ++ intro H. injection H as <-. now exists r.
           ++ intros (r' & E & ->). now injection E as ->.
      * split.
        -- split; [|reflexivity]. intros _ r I E. rewrite find_none_iff in F.
           specialize (F r I). cbn in F. apply Z.eqb_neq in F. now elim F.
        -- intro v. split; [discriminate|]. now intros (r' & E & _).
    + intros up id id' d K. unfold getHistory, select_history_by_id.
      now rewrite K.
Qed.

(** A key written with a sign finds the record of the example store, and
    a key the store does not have finds none. *)
Lemma X2_fetch_by_key_witness :
  (code_of (getTask true "no such key" demo_db) = 404
   <-> forall r, In r (tbl_rows demo_tasks) -> Task.id r <> "no such key")
  /\ getHistory true "+1" demo_db = getHistory true "1" demo_db
  /\ getHistory true "2147483648" demo_db
     = Json 500 (Error "Failed to fetch task history").
Proof.
  split; [|split].
  - apply (proj1 (proj2 X2_fetch_by_key) "no such key" demo_db demo_tasks);
      reflexivity.
  - apply (proj2 (proj2 (proj2 (proj2 X2_fetch_by_key)))). reflexivity.
  - apply (proj1 (proj2 (proj2 X2_fetch_by_key))). reflexivity.
Defined.
(* ================================================================== *)
(** * The two inserting handlers, case by case *)

Lemma task_request_valid_checks (b : TaskForm.body) :
  task_request_valid b = true ->
  task_fields_present b = true
  /\ Js.test emailRe (TaskForm.email b) = true
  /\ Js.test empIdRe (TaskForm.employeeId b) = true.
Proof.
  unfold task_request_valid. intro V.
  apply andb_true_iff in V as [V I]. apply andb_true_iff in V as [P E].
  now repeat split.
Qed.

Lemma history_request_valid_checks (b : HistoryForm.body) :
  history_request_valid b = true ->
  history_fields_present b = true
  /\ Js.test emailRe (HistoryForm.email b) = true
  /\ Js.test empIdRe (HistoryForm.employeeId b) = true.
Proof.
  unfold history_request_valid. intro V.
  apply andb_true_iff in V as [V I]. apply andb_true_iff in V as [P E].
  now repeat split.
Qed.

(** A request that fails a check is answered 400. *)
Lemma postTask_invalid {engine : Engine} (up : bool) (t1 t2 : Z)
    (b : TaskForm.body) (d : db) :
  task_request_valid b = false ->
  exists msg, postTask up t1 t2 b d = (Json 400 (Error msg), d).
Proof.
  rewrite postTask_checks. unfold task_request_valid.
  destruct (task_fields_present b); cbn [negb andb];
    [|intros _; eexists; reflexivity].
  destruct (Js.test emailRe _); cbn [negb andb];
    [|intros _; eexists; reflexivity].
  destruct (Js.test empIdRe _); cbn [negb andb];
    [discriminate|intros _; eexists; reflexivity].
Qed.

(** A request that passes the checks is stored or answered 500. *)
Lemma postTask_valid {engine : Engine} (up : bool) (t1 t2 : Z)
    (b : TaskForm.body) (d : db) :
  task_request_valid b = true ->
  postTask up t1 t2 b d =
  match up, tasks d, task_row_of b t1 t2 with
  | true, Some t, Some r =>
      if task_id_free (Task.id r) t
      then (Json 200 (ATask r), with_task r t d)
      else (Json 500 (Error "Failed to save task"), d)
  | _, _, _ => (Json 500 (Error "Failed to save task"), d)
  end.
Proof.
  intro V. apply task_request_valid_checks in V as (P & E & I).
  now rewrite postTask_cases, P, E, I.
Qed.

Lemma postTaskHistory_invalid {engine : Engine} (up : bool) (now : Z)
    (b : HistoryForm.body) (file : option Buffer) (d : db) :
  history_request_valid b = false ->
  exists msg, postTaskHistory up now b file d = (Json 400 (Error msg), d).
Proof.
  rewrite postTaskHistory_checks. unfold history_request_valid.
  destruct (history_fields_present b); cbn [negb andb];
    [|intros _; eexists; reflexivity].
  destruct (Js.test emailRe _); cbn [negb andb];
    [|intros _; eexists; reflexivity].
  destruct (Js.test empIdRe _); cbn [negb andb];
    [discriminate|intros _; eexists; reflexivity].
Qed.

(** The reply of [POST /api/task-history] to a request that passes the
    checks: 200 with the view the [INSERT] returns, or 500. *)
Lemma postTaskHistory_valid {engine : Engine} (up : bool) (now : Z)
    (b : HistoryForm.body) (file : option Buffer) (d : db) :
  history_request_valid b = true ->
  postTaskHistory up now b file d =
  if up then
    match
      insert_history
        (param (HistoryForm.taskName b)) (param (HistoryForm.employeeName b))
        (param (HistoryForm.employeeId b)) (param (HistoryForm.email b))
        (param (HistoryForm.description b)) file
        (param (HistoryForm.taskStatus b)) now d
    with
    | (Some v, d') => (Json 200 (Saved v), d')
    | (None, d') => (Json 500 (Error "Failed to save task history"), d')
    end
  else (Json 500 (Error "Failed to save task history"), d).
Proof.
  intro V. apply history_request_valid_checks in V as (P & E & I).
  now rewrite postTaskHistory_checks, P, E, I.
Qed.

(** The store after [POST /api/task-history]: as before, with a serial
    value used up, or with the new record. *)
Lemma postTaskHistory_store {engine : Engine} (up : bool) (now : Z)
    (b : HistoryForm.body) (file : option Buffer) (d : db) :
  snd (postTaskHistory up now b file d) = d
  \/ (exists t,
         task_history d = Some t /\ serial_left t = true
         /\ snd (postTaskHistory up now b file d) = drawn t d)
  \/ (exists t r,
         task_history d = Some t /\ serial_left t = true
         /\ history_row_of b file (tbl_serial t) now = Some r
         /\ history_id_free (tbl_serial t) t = true
         /\ snd (postTaskHistory up now b file d) = with_history r t d).
Proof.
  destruct (history_request_valid b) eqn:V.
  - rewrite (postTaskHistory_valid up now b file d V).
    destruct up; [|now left]. unfold history_row_of.
    pose proof (insert_history_store
                  (param (HistoryForm.taskName b))
                  (param (HistoryForm.employeeName b))
                  (param (HistoryForm.employeeId b))
                  (param (HistoryForm.email b))
                  (param (HistoryForm.description b)) file
                  (param (HistoryForm.taskStatus b)) now d) as H.
    destruct (insert_history _ _ _ _ _ _ _ _ _) as [[v|] d']; exact H.
  - destruct (postTaskHistory_invalid up now b file d V) as [msg ->].
    now left.
Qed.

(** X3.  The key of a task is the text of the millisecond clock.  When a
    row is already stored under it, a [POST /api/tasks] that passes the
    checks is answered 500 "Failed to save task" and the store is left as
    it was.  So when a request has been stored, a second one served in the
    same millisecond is refused whatever it holds, and the row stored
    under the key stays the first one. *)
Theorem X3_task_key_collision {engine : Engine} :
  (forall up b t1 t2 d t,
      task_request_valid b = true ->
      tasks d = Some t ->
      task_id_free (Js.decimal t1) t = false ->
      postTask up t1 t2 b d = (Json 500 (Error "Failed to save task"), d))
  /\ (forall up b b' t1 t2 t2' d r d1,
         postTask true t1 t2 b d = (Json 200 (ATask r), d1) ->
         task_request_valid b' = true ->
         postTask up t1 t2' b' d1
         = (Json 500 (Error "Failed to save task"), d1)
         /\ getTask true (Js.decimal t1) d1 = Json 200 (ATask r)).
Proof.
  assert (forall up b t1 t2 d t,
      task_request_valid b = true ->
      tasks d = Some t ->
      task_id_free (Js.decimal t1) t = false ->
      postTask up t1 t2 b d = (Json 500 (Error "Failed to save task"), d))
    as Taken.
  { intros up b t1 t2 d t V T F. rewrite (postTask_valid up t1 t2 b d V), T.
    destruct up; [|reflexivity].
    destruct (task_row_of b t1 t2) as [r|] eqn:R; [|reflexivity].
    now rewrite (task_row_of_id b t1 t2 r R), F. }
  split; [exact Taken|].
  intros up b b' t1 t2 t2' d r d1 H V'.
  apply postTask_200 in H as (_ & _ & R & t & T & F & ->).
  pose proof (task_row_of_id b t1 t2 r R) as I. split.
  - apply (Taken up b' t1 t2' (with_task r t d)
             (mkTable (tbl_columns t) (tbl_rows t ++ [r]) (tbl_serial t))
             V' eq_refl).
    unfold task_id_free. cbn [tbl_rows]. rewrite existsb_app.
    cbn [existsb]. rewrite I, String.eqb_refl. now rewrite orb_true_r.
  - rewrite <- I. apply getTask_after_insert; [|exact F].
    rewrite I. apply decimal_text_ok.
Qed.

(** Two requests in the same millisecond on the example store. *)
Lemma X3_task_key_collision_witness :
  postTask true 1700000000003 41
    (TaskForm.mkBody (Js.Str "Audit") (Js.Str "Ravi") (Js.Str "ATS0456")
       (Js.Str "ravi@astrolitetech.com") (Js.Str "Check the books")
       (Js.Str "2024-02-02") (Js.Str "2024-02-06") Js.Undefined)
    (with_task demo_task_3 demo_tasks demo_db)
  = (Json 500 (Error "Failed to save task"),
     with_task demo_task_3 demo_tasks demo_db)
  /\ getTask true (Js.decimal 1700000000003)
       (with_task demo_task_3 demo_tasks demo_db)
     = Json 200 (ATask demo_task_3).
Proof.
  apply (proj2 X3_task_key_collision true (demo_task_body Js.Undefined)
           (TaskForm.mkBody (Js.Str "Audit") (Js.Str "Ravi")
              (Js.Str "ATS0456") (Js.Str "ravi@astrolitetech.com")
              (Js.Str "Check the books") (Js.Str "2024-02-02")
              (Js.Str "2024-02-06") Js.Undefined)
           1700000000003%Z 40%Z 41%Z demo_db demo_task_3
           (with_task demo_task_3 demo_tasks demo_db));
    reflexivity.
Defined.

(* ================================================================== *)
(** * What the handlers do to the store *)

Lemma rows_extended_refl {R : Type} (t : option (table R)) :
  rows_extended t t.
Proof.
  destruct t as [t|]; cbn; [|exact I].
  split; [reflexivity|]. exists []. now rewrite app_nil_r.
Qed.

Lemma rows_extended_trans {R : Type} (a b c : option (table R)) :
  rows_extended a b -> rows_extended b c -> rows_extended a c.
Proof.
  destruct a as [a|], b as [b|], c as [c|]; cbn; try tauto.
  intros [C1 [x E1]] [C2 [y E2]]. split; [congruence|].
  exists (x ++ y). now rewrite E2, E1, app_assoc.
Qed.

(** The store after [POST /api/tasks]: as before, or with the new row. *)
Lemma postTask_store {engine : Engine} (up : bool) (t1 t2 : Z)
    (b : TaskForm.body) (d : db) :
  snd (postTask up t1 t2 b d) = d
  \/ (exists t r,
         tasks d = Some t
         /\ task_row_of b t1 t2 = Some r
         /\ task_id_free (Task.id r) t = true
         /\ snd (postTask up t1 t2 b d) = with_task r t d).
Proof.
  destruct (task_request_valid b) eqn:V.
  - rewrite (postTask_valid up t1 t2 b d V).
    destruct up; [|now left].
    destruct (tasks d) as [t|] eqn:T; [|now left].
    destruct (task_row_of b t1 t2) as [r|] eqn:R; [|now left].
    destruct (task_id_free (Task.id r) t) eqn:F; [|now left].
    right. now exists t, r.
  - destruct (postTask_invalid up t1 t2 b d V) as [msg ->]. now left.
Qed.

(** One request: [employees] is untouched, and the two other tables keep
    their columns and their rows, in order, with at most new rows after
    them. *)
Lemma handle_extends {engine : Engine} (up : bool) (r : Api.request)
    (d : db) :
  employees (snd (Api.handle up r d)) = employees d
  /\ rows_extended (tasks d) (tasks (snd (Api.handle up r d)))
  /\ rows_extended (task_history d) (task_history (snd (Api.handle up r d))).
Proof.
  destruct r as [e|q|t1 t2 b|id|q|now b file|id|id]; cbn [Api.handle snd];
    try (split; [reflexivity|split; apply rows_extended_refl]).
  - destruct (postTask_store up t1 t2 b d)
      as [->|(t & r & T & _ & _ & ->)];
      [split; [reflexivity|split; apply rows_extended_refl]|].
    split; [reflexivity|]. split; [|apply rows_extended_refl].
    rewrite T. cbn. split; [reflexivity|]. now eexists.
  - destruct (postTaskHistory_store up now b file d)
      as [->|[(t & T & _ & ->)|(t & r & T & _ & _ & _ & ->)]];
      [split; [reflexivity|split; apply rows_extended_refl]| |].
    + split; [reflexivity|]. split; [apply rows_extended_refl|].
      rewrite T. cbn. split; [reflexivity|]. exists [].
      now rewrite app_nil_r.
    + split; [reflexivity|]. split; [apply rows_extended_refl|].
      rewrite T. cbn. split; [reflexivity|]. now eexists.
Qed.

(** X4.  The API is append-only.  Whatever requests are served, in
    whatever state of the pool, [employees] is left untouched, and [tasks]
    and [task_history] keep their columns and all their rows, unchanged
    and in the same order; rows are only ever added after them. *)
Theorem X4_append_only {engine : Engine} (rs : list (bool * Api.request))
    (d : db) :
  employees (Api.serve rs d) = employees d
  /\ rows_extended (tasks d) (tasks (Api.serve rs d))
  /\ rows_extended (task_history d) (task_history (Api.serve rs d)).
Proof.
  revert d; induction rs as [|[up r] rs IH]; intro d; cbn [Api.serve].
  - split; [reflexivity|split; apply rows_extended_refl].
  - destruct (IH (snd (Api.handle up r d))) as (E & T & H).
    destruct (handle_extends up r d) as (E' & T' & H').
    split; [congruence|].
    split; eapply rows_extended_trans; eassumption.
Qed.

Lemma not_in_keys {R K : Type} (key : R -> K) (eqb : K -> K -> bool)
    (k : K) (l : list R) :
  (forall a b, eqb a b = true <-> a = b) ->
  existsb (fun r => eqb (key r) k) l = false -> ~ In k (map key l).
Proof.
  intros Eq F I. apply in_map_iff in I as (r & E & I).
  assert (existsb (fun r => eqb (key r) k) l = true) as C
    by (apply existsb_exists; exists r; split; [exact I|now apply Eq]).
  congruence.
Qed.

Lemma NoDup_snoc {A : Type} (l : list A) (x : A) :
  NoDup l -> ~ In x l -> NoDup (l ++ [x]).
Proof.
  intros N I. apply NoDup_app; [exact N|repeat constructor; intros []|].
  intros a Ia [<-|[]]. now elim I.
Qed.

(** A row the store builds is within the widths of its columns. *)
Lemma task_row_of_fits {engine : Engine} (b : TaskForm.body) (t1 t2 : Z)
    (r : Task.row) :
  task_row_of b t1 t2 = Some r -> task_row_fits r.
Proof.
  unfold task_row_of, task_row. intro H. columns H. injection H as <-.
  unfold task_row_fits. cbn [Task.id Task.task_name Task.employee_name
    Task.employee_id Task.email Task.status].
  repeat split; eapply varchar_column_length; eassumption.
Qed.

Lemma history_row_of_fits (b : HistoryForm.body) (file : option Buffer)
    (id now : Z) (r : History.row) :
  history_row_of b file id now = Some r -> history_row_fits r.
Proof.
  unfold history_row_of, history_row. intro H. columns H. injection H as <-.
  unfold history_row_fits. cbn [History.task_name History.employee_name
    History.employee_id History.email History.task_status].
  repeat split; eapply varchar_column_length; eassumption.
Qed.

Lemma store_ok_fresh : store_ok Api.fresh.
Proof.
  unfold store_ok, Api.fresh. cbn.
  do 3 eexists. do 7 (split; [reflexivity|]). split.
  - split; constructor.
  - unfold history_ok. cbn. split; [constructor|]. split; [constructor|].
    split; [unfold Pg.serial_max; lia|constructor].
Qed.

(** One request keeps a well-formed store well-formed. *)
Lemma handle_keeps_store_ok {engine : Engine} (up : bool) (r : Api.request)
    (d : db) :
  store_ok d -> store_ok (snd (Api.handle up r d)).
Proof.
  intro Ok.
  destruct r as [e|q|t1 t2 b|id|q|now b file|id|id]; cbn [Api.handle snd];
    try exact Ok.
  - destruct (postTask_store up t1 t2 b d)
      as [->|(t & r & T & R & F & ->)]; [exact Ok|].
    destruct Ok as (te & tt & th & Ee & Et & Eh & Re & Ce & Ct & Ch
                    & [Nd Fa] & Hh).
    assert (tt = t) as -> by congruence.
    exists te, (mkTable (tbl_columns t) (tbl_rows t ++ [r]) (tbl_serial t)),
      th.
    unfold with_task. cbn.
    do 7 (split; [assumption || reflexivity|]).
    split; [|exact Hh]. unfold tasks_ok. cbn [tbl_rows]. split.
    + rewrite map_app. cbn. apply NoDup_snoc; [exact Nd|].
      unfold task_id_free in F. apply negb_true_iff in F.
      apply (not_in_keys Task.id String.eqb _ _ String.eqb_eq F).
    + apply Forall_app. split; [exact Fa|]. constructor; [|constructor].
      now apply (task_row_of_fits b t1 t2).
  - destruct Ok as (te & tt & th & Ee & Et & Eh & Re & Ce & Ct & Ch
                    & Ht & (Nd & Lt & Sb & Fa)).
    destruct (postTaskHistory_store up now b file d)
      as [->|[(t & T & S & ->)|(t & r & T & S & R & F & ->)]].
    + now exists te, tt, th.
    + assert (th = t) as -> by congruence.
      exists te, tt, (mkTable (tbl_columns t) (tbl_rows t)
                              (tbl_serial t + 1)%Z).
      unfold drawn. cbn.
      do 8 (split; [assumption || reflexivity|]).
      unfold history_ok. cbn [tbl_rows tbl_serial].
      unfold serial_left in S. apply andb_true_iff in S as [S1 S2].
      apply Z.leb_le in S1. apply Z.leb_le in S2.
      split; [exact Nd|]. split; [|split; [lia|exact Fa]].
      eapply Forall_impl; [|exact Lt]. cbn. intros; lia.
    + assert (th = t) as -> by congruence.
      exists te, tt,
        (mkTable (tbl_columns t) (tbl_rows t ++ [r]) (tbl_serial t + 1)%Z).
      unfold with_history. cbn.
      do 8 (split; [assumption || reflexivity|]).
      unfold history_ok. cbn [tbl_rows tbl_serial].
      unfold serial_left in S. apply andb_true_iff in S as [S1 S2].
      apply Z.leb_le in S1. apply Z.leb_le in S2.
      pose proof (history_row_of_columns _ _ _ _ _ R) as [I _].
      split; [|split; [|split; [lia|]]].
      * rewrite map_app. cbn. apply NoDup_snoc; [exact Nd|].
        unfold history_id_free in F. apply negb_true_iff in F. rewrite I.
        apply (not_in_keys History.id Z.eqb _ _ Z.eqb_eq F).
      * apply Forall_app. split.
        -- eapply Forall_impl; [|exact Lt]. cbn. intros; lia.
        -- constructor; [lia|constructor].
      * apply Forall_app. split; [exact Fa|]. constructor; [|constructor].
        now apply (history_row_of_fits b file (tbl_serial t) now).
Qed.

Lemma serve_keeps_store_ok {engine : Engine}
    (rs : list (bool * Api.request)) (d : db) :
  store_ok d -> store_ok (Api.serve rs d).
Proof.
  revert d; induction rs as [|[up r] rs IH]; intros d Ok; cbn [Api.serve];
    [exact Ok|].
  apply IH. now apply handle_keeps_store_ok.
Qed.

(** X5.  Invariant of the store.  On a database on which the first variant
    started from nothing, after any sequence of requests: the three tables
    exist with the declared columns; the keys of [tasks] are pairwise
    different; the keys of [task_history] are pairwise different, at least
    1 and below the next serial value, which is at most one beyond the end
    of the sequence; every text stored in a [VARCHAR(n)] column of the two
    tables has at most [n] characters; and [employees] holds no row. *)
Theorem X5_store_invariant {engine : Engine}
    (rs : list (bool * Api.request)) :
  store_ok (Api.serve rs Api.fresh).
Proof. apply serve_keeps_store_ok, store_ok_fresh. Qed.

(** In a well-formed store the next serial value is the key of no
    record. *)
Lemma store_ok_next_free (d : db) :
  store_ok d ->
  exists t,
    task_history d = Some t
    /\ history_id_free (tbl_serial t) t = true
    /\ forall r, In r (tbl_rows t) -> (History.id r < tbl_serial t)%Z.
Proof.
  intros (te & tt & th & _ & _ & Eh & _ & _ & _ & _ & _ & (Nd & Lt & _)).
  exists th. split; [exact Eh|]. rewrite Forall_forall in Lt. split.
  - unfold history_id_free. apply negb_true_iff.
    destruct (existsb _ (tbl_rows th)) eqn:X; [|reflexivity].
    apply existsb_exists in X as (r & I & E). apply Z.eqb_eq in E.
    specialize (Lt r I). lia.
  - intros r I. specialize (Lt r I). lia.
Qed.

(** X6.  Keys of the history never collide.  On a database on which the
    first variant started from nothing, after any sequence of requests,
    the next serial value is the key of no record.  A
    [POST /api/task-history] that passes the checks, served while the
    store is reachable, is answered 200 when a serial value is left and
    the columns take the values of the request: the new record gets the
    next serial value as its key, above every key of the table, and
    [has_file] tells whether a document came with the request.  It is
    answered 500 when the sequence is used up or a column refuses its
    value. *)
Theorem X6_history_keys_never_collide {engine : Engine}
    (rs : list (bool * Api.request)) (b : HistoryForm.body) (now : Z)
    (file : option Buffer) :
  history_request_valid b = true ->
  exists t,
    task_history (Api.serve rs Api.fresh) = Some t
    /\ history_id_free (tbl_serial t) t = true
    /\ (forall r,
           serial_left t = true ->
           history_row_of b file (tbl_serial t) now = Some r ->
           postTaskHistory true now b file (Api.serve rs Api.fresh)
           = (Json 200 (Saved (History.view_of r)),
              with_history r t (Api.serve rs Api.fresh))
           /\ History.id r = tbl_serial t
           /\ (forall r', In r' (tbl_rows t) ->
                          (History.id r' < History.id r)%Z)
           /\ History.has_file (History.view_of r)
              = History.is_not_null file)
    /\ (serial_left t = false
        \/ history_row_of b file (tbl_serial t) now = None ->
        code_of (fst (postTaskHistory true now b file
                        (Api.serve rs Api.fresh))) = 500).
Proof.
  intro V.
  destruct (store_ok_next_free _
              (serve_keeps_store_ok rs Api.fresh store_ok_fresh))
    as (t & T & F & Lt).
  exists t. split; [exact T|]. split; [exact F|]. split.
  - intros r S R.
    pose proof (history_row_of_columns _ _ _ _ _ R)
      as (I & _ & _ & _ & _ & _ & U & _).
    split; [|split; [exact I|split]].
    + apply postTaskHistory_200. repeat split; try assumption.
      now exists t, r.
    + intros r' In_r'. rewrite I. now apply Lt.
    + cbn. now rewrite U.
  - intro N. rewrite (postTaskHistory_valid true now b file _ V).
    destruct (insert_history _ _ _ _ _ _ _ _ _) as [[v|] d'] eqn:Ins;
      [|reflexivity].
    apply insert_history_some in Ins as (t' & r & T' & S & R & _).
    assert (t' = t) as -> by congruence.
    unfold history_row_of in N. destruct N; congruence.
Qed.

(** A request with a document on a store that has served two requests. *)
Lemma X6_history_keys_never_collide_witness :
  exists t,
    task_history
      (Api.serve [(true, Api.GetHistory "1"); (false, Api.GetTasks None)]
         Api.fresh) = Some t
    /\ history_id_free (tbl_serial t) t = true
    /\ (forall r,
           serial_left t = true ->
           history_row_of demo_history_body (Some [x25; x50; x44; x46; x2d])
             (tbl_serial t) 50 = Some r ->
           postTaskHistory true 50 demo_history_body
             (Some [x25; x50; x44; x46; x2d])
             (Api.serve [(true, Api.GetHistory "1");
                         (false, Api.GetTasks None)] Api.fresh)
           = (Json 200 (Saved (History.view_of r)),
              with_history r t
                (Api.serve [(true, Api.GetHistory "1");
                            (false, Api.GetTasks None)] Api.fresh))
           /\ History.id r = tbl_serial t
           /\ (forall r', In r' (tbl_rows t) ->
                          (History.id r' < History.id r)%Z)
           /\ History.has_file (History.view_of r)
              = History.is_not_null (Some [x25; x50; x44; x46; x2d]))
    /\ (serial_left t = false
        \/ history_row_of demo_history_body (Some [x25; x50; x44; x46; x2d])
             (tbl_serial t) 50 = None ->
        code_of (fst (postTaskHistory true 50 demo_history_body
                        (Some [x25; x50; x44; x46; x2d])
                        (Api.serve [(true, Api.GetHistory "1");
                                    (false, Api.GetTasks None)] Api.fresh)))
        = 500).
Proof.
  apply (X6_history_keys_never_collide
           [(true, Api.GetHistory "1"); (false, Api.GetTasks None)]).
  reflexivity.
Defined.

(** X7.  No route writes to [employees].  On a database on which the first
    variant started from nothing, after any sequence of requests,
    [GET /api/employees/:empId] never answers 200: the reply is 400 for a
    malformed id, 500 when the store cannot be reached, and 404
    otherwise. *)
Theorem X7_no_employee_is_ever_found {engine : Engine}
    (rs : list (bool * Api.request)) (up : bool) (empId : string) :
  getEmployee up empId (Api.serve rs Api.fresh)
  = if negb (Spec.lookup_id empId) then
      Json 400 (Error "Invalid employee ID format")
    else if up then Json 404 (Error "Employee not found")
    else Json 500 (Error "Failed to fetch employee").
Proof.
  destruct (serve_keeps_store_ok rs Api.fresh store_ok_fresh)
    as (te & tt & th & Ee & _ & _ & R & _).
  unfold getEmployee, select_employee. rewrite empIdLookupRe_spec, Ee.
  destruct (Spec.lookup_id empId) eqn:L; cbn [negb]; [|reflexivity].
  rewrite (lookup_id_text_ok empId L). cbn [option_map]. rewrite R.
  cbn [filter]. now destruct up.
Qed.


(* ================================================================== *)
(** * Stored documents and listings *)

(** The header Express sends for the sniffer's label: the label, with a
    charset after it when it is [text/plain]. *)
Lemma content_type_of_label (buf : Buffer) :
  Express.content_type (sniffContentType buf)
  = if String.eqb (sniffContentType buf) "text/plain"
    then "text/plain; charset=utf-8"
    else sniffContentType buf.
Proof.
  unfold sniffContentType.
  repeat match goal with
         | |- context [if ?c then _ else _] =>
             match c with
             | String.eqb _ _ => fail 1
             | _ => destruct c
             end
         end; reflexivity.
Qed.

(** X9.  Round trip of a document.  When a [POST /api/task-history] that
    carries a file is answered 200, the reply has [has_file] true;
    [GET /api/task-history/:id/file] with the returned id sends back
    exactly the uploaded bytes, inline; their [Content-Type] is the
    sniffer's label for them, followed by [; charset=utf-8] when the label
    is [text/plain]; and [GET /api/task-history/:id] returns the record as
    the POST reported it. *)
Theorem X9_document_round_trip {engine : Engine} (b : HistoryForm.body)
    (fileBuffer : Buffer) (now : Z) (d d' : db) (v : History.view) :
  postTaskHistory true now b (Some fileBuffer) d = (Json 200 (Saved v), d') ->
  History.has_file v = true
  /\ getHistoryFile true (Js.decimal (History.v_id v)) d'
     = File 200
         (if String.eqb (sniffContentType fileBuffer) "text/plain"
          then "text/plain; charset=utf-8"
          else sniffContentType fileBuffer)
         "inline" fileBuffer
  /\ getHistory true (Js.decimal (History.v_id v)) d' = Json 200 (AHistory v).
Proof.
  intro H.
  apply postTaskHistory_200 in H as (_ & _ & t & r & T & S & R & F & -> & ->).
  pose proof (history_row_of_columns _ _ _ _ _ R)
    as (I & _ & _ & _ & _ & _ & U & _).
  pose proof (find_stored b (Some fileBuffer) now t r R F) as Fd.
  split; [cbn; now rewrite U|].
  cbn [History.view_of History.v_id]. rewrite I. split.
  - rewrite (getHistoryFile_find _ (tbl_serial t) (with_history r t d)
               (mkTable (tbl_columns t) (tbl_rows t ++ [r])
                        (tbl_serial t + 1)%Z)
               (serial_left_key t S) eq_refl).
    cbn [tbl_rows]. rewrite Fd, U. now rewrite content_type_of_label.
  - rewrite (getHistory_find _ (tbl_serial t) (with_history r t d)
               (mkTable (tbl_columns t) (tbl_rows t ++ [r])
                        (tbl_serial t + 1)%Z)
               (serial_left_key t S) eq_refl).
    cbn [tbl_rows]. now rewrite Fd.
Qed.

(** A PNG image and a text file, stored in the example store and served
    again. *)
Lemma X9_document_round_trip_witness :
  (getHistoryFile true "2"
     (with_history (demo_history_2 (Some [x89; x50; x4e; x47; x0d; x0a]))
        demo_history demo_db)
   = File 200 "image/png" "inline" [x89; x50; x4e; x47; x0d; x0a])
  /\ (getHistoryFile true "2"
        (with_history (demo_history_2 (Some [x6e; x6f; x74; x65; x73; x0a]))
           demo_history demo_db)
      = File 200 "text/plain; charset=utf-8" "inline"
          [x6e; x6f; x74; x65; x73; x0a]).
Proof.
  split.
  - apply (proj1 (proj2
             (X9_document_round_trip demo_history_body
                [x89; x50; x4e; x47; x0d; x0a] 50 demo_db
                (with_history
                   (demo_history_2 (Some [x89; x50; x4e; x47; x0d; x0a]))
                   demo_history demo_db)
                (History.view_of
                   (demo_history_2 (Some [x89; x50; x4e; x47; x0d; x0a])))
                eq_refl))).
  - apply (proj1 (proj2
             (X9_document_round_trip demo_history_body
                [x6e; x6f; x74; x65; x73; x0a] 50 demo_db
                (with_history
                   (demo_history_2 (Some [x6e; x6f; x74; x65; x73; x0a]))
                   demo_history demo_db)
                (History.view_of
                   (demo_history_2 (Some [x6e; x6f; x74; x65; x73; x0a])))
                eq_refl))).
Defined.

(** X10.  [GET /api/task-history] returns one entry per stored record
    (per record of the employee, with a valid non-empty filter), newest
    [allocated_time] first; each entry is the record without its blob,
    with [has_file] true exactly when a document is stored.  A non-empty
    filter that is malformed gets 400 whatever the state of the store. *)
Theorem X10_list_history :
  (forall d t,
      task_history d = Some t ->
      exists rows,
        getTaskHistory true None d
        = Json 200 (Histories (map History.view_of rows))
        /\ Permutation rows (tbl_rows t)
        /\ StronglySorted (before_desc History.allocated_time) rows)
  /\ (forall s d t,
         s <> "" -> Regex.test empIdRe s = true -> task_history d = Some t ->
         exists rows,
           getTaskHistory true (Some s) d
           = Json 200 (Histories (map History.view_of rows))
           /\ Permutation rows
                (filter (fun r => String.eqb (History.employee_id r) s)
                        (tbl_rows t))
           /\ StronglySorted (before_desc History.allocated_time) rows)
  /\ (forall up s d,
         s <> "" -> Regex.test empIdRe s = false ->
         getTaskHistory up (Some s) d
         = Json 400 (Error "Invalid employee ID format"))
  /\ (forall r,
         History.has_file (History.view_of r) = true
         <-> exists doc, History.upload_doc r = Some doc).
Proof.
  split; [|split; [|split]].
  - intros d t T. unfold getTaskHistory, select_history.
    cbn [of_query Js.truthy run]. rewrite T. cbn [option_map].
    eexists. split; [reflexivity|]. split.
    + apply Permutation_sym, order_by_desc_perm.
    + apply order_by_desc_sorted.
  - intros s d t N E T. unfold getTaskHistory, select_history_of.
    cbn [of_query Js.truthy].
    destruct (String.eqb_spec s "") as [->|_]; [now elim N|]. cbn [negb].
    unfold Js.test. cbn [Js.ToString run].
    rewrite E, (empIdRe_text_ok s E), T. cbn [negb option_map].
    eexists. split; [reflexivity|]. split.
    + apply Permutation_sym, order_by_desc_perm.
    + apply order_by_desc_sorted.
  - intros up s d N E. unfold getTaskHistory. cbn [of_query Js.truthy].
    destruct (String.eqb_spec s "") as [->|_]; [now elim N|]. cbn [negb].
    unfold Js.test. cbn [Js.ToString]. now rewrite E.
  - intro r. cbn. destruct (History.upload_doc r) as [doc|]; cbn.
    + split; [now exists doc|reflexivity].
    + split; [discriminate|]. now intros [doc H].
Qed.

Lemma X10_list_history_witness :
  exists rows,
    getTaskHistory true (Some "ATS0123") demo_db
    = Json 200 (Histories (map History.view_of rows))
    /\ Permutation rows
         (filter (fun r => String.eqb (History.employee_id r) "ATS0123")
                 (tbl_rows demo_history))
    /\ StronglySorted (before_desc History.allocated_time) rows.
Proof.
  apply (proj1 (proj2 X10_list_history) "ATS0123" demo_db demo_history);
    [discriminate | reflexivity | reflexivity].
Defined.

(** X11.  A task that was stored shows up in the listings.  After a
    [POST /api/tasks] that is answered 200, [GET /api/tasks] returns the
    rows that were stored before and the new one; and when the employee id
    of the request is a string, the listing filtered by it contains the
    new task. *)
Theorem X11_posted_task_is_listed {engine : Engine} (b : TaskForm.body)
    (t1 t2 : Z) (d d' : db) (r : Task.row) :
  postTask true t1 t2 b d = (Json 200 (ATask r), d') ->
  exists t rows,
    tasks d = Some t
    /\ getTasks true None d' = Json 200 (Tasks rows)
    /\ Permutation rows (r :: tbl_rows t)
    /\ (forall s,
           TaskForm.employeeId b = Js.Str s ->
           exists rows',
             getTasks true (Some s) d' = Json 200 (Tasks rows')
             /\ In r rows').
Proof.
  intro H. apply postTask_200 in H as (_ & V & R & t & T & F & ->).
  exists t, (order_by_desc Task.created_at (tbl_rows t ++ [r])).
  split; [exact T|]. split; [reflexivity|]. split.
  { eapply perm_trans; [apply Permutation_sym, order_by_desc_perm|].
    apply Permutation_sym, Permutation_cons_append. }
  intros s Es.
  apply task_request_valid_checks in V as (_ & _ & I).
  rewrite Es in I. unfold Js.test in I. cbn [Js.ToString] in I.
  pose proof I as C. rewrite empIdRe_spec in C.
  apply task_row_of_columns in R as (_ & _ & _ & Ei & _).
  rewrite Es in Ei. change (param (Js.Str s)) with (Some s) in Ei.
  rewrite (creation_id_column s C) in Ei. injection Ei as Ei.
  exists (order_by_desc Task.created_at
            (filter (fun r' => String.eqb (Task.employee_id r') s)
                    (tbl_rows t ++ [r]))).
  split.
  - unfold getTasks, select_tasks_of. cbn [of_query Js.truthy].
    destruct (String.eqb_spec s "") as [Em|_].
    { rewrite Em in I. discriminate. }
    cbn [negb]. unfold Js.test. cbn [Js.ToString].
    now rewrite I, (empIdRe_text_ok s I).
  - eapply Permutation_in; [apply order_by_desc_perm|].
    apply filter_In. split; [apply in_or_app; right; now left|].
    rewrite <- Ei. apply String.eqb_refl.
Qed.

(** The request of the example store, once stored. *)
Lemma X11_posted_task_is_listed_witness :
  exists t rows,
    tasks demo_db = Some t
    /\ getTasks true None (with_task demo_task_3 demo_tasks demo_db)
       = Json 200 (Tasks rows)
    /\ Permutation rows (demo_task_3 :: tbl_rows t)
    /\ (forall s,
           TaskForm.employeeId (demo_task_body Js.Undefined) = Js.Str s ->
           exists rows',
             getTasks true (Some s) (with_task demo_task_3 demo_tasks demo_db)
             = Json 200 (Tasks rows')
             /\ In demo_task_3 rows').
Proof.
  apply (X11_posted_task_is_listed (demo_task_body Js.Undefined)
           1700000000003 40 demo_db).
  reflexivity.
Defined.

(* ================================================================== *)
(** * Uploads and served content types *)

Lemma sniff_in_labels (buf : Buffer) : In (sniffContentType buf) sniff_labels.
Proof.
  unfold sniffContentType, sniff_labels.
  repeat match goal with
         | |- context [if ?c then _ else _] => destruct c
         end; cbn; tauto.
Qed.

(** X12.  The upload filter accepts exactly the six listed types.  The
    type under which a stored document is served is always one of five
    labels, and the filter would accept it unless it is
    [application/octet-stream]; a document is never served as a Word
    document, although both Word types may be uploaded. *)
Theorem X12_filter_and_sniffer :
  (forall mimetype,
      Upload.fileFilter mimetype = Upload.Accept
      <-> In mimetype Upload.allowedTypes)
  /\ (forall buf, In (sniffContentType buf) sniff_labels)
  /\ (forall buf,
         Upload.fileFilter (sniffContentType buf) = Upload.Accept
         <-> sniffContentType buf <> "application/octet-stream")
  /\ (forall buf,
         Upload.fileFilter "application/msword" = Upload.Accept
         /\ sniffContentType buf <> "application/msword"
         /\ Upload.fileFilter
              "application/vnd.openxmlformats-officedocument.wordprocessingml.document"
            = Upload.Accept
         /\ sniffContentType buf
            <> "application/vnd.openxmlformats-officedocument.wordprocessingml.document").
Proof.
  split; [|split; [exact sniff_in_labels|split]].
  - intro m. unfold Upload.fileFilter, Upload.includes.
    destruct (existsb (String.eqb m) Upload.allowedTypes) eqn:X.
    + split; [|reflexivity]. intros _.
      apply existsb_exists in X as (x & I & E).
      apply String.eqb_eq in E. now subst.
    + split; [discriminate|]. intro I.
      assert (existsb (String.eqb m) Upload.allowedTypes = true) as C
        by (apply existsb_exists; exists m; split;
            [exact I|apply String.eqb_refl]).
      congruence.
  - intro buf. pose proof (sniff_in_labels buf) as L.
    cbn in L. destruct L as [<-|[<-|[<-|[<-|[<-|[]]]]]];
      cbn; split; congruence.
  - intro buf. pose proof (sniff_in_labels buf) as L.
    cbn in L. repeat split;
      destruct L as [<-|[<-|[<-|[<-|[<-|[]]]]]]; discriminate.
Qed.



Lemma index_is_firstn (buf : Buffer) (i n : nat) (x : N) :
  i < n -> index_is (firstn n buf) i x = index_is buf i x.
Proof.
  intro L. unfold index_is, index.
  now rewrite nth_error_firstn, (proj2 (Nat.ltb_lt i n) L).
Qed.

(** X14.  The content type depends on the first 100 bytes of the document
    only: a document and its first 100 bytes get the same label. *)
Theorem X14_sniffer_reads_100_bytes (buf : Buffer) :
  sniffContentType buf = sniffContentType (firstn 100 buf).
Proof.
  unfold sniffContentType, slice0.
  rewrite firstn_firstn, Nat.min_id.
  rewrite !index_is_firstn by lia.
  assert ((4 <? List.length (firstn 100 buf))%nat
          = (4 <? List.length buf)%nat) as ->; [|reflexivity].
  rewrite length_firstn.
  destruct (Nat.ltb_spec 4 (List.length buf)) as [L|L].
  - apply Nat.ltb_lt. lia.
  - apply Nat.ltb_ge. lia.
Qed.

Lemma decode_ascii_bytes (bs : list byte) :
  forallb is_ascii_byte bs = true ->
  Utf8.decode_from Utf8.init bs = Utf8.chars bs.
Proof.
  induction bs as [|b bs IH]; [reflexivity|].
  cbn [forallb]. intro A. apply andb_true_iff in A as [A As].
  cbn [Utf8.decode_from Utf8.step Utf8.init Utf8.needed].
  unfold Utf8.lead. unfold is_ascii_byte in A. rewrite A.
  cbn [Utf8.chars String.append]. now rewrite (IH As).
Qed.

(** X15.  [Buffer.toString] keeps ASCII as it is: a buffer whose bytes are
    all below 0x80 decodes to the string of the same characters, of the
    same length; and only such buffers decode to a string without
    characters above 127. *)
Theorem X15_ascii_decodes_to_itself (buf : Buffer) :
  (forallb is_ascii_byte buf = true ->
   Utf8.toString buf = Utf8.chars buf
   /\ String.length (Utf8.toString buf) = List.length buf)
  /\ (all_ascii (Utf8.toString buf) = true ->
      forallb is_ascii_byte buf = true).
Proof.
  split.
  - intro A. unfold Utf8.toString. rewrite (decode_ascii_bytes buf A).
    split; [reflexivity|]. clear A.
    induction buf as [|b buf IH]; cbn; congruence.
  - unfold Utf8.toString.
    now rewrite (decode_from_ascii buf Utf8.init dec_wf_init).
Qed.

Lemma X15_ascii_decodes_witness :
  Utf8.toString [x68; x69] = Utf8.chars [x68; x69]
  /\ String.length (Utf8.toString [x68; x69]) = List.length [x68; x69].
Proof.
  apply (proj1 (X15_ascii_decodes_to_itself [x68; x69])). reflexivity.
Defined.

(* ================================================================== *)
(** * The two identifier formats, side by side *)

(** X16.  An identifier accepted by either format has exactly seven
    characters, the width of the [employee_id] and [emp_id] columns.
    Every identifier a task can be created for can also be looked up,
    with the single exception of [ATS0000]. *)
Theorem X16_identifier_formats (s : string) :
  (Regex.test empIdRe s = true -> String.length s = 7)
  /\ (Regex.test empIdLookupRe s = true -> String.length s = 7)
  /\ (Regex.test empIdRe s = true ->
      s = "ATS0000" \/ Regex.test empIdLookupRe s = true)
  /\ (Regex.test empIdRe "ATS0000" = true
      /\ Regex.test empIdLookupRe "ATS0000" = false).
Proof.
  rewrite empIdRe_spec, empIdLookupRe_spec.
  split; [|split; [|split; [|split; reflexivity]]].
  - do 8 (try destruct s as [|? s]); cbn; congruence.
  - do 8 (try destruct s as [|? s]); cbn; congruence.
  - do 8 (try destruct s as [|? s]); cbn [Spec.creation_id]; try discriminate.
    intro H. repeat (apply andb_true_iff in H as [H ?]).
    repeat match goal with
           | E : Ascii.eqb _ _ = true |- _ => apply Ascii.eqb_eq in E; subst
           end.
    cbn [Spec.lookup_id].
    change (Spec.is_ATS "A") with true. change (Spec.is_ATS "T") with true.
    change (Spec.is_ATS "S") with true. cbn [andb].
    rewrite Ascii.eqb_refl.
    repeat match goal with
           | E : Spec.is_digit _ = true |- _ => rewrite E; clear E
           end.
    cbn [andb].
    destruct (Ascii.eqb_spec a3 "0") as [->|]; [|now right].
    destruct (Ascii.eqb_spec a4 "0") as [->|]; [|now right].
    destruct (Ascii.eqb_spec a5 "0") as [->|]; [|now right].
    now left.
Qed.

Lemma X16_identifier_formats_witness :
  "ATS0123" = "ATS0000" \/ Regex.test empIdLookupRe "ATS0123" = true.
Proof.
  apply (proj1 (proj2 (proj2 (X16_identifier_formats "ATS0123")))).
  reflexivity.
Defined.

(* ================================================================== *)
(** * The retry loop in general *)

Lemma queries_rounds (delay : Z) (l : list nat) (tr : list event) :
  queries (flat_map (failed_round delay) l ++ tr)
  = List.length l + queries tr.
Proof. induction l as [|a l IH]; cbn; [reflexivity|]. now rewrite IH. Qed.

Lemma slept_rounds (delay : Z) (l : list nat) (tr : list event) :
  slept (flat_map (failed_round delay) l ++ tr)
  = (delay * Z.of_nat (List.length l) + slept tr)%Z.
Proof.
  induction l as [|a l IH]; [cbn; lia|].
  cbn [flat_map failed_round app slept List.length]. rewrite IH. lia.
Qed.

(** X17.  [initializeDatabase(retries, delay)] with [retries >= 1] sends
    the schema statements at least once and at most [retries] times, and
    sleeps [delay] between two attempts, never after the last.  It returns
    as soon as an attempt succeeds, with the tables created; it throws when
    all [retries] attempts failed, after [(retries - 1) * delay]
    milliseconds of sleep, and leaves the store untouched.  With
    [retries = 0] it returns at once without sending anything. *)
Theorem X17_retry_loop (retries : nat) (delay : Z) (ok : nat -> bool)
    (d : db) :
  (1 <= retries ->
   exists o d' tr,
     initializeDatabase retries delay ok d = (o, d', tr)
     /\ 1 <= queries tr <= retries
     /\ slept tr = (delay * (Z.of_nat (queries tr) - 1))%Z
     /\ (forall j, 1 <= j < queries tr -> ok j = false)
     /\ ((o = Returned /\ d' = create_tables d /\ ok (queries tr) = true)
         \/ ((exists msg, o = Threw msg) /\ d' = d /\ queries tr = retries
             /\ ok retries = false)))
  /\ initializeDatabase 0 delay ok d = (Returned, d, []).
Proof.
  split; [|reflexivity]. intro R.
  unfold initializeDatabase.
  destruct (attempts_spec delay ok d retries retries 1)
    as [(k & Hk & Ok & Fl & Eq)|(Fl & Eq)]; try lia;
    replace (S retries - 1) with retries in Eq by lia; rewrite Eq.
  - do 3 eexists. split; [reflexivity|].
    rewrite queries_rounds, slept_rounds, length_seq. cbn [queries slept].
    replace (k - 1 + 1) with k by lia.
    replace (Z.of_nat (k - 1)) with (Z.of_nat k - 1)%Z by lia.
    split; [lia|]. split; [ring|]. split; [exact Fl|]. left. now auto.
  - do 3 eexists. split; [reflexivity|].
    rewrite queries_rounds, slept_rounds, length_seq. cbn [queries slept].
    replace (retries - 1 + 1) with retries by lia.
    replace (Z.of_nat (retries - 1)) with (Z.of_nat retries - 1)%Z by lia.
    split; [lia|]. split; [ring|].
    split; [intros j Hj; apply Fl; lia|]. right.
    split; [now eexists|]. split; [reflexivity|]. split; [reflexivity|].
    apply Fl; lia.
Qed.

Lemma X17_retry_loop_witness :
  exists o d' tr,
    initializeDatabase 3 100 (fun k => Nat.eqb k 2) Store.empty = (o, d', tr)
    /\ 1 <= queries tr <= 3
    /\ slept tr = (100 * (Z.of_nat (queries tr) - 1))%Z
    /\ (forall j, 1 <= j < queries tr -> Nat.eqb j 2 = false)
    /\ ((o = Returned /\ d' = create_tables Store.empty
         /\ Nat.eqb (queries tr) 2 = true)
        \/ ((exists msg, o = Threw msg) /\ d' = Store.empty
            /\ queries tr = 3 /\ Nat.eqb 3 2 = false)).
Proof.
  apply (proj1 (X17_retry_loop 3 100 (fun k => Nat.eqb k 2) Store.empty)).
  lia.
Defined.

(* ================================================================== *)
(** * The schema scripts and the initializers *)

Lemma create_index_some (name table col : string) (c c' : InitSql.catalog) :
  InitSql.create_index_if_not_exists name table col c = Some c' ->
  InitSql.relations c' = InitSql.relations c
  /\ (exists cols,
         InitSql.columns_of table (InitSql.relations c) = Some cols
         /\ InitSql.has_column cols col = true)
  /\ has_index name c' = true
  /\ (forall n, has_index n c = true -> has_index n c' = true).
Proof.
  unfold InitSql.create_index_if_not_exists.
  destruct (InitSql.columns_of table (InitSql.relations c)) as [cols|];
    [|discriminate].
  destruct (InitSql.has_column cols col) eqn:H; [|discriminate].
  destruct (existsb _ (InitSql.indexes c)) eqn:X; intro E;
    injection E as <-.
  - split; [reflexivity|]. split; [now exists cols|]. now split.
  - cbn. split; [reflexivity|]. split; [now exists cols|].
    unfold has_index. cbn. split.
    + rewrite existsb_app. cbn. now rewrite String.eqb_refl, orb_true_r.
    + intros n Hn. rewrite existsb_app. unfold has_index in Hn.
      now rewrite Hn.
Qed.

Lemma create_index_again (name table col : string) (c : InitSql.catalog)
    (cols : list column) :
  InitSql.columns_of table (InitSql.relations c) = Some cols ->
  InitSql.has_column cols col = true ->
  has_index name c = true ->
  InitSql.create_index_if_not_exists name table col c = Some c.
Proof.
  intros C H N. unfold InitSql.create_index_if_not_exists.
  rewrite C, H. unfold has_index in N. now rewrite N.
Qed.

Lemma init_sql_tables_exist (c : InitSql.catalog) :
  initialized (InitSql.relations (InitSql.create_tables c)) = true.
Proof.
  destruct c as [[[e|] [t|] [h|]] ix]; reflexivity.
Qed.

Lemma init_sql_tables_kept (c : InitSql.catalog) :
  initialized (InitSql.relations c) = true -> InitSql.create_tables c = c.
Proof.
  destruct c as [[[e|] [t|] [h|]] ix]; cbn; try discriminate. reflexivity.
Qed.

Lemma server_tables_kept (d : db) :
  initialized d = true -> create_tables d = d.
Proof.
  destruct d as [[e|] [t|] [h|]]; cbn; try discriminate. reflexivity.
Qed.

(** X18.  [init.sql] and the initializer of the first variant agree.  On an
    empty database the script creates exactly the tables the server would
    create, with the same columns, and four indexes.  Whenever the script
    succeeds, running the server's initializer afterwards changes nothing,
    and running the script again succeeds and changes nothing. *)
Theorem X18_init_sql_agrees_with_server :
  (exists c,
      InitSql.run InitSql.nothing = Some c
      /\ InitSql.relations c = create_tables Store.empty
      /\ map InitSql.idx_name (InitSql.indexes c)
         = [ "idx_tasks_employee_id"; "idx_tasks_status";
             "idx_task_history_employee_id"; "idx_task_history_task_status" ])
  /\ (forall c c',
         InitSql.run c = Some c' ->
         create_tables (InitSql.relations c') = InitSql.relations c'
         /\ InitSql.run c' = Some c').
Proof.
  split; [eexists; repeat split|].
  intros c c'. unfold InitSql.run.
  destruct (InitSql.create_index_if_not_exists "idx_tasks_employee_id"
              "tasks" "employee_id" (InitSql.create_tables c))
    as [c1|] eqn:S1; [|discriminate]. cbn [InitSql.and_then].
  destruct (InitSql.create_index_if_not_exists "idx_tasks_status" "tasks"
              "status" c1) as [c2|] eqn:S2; [|discriminate].
  cbn [InitSql.and_then].
  destruct (InitSql.create_index_if_not_exists "idx_task_history_employee_id"
              "task_history" "employee_id" c2) as [c3|] eqn:S3;
    [|discriminate].
  cbn [InitSql.and_then]. intro S4.
  apply create_index_some in S1 as (R1 & (k1 & C1 & H1) & N1 & _).
  apply create_index_some in S2 as (R2 & (k2 & C2 & H2) & N2 & M2).
  apply create_index_some in S3 as (R3 & (k3 & C3 & H3) & N3 & M3).
  apply create_index_some in S4 as (R4 & (k4 & C4 & H4) & N4 & M4).
  assert (InitSql.relations c'
          = InitSql.relations (InitSql.create_tables c)) as R
    by congruence.
  assert (initialized (InitSql.relations c') = true) as I
    by (rewrite R; apply init_sql_tables_exist).
  split; [now apply server_tables_kept|].
  rewrite (init_sql_tables_kept c' I).
  rewrite (create_index_again _ _ _ c' k1); cbn [InitSql.and_then];
    [|congruence|exact H1|auto].
  rewrite (create_index_again _ _ _ c' k2); cbn [InitSql.and_then];
    [|congruence|exact H2|auto].
  rewrite (create_index_again _ _ _ c' k3); cbn [InitSql.and_then];
    [|congruence|exact H3|auto].
  apply (create_index_again _ _ _ c' k4); [congruence|exact H4|exact N4].
Qed.

Lemma X18_init_sql_witness :
  create_tables
    (InitSql.relations
       (InitSql.mkCatalog (create_tables Store.empty)
          [ InitSql.mkIndex "idx_tasks_employee_id" "tasks" "employee_id";
            InitSql.mkIndex "idx_tasks_status" "tasks" "status";
            InitSql.mkIndex "idx_task_history_employee_id" "task_history"
              "employee_id";
            InitSql.mkIndex "idx_task_history_task_status" "task_history"
              "task_status" ]))
  = InitSql.relations
      (InitSql.mkCatalog (create_tables Store.empty)
         [ InitSql.mkIndex "idx_tasks_employee_id" "tasks" "employee_id";
           InitSql.mkIndex "idx_tasks_status" "tasks" "status";
           InitSql.mkIndex "idx_task_history_employee_id" "task_history"
             "employee_id";
           InitSql.mkIndex "idx_task_history_task_status" "task_history"
             "task_status" ])
  /\ InitSql.run
       (InitSql.mkCatalog (create_tables Store.empty)
          [ InitSql.mkIndex "idx_tasks_employee_id" "tasks" "employee_id";
            InitSql.mkIndex "idx_tasks_status" "tasks" "status";
            InitSql.mkIndex "idx_task_history_employee_id" "task_history"
              "employee_id";
            InitSql.mkIndex "idx_task_history_task_status" "task_history"
              "task_status" ])
     = Some
         (InitSql.mkCatalog (create_tables Store.empty)
            [ InitSql.mkIndex "idx_tasks_employee_id" "tasks" "employee_id";
              InitSql.mkIndex "idx_tasks_status" "tasks" "status";
              InitSql.mkIndex "idx_task_history_employee_id" "task_history"
                "employee_id";
              InitSql.mkIndex "idx_task_history_task_status" "task_history"
                "task_status" ]).
Proof.
  apply (proj2 X18_init_sql_agrees_with_server InitSql.nothing).
  reflexivity.
Defined.

(** X19.  [sql.sql] declares the tables of the second variant with the
    columns its initializer uses: on an empty database the script builds
    the very store the initializer leaves behind on any database.  Unlike
    the initializer, the script leaves an initialized store as it is, rows
    included. *)
Theorem X19_sql_sql_agrees_with_second_variant :
  (forall d, ServerV2.create_tables d = SqlSql.run empty_v2)
  /\ (forall d, initialized_v2 d = true -> SqlSql.run d = d)
  /\ (forall d, SqlSql.run (SqlSql.run d) = SqlSql.run d).
Proof.
  split; [reflexivity|]. split.
  - intros [[t|] [h|]]; cbn; try discriminate. reflexivity.
  - intros [[t|] [h|]]; reflexivity.
Qed.

Lemma X19_sql_sql_witness : SqlSql.run demo_db_v2 = demo_db_v2.
Proof.
  apply (proj1 (proj2 X19_sql_sql_agrees_with_second_variant)). reflexivity.
Defined.

(* ================================================================== *)
(** * The second variant *)

(** X20.  Every successful start of the second variant empties the store:
    whatever [tasks] and [task_history] held, after start-up both exist
    without rows and with the serial counter at 1, the server listens, and
    the task list is empty.  When the schema statements fail, the process
    exits with status 1 after a single attempt, without waiting and
    without listening, and the store is untouched. *)
Theorem X20_second_variant_start (d : ServerV2.db) :
  RoutesV2.startServer true d
  = (ServerV2.mkDb (Some (mkTable ServerV2.tasks_columns [] 1))
                   (Some (mkTable ServerV2.task_history_columns [] 1)),
     [Query 1; Listen])
  /\ RoutesV2.getTasks true (fst (RoutesV2.startServer true d))
     = RoutesV2.Json 200 (RoutesV2.Tasks [])
  /\ RoutesV2.startServer false d = (d, [Query 1; Exit 1]).
Proof. repeat split. Qed.

Lemma task_required_check_v2 (b : TaskForm.body) :
  negb (Js.truthy (TaskForm.taskName b))
  || negb (Js.truthy (TaskForm.employeeName b))
  || negb (Js.truthy (TaskForm.employeeId b))
  || negb (Js.truthy (TaskForm.taskDescription b))
  || negb (Js.truthy (TaskForm.allocatedDate b))
  || negb (Js.truthy (TaskForm.deadline b))
  = negb (task_fields_present_v2 b).
Proof.
  unfold task_fields_present_v2.
  repeat match goal with
         | |- context [Js.truthy ?v] => destruct (Js.truthy v)
         end; reflexivity.
Qed.

(** [POST /api/tasks] of the second variant, case by case. *)
Lemma postTask_v2_cases {engine : Engine} (up : bool) (t1 t2 : Z)
    (b : TaskForm.body) (d : ServerV2.db) :
  RoutesV2.postTask up t1 t2 b d =
  if negb (task_fields_present_v2 b) then
    (RoutesV2.Json 400 (RoutesV2.Error "All fields are required"), d)
  else
    match up, ServerV2.tasks d, task_row_of_v2 b t1 t2 with
    | true, Some t, Some r =>
        if task_id_free_v2 (TaskV2.id r) t
        then (RoutesV2.Json 200 (RoutesV2.ATask r), with_task_v2 r t d)
        else (RoutesV2.Json 500 (RoutesV2.Error "Failed to save task"), d)
    | _, _, _ => (RoutesV2.Json 500 (RoutesV2.Error "Failed to save task"), d)
    end.
Proof.
  unfold RoutesV2.postTask. rewrite task_required_check_v2.
  destruct (negb (task_fields_present_v2 b)); [reflexivity|].
  unfold run, RoutesV2.insert_task, task_row_of_v2, task_id_free_v2,
    with_task_v2.
  destruct up; [|reflexivity].
  destruct (ServerV2.tasks d) as [t|]; cbn [and_then]; [|reflexivity].
  destruct (RoutesV2.task_row _ _ _ _ _ _ _ _ _) as [r|]; cbn [and_then];
    [|reflexivity].
  now destruct (existsb _ (tbl_rows t)).
Qed.

Lemma task_row_of_v2_columns {engine : Engine} (b : TaskForm.body)
    (t1 t2 : Z) (r : TaskV2.row) :
  task_row_of_v2 b t1 t2 = Some r ->
  TaskV2.id r = Js.decimal t1
  /\ varchar_column 25 (param (TaskForm.taskName b))
     = Some (TaskV2.task_name r)
  /\ varchar_column 30 (param (TaskForm.employeeName b))
     = Some (TaskV2.employee_name r)
  /\ varchar_column 7 (param (TaskForm.employeeId b))
     = Some (TaskV2.employee_id r)
  /\ varchar_column 60 (param (TaskForm.taskDescription b))
     = Some (TaskV2.task_description r)
  /\ date_column (param (TaskForm.allocatedDate b))
     = Some (TaskV2.allocated_date r)
  /\ date_column (param (TaskForm.deadline b)) = Some (TaskV2.deadline r)
  /\ varchar_column 20
       (param (Js.or (TaskForm.status b) (Js.Str "assigned")))
     = Some (TaskV2.status r)
  /\ TaskV2.created_at r = t2.
Proof.
  unfold task_row_of_v2, RoutesV2.task_row. intro H. columns H.
  injection H as <-. cbn [TaskV2.id TaskV2.task_name TaskV2.employee_name
    TaskV2.employee_id TaskV2.task_description TaskV2.allocated_date
    TaskV2.deadline TaskV2.status TaskV2.created_at].
  repeat split. now apply (decimal_column 255).
Qed.

(** X21.  The second variant's [POST /api/tasks] checks presence only: a
    request with a falsy required field gets 400 and changes nothing.  A
    request whose six required fields are truthy is answered with the
    stored row exactly when the table exists, every column takes its value
    (the widths are 25, 30, 7 and 60 characters, and the two dates must be
    dates) and the millisecond key is free; neither the shape of the
    employee id nor an e-mail plays a part.  [GET /api/tasks/:id] with the
    returned id then yields the stored row.  When a column refuses its
    value, as [employee_id] does for a string that [VARCHAR(7)] refuses,
    or the store cannot be reached, the request is answered 500 and
    changes nothing. *)
Theorem X21_second_variant_post_task {engine : Engine} (b : TaskForm.body)
    (t1 t2 : Z) (d : ServerV2.db) :
  (forall up,
      task_fields_present_v2 b = false ->
      RoutesV2.postTask up t1 t2 b d
      = (RoutesV2.Json 400 (RoutesV2.Error "All fields are required"), d))
  /\ (forall r d',
         RoutesV2.postTask true t1 t2 b d
         = (RoutesV2.Json 200 (RoutesV2.ATask r), d')
         <-> task_fields_present_v2 b = true
             /\ task_row_of_v2 b t1 t2 = Some r
             /\ exists t,
                  ServerV2.tasks d = Some t
                  /\ task_id_free_v2 (TaskV2.id r) t = true
                  /\ d' = with_task_v2 r t d)
  /\ (forall r d',
         RoutesV2.postTask true t1 t2 b d
         = (RoutesV2.Json 200 (RoutesV2.ATask r), d') ->
         RoutesV2.getTask true (TaskV2.id r) d'
         = RoutesV2.Json 200 (RoutesV2.ATask r))
  /\ (forall up,
         task_fields_present_v2 b = true ->
         task_row_of_v2 b t1 t2 = None \/ up = false ->
         RoutesV2.postTask up t1 t2 b d
         = (RoutesV2.Json 500 (RoutesV2.Error "Failed to save task"), d))
  /\ (forall s,
         TaskForm.employeeId b = Js.Str s ->
         Pg.varchar 7 s = None ->
         task_row_of_v2 b t1 t2 = None).
Proof.
  assert (forall r d',
         RoutesV2.postTask true t1 t2 b d
         = (RoutesV2.Json 200 (RoutesV2.ATask r), d')
         <-> task_fields_present_v2 b = true
             /\ task_row_of_v2 b t1 t2 = Some r
             /\ exists t,
                  ServerV2.tasks d = Some t
                  /\ task_id_free_v2 (TaskV2.id r) t = true
                  /\ d' = with_task_v2 r t d) as Stored.
  { intros r d'. rewrite postTask_v2_cases.
    destruct (task_fields_present_v2 b); cbn [negb];
      [|split; [discriminate|now intros (H & _)]].
    destruct (ServerV2.tasks d) as [t|];
      [|split; [discriminate|now intros (_ & _ & t & H & _)]].
    destruct (task_row_of_v2 b t1 t2) as [r0|];
      [|split; [discriminate|now intros (_ & H & _)]].
    destruct (task_id_free_v2 (TaskV2.id r0) t) eqn:F.
    - split.
      + intro H. injection H as -> <-. repeat split. now exists t.
      + intros (_ & H & t' & T & _ & ->). injection H as ->.
        now injection T as ->.
    - split; [discriminate|].
      intros (_ & H & t' & T & F' & _). injection H as ->.
      injection T as ->. congruence. }
  split; [|split; [exact Stored|split; [|split]]].
  - intros up P. now rewrite postTask_v2_cases, P.
  - intros r d' H. apply Stored in H as (_ & R & t & T & F & ->).
    apply task_row_of_v2_columns in R as [I _].
    assert (Pg.text_ok (TaskV2.id r) = true) as K
      by (rewrite I; apply decimal_text_ok).
    unfold RoutesV2.getTask, RoutesV2.select_task, with_task_v2.
    rewrite K. cbn [run ServerV2.tasks option_map tbl_rows].
    unfold task_id_free_v2 in F. apply negb_true_iff in F.
    rewrite filter_app, (filter_none _ _ F).
    cbn [filter app]. now rewrite String.eqb_refl.
  - intros up P N. rewrite postTask_v2_cases, P. cbn [negb].
    destruct N as [-> | ->]; [|reflexivity].
    destruct up; [|reflexivity]. now destruct (ServerV2.tasks d).
  - intros s Es N. unfold task_row_of_v2, RoutesV2.task_row. rewrite Es.
    change (param (Js.Str s)) with (Some s).
    assert (varchar_column 7 (Some s) = None) as ->
      by (unfold varchar_column, and_then; rewrite N;
          now destruct (Pg.text_ok s)).
    unfold and_then.
    repeat match goal with
           | |- context [match ?x with Some _ => _ | None => _ end] =>
               destruct x; try reflexivity
           end.
Qed.

(** An employee id of another shape is stored; one of eight characters is
    refused. *)
Lemma X21_second_variant_post_task_witness :
  RoutesV2.getTask true "1700000000003"
    (with_task_v2
       (TaskV2.mkRow "1700000000003" "Payroll" "Asha" "EMP-17" "Run payroll"
          20240201 20240205 "assigned" 40)
       demo_tasks_v2 demo_db_v2)
  = RoutesV2.Json 200
      (RoutesV2.ATask
         (TaskV2.mkRow "1700000000003" "Payroll" "Asha" "EMP-17"
            "Run payroll" 20240201 20240205 "assigned" 40))
  /\ RoutesV2.postTask true 1700000000003 40 (demo_task_body_v2 "ATS01234")
       demo_db_v2
     = (RoutesV2.Json 500 (RoutesV2.Error "Failed to save task"), demo_db_v2).
Proof.
  split.
  - apply (proj1 (proj2 (proj2
             (X21_second_variant_post_task (demo_task_body_v2 "EMP-17")
                1700000000003 40 demo_db_v2)))
             (TaskV2.mkRow "1700000000003" "Payroll" "Asha" "EMP-17"
                "Run payroll" 20240201 20240205 "assigned" 40)).
    reflexivity.
  - apply (proj1 (proj2 (proj2 (proj2
             (X21_second_variant_post_task (demo_task_body_v2 "ATS01234")
                1700000000003 40 demo_db_v2))))); [reflexivity|].
    left.
    apply (proj2 (proj2 (proj2 (proj2
             (X21_second_variant_post_task (demo_task_body_v2 "ATS01234")
                1700000000003 40 demo_db_v2))))
             "ATS01234");
      reflexivity.
Defined.

(** ** White space in file names *)

Lemma strip_one_shorter (s rest : string) :
  Whitespace.strip_one s = Some rest ->
  String.length rest < String.length s.
Proof.
  unfold Whitespace.strip_one.
  destruct s as [|c [|d [|e r]]];
    repeat match goal with
           | |- context [if ?x then _ else _] => destruct x
           end;
    intro H; try discriminate; injection H as <-; cbn; lia.
Qed.

Lemma strip_one_none_head (c : ascii) (r : string) :
  Whitespace.strip_one (String c r) = None ->
  Whitespace.is_ascii_space c = false.
Proof.
  cbn. destruct (Whitespace.is_ascii_space c); [discriminate|reflexivity].
Qed.

Lemma strip_one_plain (c : ascii) (r : string) :
  (N_of_ascii c <=? 127)%N = true ->
  Whitespace.is_ascii_space c = false ->
  Whitespace.strip_one (String c r) = None.
Proof.
  intros A S. apply N.leb_le in A. cbn. rewrite S.
  assert (forall n, (127 < n)%N -> Whitespace.code_is c n = false) as F
    by (intros n L; apply N.eqb_neq; lia).
  destruct r as [|d [|e r]]; [reflexivity| |];
    rewrite ?(F 0xC2%N), ?(F 0xE1%N), ?(F 0xE2%N), ?(F 0xE3%N), ?(F 0xEF%N)
      by lia; reflexivity.
Qed.

(** The result does not depend on the fuel, once it covers the string. *)
Lemma replace_runs_fuel (f1 : nat) :
  forall f2 in_run s,
    String.length s <= f1 -> String.length s <= f2 ->
    Whitespace.replace_runs f1 in_run s = Whitespace.replace_runs f2 in_run s.
Proof.
  induction f1 as [|f1 IH]; intros f2 in_run s L1 L2.
  - destruct s; [|cbn in L1; lia]. now destruct f2.
  - destruct f2 as [|f2].
    + destruct s; [reflexivity|cbn in L2; lia].
    + cbn [Whitespace.replace_runs].
      destruct (Whitespace.strip_one s) as [rest|] eqn:S.
      * apply strip_one_shorter in S.
        rewrite (IH f2 true rest) by lia. reflexivity.
      * destruct s as [|c r]; [reflexivity|]. cbn in L1, L2.
        rewrite (IH f2 false r) by lia. reflexivity.
Qed.

Lemma replace_runs_no_space (fuel : nat) :
  forall in_run s,
    no_ascii_space (Whitespace.replace_runs fuel in_run s) = true.
Proof.
  induction fuel as [|fuel IH]; intros in_run s; [reflexivity|].
  cbn [Whitespace.replace_runs].
  destruct (Whitespace.strip_one s) as [rest|] eqn:S.
  - destruct in_run; [apply IH|].
    unfold no_ascii_space in *. cbn [Spec.all_chars]. now rewrite IH.
  - destruct s as [|c r]; [reflexivity|].
    unfold no_ascii_space in *. cbn [Spec.all_chars].
    now rewrite (strip_one_none_head c r S), IH.
Qed.

Lemma replace_runs_length (fuel : nat) :
  forall in_run s,
    String.length s <= fuel ->
    String.length (Whitespace.replace_runs fuel in_run s) <= String.length s.
Proof.
  induction fuel as [|fuel IH]; intros in_run s L; [cbn; lia|].
  cbn [Whitespace.replace_runs].
  destruct (Whitespace.strip_one s) as [rest|] eqn:S.
  - apply strip_one_shorter in S.
    assert (String.length rest <= fuel) as Lr by lia.
    specialize (IH true rest Lr). destruct in_run; cbn; lia.
  - destruct s as [|c r]; [cbn; lia|]. cbn in L.
    assert (String.length r <= fuel) as Lr by lia.
    specialize (IH false r Lr). cbn. lia.
Qed.

Lemma replace_runs_plain (s : string) :
  forall fuel,
    String.length s <= fuel -> plain_ascii s = true ->
    Whitespace.replace_runs fuel false s = s.
Proof.
  induction s as [|c r IH]; intros fuel L P.
  - now destruct fuel.
  - destruct fuel as [|fuel]; [cbn in L; lia|].
    unfold plain_ascii in P. cbn [Spec.all_chars] in P.
    apply andb_true_iff in P as [Pc Pr]. apply andb_true_iff in Pc as [A S].
    apply negb_true_iff in S.
    cbn [Whitespace.replace_runs]. rewrite (strip_one_plain c r A S).
    cbn in L. rewrite (IH fuel) by (lia || exact Pr). reflexivity.
Qed.

(** Characters that are no white space are copied, and what follows them
    is read outside a run. *)
Lemma replace_runs_word (w : string) :
  forall fuel in_run rest,
    plain_ascii w = true ->
    String.length (w ++ rest) <= fuel ->
    Whitespace.replace_runs fuel in_run (w ++ rest)
    = (w ++ Whitespace.replace_runs fuel
              (match w with EmptyString => in_run | _ => false end)
              rest)%string.
Proof.
  induction w as [|c w IH]; intros fuel in_run rest P L; [reflexivity|].
  destruct fuel as [|fuel]; [cbn in L; lia|].
  unfold plain_ascii in P. cbn [Spec.all_chars] in P.
  apply andb_true_iff in P as [Pc Pw]. apply andb_true_iff in Pc as [A Sp].
  apply negb_true_iff in Sp. cbn in L.
  assert (String.length rest <= fuel) as Lr
    by (rewrite length_append in L; lia).
  rewrite (replace_runs_fuel (S fuel) fuel false rest) by lia.
  cbn [append Whitespace.replace_runs].
  rewrite (strip_one_plain c (w ++ rest) A Sp).
  rewrite (IH fuel false rest Pw) by lia.
  now destruct w.
Qed.

(** A run of white space gives one underscore, or none when the run had
    begun before. *)
Lemma replace_runs_blanks (blanks : string) :
  forall fuel in_run rest,
    blanks <> EmptyString ->
    Spec.all_chars Whitespace.is_ascii_space blanks = true ->
    String.length (blanks ++ rest) <= fuel ->
    Whitespace.replace_runs fuel in_run (blanks ++ rest)
    = ((if in_run then "" else "_")
       ++ Whitespace.replace_runs fuel true rest)%string.
Proof.
  induction blanks as [|c bl IH]; intros fuel in_run rest N A L;
    [now elim N|].
  destruct fuel as [|fuel]; [cbn in L; lia|].
  cbn [Spec.all_chars] in A. apply andb_true_iff in A as [Ac Ab].
  cbn in L.
  assert (String.length rest <= fuel) as Lr
    by (rewrite length_append in L; lia).
  rewrite (replace_runs_fuel (S fuel) fuel true rest) by lia.
  cbn [append Whitespace.replace_runs].
  assert (Whitespace.strip_one (String c (bl ++ rest))
          = Some (bl ++ rest)%string)
    as -> by (cbn; now rewrite Ac).
  assert (Whitespace.replace_runs fuel true (bl ++ rest)%string
          = Whitespace.replace_runs fuel true rest) as E.
  { destruct bl as [|c' bl']; [reflexivity|].
    now rewrite (IH fuel true rest) by (discriminate || assumption || lia). }
  rewrite E. now destruct in_run.
Qed.

Lemma replace_runs_end (fuel : nat) (in_run : bool) :
  Whitespace.replace_runs fuel in_run EmptyString = EmptyString.
Proof. now destruct fuel. Qed.

(** Two words with white space between them are joined by one
    underscore. *)
Lemma replace_two_words (w1 blanks w2 : string) :
  plain_ascii w1 = true -> plain_ascii w2 = true ->
  blanks <> EmptyString ->
  Spec.all_chars Whitespace.is_ascii_space blanks = true ->
  Whitespace.replace (w1 ++ blanks ++ w2) = (w1 ++ "_" ++ w2)%string.
Proof.
  intros P1 P2 N A. unfold Whitespace.replace.
  set (fuel := String.length (w1 ++ blanks ++ w2)).
  assert (String.length (w1 ++ blanks ++ w2) <= fuel) as L by (subst fuel; lia).
  rewrite (replace_runs_word w1 fuel false (blanks ++ w2) P1 L).
  rewrite length_append in L.
  replace (match w1 with EmptyString => false | _ => false end) with false
    by now destruct w1.
  rewrite (replace_runs_blanks blanks fuel false w2 N A) by lia.
  rewrite length_append in L.
  rewrite <- (append_empty w2) at 1.
  rewrite (replace_runs_word w2 fuel true "" P2).
  - now rewrite replace_runs_end, append_empty.
  - rewrite length_append. cbn. lia.
Qed.

(** Node takes a header value of printable ASCII characters. *)
Lemma header_ok_printable (s : string) :
  printable s = true -> Express.header_ok s = true.
Proof.
  induction s as [|c s IH]; [reflexivity|].
  unfold printable. cbn [Pg.every Express.header_ok].
  intro H. apply andb_true_iff in H as [Hc Hs]. rewrite Hc, orb_true_r.
  now apply IH.
Qed.

Lemma getHistoryFile_v2_find (id : string) (k : Z) (d : ServerV2.db)
    (t : table HistoryV2.row) :
  Pg.int4_in id = Some k ->
  ServerV2.task_history d = Some t ->
  RoutesV2.getHistoryFile true id d
  = match find (fun r => (HistoryV2.id r =? k)%Z) (tbl_rows t) with
    | None => RoutesV2.Json 404 (RoutesV2.Error "File not found")
    | Some r =>
        match HistoryV2.upload_doc r with
        | None => RoutesV2.Json 404 (RoutesV2.Error "File not found")
        | Some fileBuffer =>
            if Express.header_ok (RoutesV2.disposition (HistoryV2.task_name r))
            then RoutesV2.File 200 "application/octet-stream"
                   (RoutesV2.disposition (HistoryV2.task_name r)) fileBuffer
            else RoutesV2.Json 500 (RoutesV2.Error "Failed to retrieve file")
        end
    end.
Proof.
  intros K T. unfold RoutesV2.getHistoryFile, RoutesV2.select_history_by_id.
  cbn [run]. rewrite K, T. cbn [and_then option_map].
  rewrite <- filter_head_find.
  now destruct (filter _ (tbl_rows t)).
Qed.

(** X22.  The file endpoint of the second variant.  A key the engine does
    not read as an [integer] is answered 500.  For a document stored under
    the key, the [Content-Disposition] is [attachment], with as file name
    the task name in which each run of white space is replaced by one
    underscore, followed by [_document]; when Node takes that header the
    document is sent as [application/octet-stream], and when it does not
    (a character above U+00FF or a control character in the task name)
    the answer is 500.  A header whose file name is printable ASCII is
    taken.  The name so derived contains no ASCII white space, is not
    longer than the task name, and is the task name itself when that is
    plain ASCII without white space; two such words with white space
    between them are joined by exactly one underscore. *)
Theorem X22_second_variant_file :
  (forall up id d,
      Pg.int4_in id = None ->
      RoutesV2.getHistoryFile up id d
      = RoutesV2.Json 500 (RoutesV2.Error "Failed to retrieve file"))
  /\ (forall id k d t r fileBuffer,
         Pg.int4_in id = Some k ->
         ServerV2.task_history d = Some t ->
         find (fun r => (HistoryV2.id r =? k)%Z) (tbl_rows t) = Some r ->
         HistoryV2.upload_doc r = Some fileBuffer ->
         RoutesV2.getHistoryFile true id d
         = if Express.header_ok (RoutesV2.disposition (HistoryV2.task_name r))
           then RoutesV2.File 200 "application/octet-stream"
                  ("attachment; filename=" ++ RoutesV2.dquote
                   ++ Whitespace.replace (HistoryV2.task_name r)
                   ++ "_document" ++ RoutesV2.dquote)
                  fileBuffer
           else RoutesV2.Json 500 (RoutesV2.Error "Failed to retrieve file"))
  /\ (forall task_name,
         printable (Whitespace.replace task_name) = true ->
         Express.header_ok (RoutesV2.disposition task_name) = true)
  /\ (forall task_name,
         no_ascii_space (Whitespace.replace task_name) = true
         /\ String.length (Whitespace.replace task_name)
            <= String.length task_name
         /\ (plain_ascii task_name = true ->
             Whitespace.replace task_name = task_name))
  /\ (forall w1 blanks w2,
         plain_ascii w1 = true -> plain_ascii w2 = true ->
         blanks <> "" ->
         Spec.all_chars Whitespace.is_ascii_space blanks = true ->
         Whitespace.replace (w1 ++ blanks ++ w2) = (w1 ++ "_" ++ w2)%string).
Proof.
  split; [|split; [|split; [|split]]].
  - intros up id d K.
    unfold RoutesV2.getHistoryFile, RoutesV2.select_history_by_id.
    rewrite K. now destruct up.
  - intros id k d t r fileBuffer K T F U.
    rewrite (getHistoryFile_v2_find id k d t K T), F, U. reflexivity.
  - intros task_name P. apply header_ok_printable.
    unfold RoutesV2.disposition, printable in *.
    rewrite !every_app, P. reflexivity.
  - intro task_name. split; [apply replace_runs_no_space|]. split.
    + apply replace_runs_length. lia.
    + intro P. apply replace_runs_plain; [lia|exact P].
  - apply replace_two_words.
Qed.

(** A task name with blanks, a tab and a line break, and one with a Greek
    letter. *)
Lemma X22_second_variant_file_witness :
  Whitespace.replace
    ("Q1" ++ String " " (String " " (String "009" (String "010" "")))
     ++ "report")
  = "Q1_report"
  /\ RoutesV2.getHistoryFile true "1"
       (ServerV2.mkDb None
          (Some (demo_history_v2
                   ("Q1" ++ String " " (String "009" "") ++ "report"))))
     = RoutesV2.File 200 "application/octet-stream"
         ("attachment; filename=" ++ RoutesV2.dquote ++ "Q1_report"
          ++ "_document" ++ RoutesV2.dquote)
         [x25; x50; x44; x46; x2d]
  /\ RoutesV2.getHistoryFile true "1"
       (ServerV2.mkDb None
          (Some (demo_history_v2
                   (String "206" (String "169" " report")))))
     = RoutesV2.Json 500 (RoutesV2.Error "Failed to retrieve file").
Proof.
  split; [|split].
  - apply (proj2 (proj2 (proj2 (proj2 X22_second_variant_file)))
             "Q1" (String " " (String " " (String "009" (String "010" ""))))
             "report");
      (reflexivity || discriminate).
  - apply (proj1 (proj2 X22_second_variant_file) "1" 1%Z
             (ServerV2.mkDb None
                (Some (demo_history_v2
                         ("Q1" ++ String " " (String "009" "") ++ "report"))))
             (demo_history_v2
                ("Q1" ++ String " " (String "009" "") ++ "report"))
             (HistoryV2.mkRow 1
                ("Q1" ++ String " " (String "009" "") ++ "report")
                "Asha" "ATS0123" (Some [x25; x50; x44; x46; x2d])
                "completed" 30)
             [x25; x50; x44; x46; x2d]);
      reflexivity.
  - apply (proj1 (proj2 X22_second_variant_file) "1" 1%Z
             (ServerV2.mkDb None
                (Some (demo_history_v2
                         (String "206" (String "169" " report")))))
             (demo_history_v2 (String "206" (String "169" " report")))
             (HistoryV2.mkRow 1 (String "206" (String "169" " report"))
                "Asha" "ATS0123" (Some [x25; x50; x44; x46; x2d])
                "completed" 30)
             [x25; x50; x44; x46; x2d]);
      reflexivity.
Defined.

Example replace_blank_run :
  Whitespace.replace
    (String "Q" (String "1" (String " " (String "009"
       (String "010" "report  final")))))
  = "Q1_report_final".
Proof. reflexivity. Qed.

(** U+00A0 and U+3000 are white space too. *)
Example replace_wide_blanks :
  Whitespace.replace
    (String "a" (String "194" (String "160" (String "227" (String "128"
       (String "128" "b"))))))
  = "a_b".
Proof. reflexivity. Qed.

(** U+00E9 is not: its bytes are copied. *)
Example replace_keeps_letters :
  Whitespace.replace (String "c" (String "195" (String "169" "!")))
  = String "c" (String "195" (String "169" "!")).
Proof. reflexivity. Qed.

Example dquote_is_code_34 :
  RoutesV2.dquote = String (ascii_of_nat 34) "".
Proof. reflexivity. Qed.

(* ================================================================== *)
(** * Values the store receives *)

Lemma local_char_plain (c : ascii) :
  Spec.is_local_char c = true -> is_plain c = true /\ is_unescaped c = true.
Proof. by_bits c. Qed.

Lemma digit_plain (c : ascii) :
  Spec.is_digit c = true -> is_plain c = true /\ is_unescaped c = true.
Proof. by_bits c. Qed.

Lemma escaped_unescaped (s : string) :
  Pg.every is_unescaped s = true -> Driver.escaped s = s.
Proof.
  induction s as [|c s IH]; cbn; [reflexivity|].
  intro H. apply andb_true_iff in H as [Hc Hs].
  unfold is_unescaped in Hc. apply negb_true_iff in Hc. rewrite Hc.
  now rewrite IH.
Qed.

Lemma char_length_app (a b : string) :
  Pg.char_length (a ++ b) = Pg.char_length a + Pg.char_length b.
Proof.
  induction a as [|c a IH]; cbn; [reflexivity|].
  destruct (Pg.is_continuation c); now rewrite IH.
Qed.

Lemma plain_facts (s : string) :
  Pg.every is_plain s = true ->
  Pg.text_ok s = true
  /\ Pg.every (fun c => negb (Pg.is_blank c)) s = true
  /\ Pg.char_length s = String.length s.
Proof.
  induction s as [|c s IH]; cbn; [now repeat split|].
  intro H. apply andb_true_iff in H as [Hc Hs].
  destruct (IH Hs) as (T & B & L).
  unfold is_plain in Hc. apply andb_true_iff in Hc as [Hc C].
  apply andb_true_iff in Hc as [Z Bc]. apply negb_true_iff in C.
  unfold Pg.text_ok in *. cbn [Pg.every]. rewrite Z, Bc, C, T, B, L.
  now repeat split.
Qed.

(** The strings the e-mail expression accepts are plain and need no
    escaping. *)
Lemma email_plain (s : string) :
  Regex.test emailRe s = true ->
  Pg.every is_plain s = true /\ Pg.every is_unescaped s = true.
Proof.
  intro H. apply emailRe_shape in H as (c0 & mid & cl & -> & L & A & C).
  pose proof (local_char_plain c0 (is_alnum_local c0 (is_letter_alnum c0 L)))
    as [P0 U0].
  pose proof (local_char_plain cl (is_alnum_local cl C)) as [Pl Ul].
  rewrite <- every_all_chars in A.
  assert (Pg.every is_plain mid = true) as Pm
    by (revert A; apply every_impl; intros c Hc;
        now apply local_char_plain in Hc).
  assert (Pg.every is_unescaped mid = true) as Um
    by (revert A; apply every_impl; intros c Hc;
        now apply local_char_plain in Hc).
  cbn [Pg.every]. rewrite !every_app. cbn [Pg.every].
  rewrite P0, U0, Pm, Um, Pl, Ul. now split.
Qed.

(** So are the employee ids the creation expression accepts, which have
    seven characters. *)
Lemma id_plain (s : string) :
  Regex.test empIdRe s = true ->
  Pg.every is_plain s = true /\ Pg.every is_unescaped s = true
  /\ String.length s = 7.
Proof.
  rewrite empIdRe_spec.
  destruct s as [|c1 [|c2 [|c3 [|z [|d1 [|d2 [|d3 [|]]]]]]]];
    try discriminate.
  unfold Spec.creation_id. intro H.
  repeat (apply andb_true_iff in H as [H ?]).
  repeat match goal with
         | E : Ascii.eqb _ _ = true |- _ => apply Ascii.eqb_eq in E; subst
         end.
  destruct (digit_plain d1) as [P1 U1]; [assumption|].
  destruct (digit_plain d2) as [P2 U2]; [assumption|].
  destruct (digit_plain d3) as [P3 U3]; [assumption|].
  cbn [Pg.every]. rewrite P1, P2, P3, U1, U2, U3. now repeat split.
Qed.

Lemma param_array (s : string) :
  param (Js.Arr [Js.Str s]) = Some (array_of s).
Proof.
  unfold param, Driver.prepareValue, array_of. cbn [Driver.text Js.ToString].
  cbn [append]. now rewrite append_empty.
Qed.

Lemma ToString_array (s : string) : Js.ToString (Js.Arr [Js.Str s]) = s.
Proof. cbn. apply append_empty. Qed.

(** The literal of a plain string that needs no escaping: the string
    between double quotes and braces, four characters more, none of them
    a blank. *)
Lemma array_of_plain (s : string) :
  Pg.every is_plain s = true -> Pg.every is_unescaped s = true ->
  array_of s
  = String "{" (String Driver.dquote (s ++ String Driver.dquote "}"))
  /\ Pg.every is_plain (array_of s) = true
  /\ String.length (array_of s) = String.length s + 4.
Proof.
  intros P U. unfold array_of, Driver.escapeElement.
  rewrite (escaped_unescaped s U). cbn [append].
  assert ((s ++ String Driver.dquote "") ++ "}"
          = s ++ String Driver.dquote "}")%string as ->
    by (clear; induction s as [|c s IH]; cbn; [reflexivity|now rewrite IH]).
  split; [reflexivity|]. split.
  - cbn [Pg.every]. rewrite every_app, P. reflexivity.
  - cbn [String.length]. rewrite length_append. cbn. lia.
Qed.

(** X23.  An array where a string is expected.  The checks of the handlers
    coerce a field to a string, so a one-element array is checked as the
    string it holds, while the driver sends it to the store as an array
    literal.  A one-element array that holds an accepted e-mail passes
    the e-mail check; what is sent is the e-mail between double quotes
    and braces, which the check would refuse, and when the request is
    stored that text is in the [email] column.  A one-element array that
    holds an accepted employee id passes the id check, but the eleven
    characters sent do not fit [VARCHAR(7)]: a request with such an id
    passes the checks and is answered 500, and nothing is stored. *)
Theorem X23_array_for_a_string {engine : Engine} :
  (forall s,
      Regex.test emailRe s = true ->
      Js.test emailRe (Js.Arr [Js.Str s]) = true
      /\ param (Js.Arr [Js.Str s])
         = Some (String "{" (String Driver.dquote
                               (s ++ String Driver.dquote "}")))
      /\ Regex.test emailRe
           (String "{" (String Driver.dquote (s ++ String Driver.dquote "}")))
         = false)
  /\ (forall b t1 t2 r s,
         TaskForm.email b = Js.Arr [Js.Str s] ->
         Regex.test emailRe s = true ->
         task_row_of b t1 t2 = Some r ->
         Task.email r
         = String "{" (String Driver.dquote (s ++ String Driver.dquote "}")))
  /\ (forall s,
         Regex.test empIdRe s = true ->
         Js.test empIdRe (Js.Arr [Js.Str s]) = true
         /\ varchar_column 7 (param (Js.Arr [Js.Str s])) = None)
  /\ (forall up b t1 t2 d s,
         task_request_valid b = true ->
         TaskForm.employeeId b = Js.Arr [Js.Str s] ->
         postTask up t1 t2 b d
         = (Json 500 (Error "Failed to save task"), d)).
Proof.
  assert (forall s,
         Regex.test empIdRe s = true ->
         varchar_column 7 (param (Js.Arr [Js.Str s])) = None) as Id.
  { intros s H. apply id_plain in H as (P & U & L).
    destruct (array_of_plain s P U) as (_ & Pa & La).
    apply plain_facts in Pa as (T & B & C).
    rewrite param_array. unfold varchar_column, and_then. rewrite T.
    apply varchar_too_long; [exact B|]. rewrite C, La, L. lia. }
  split; [|split; [|split]].
  - intros s H. destruct (email_plain s H) as [P U].
    destruct (array_of_plain s P U) as (E & _).
    split; [unfold Js.test; now rewrite ToString_array|].
    split; [rewrite param_array; now rewrite E|].
    destruct (Regex.test emailRe (String "{" _)) eqn:X; [|reflexivity].
    apply emailRe_shape in X as (c0 & mid & cl & Eq & L & _).
    injection Eq as <- _. discriminate L.
  - intros b t1 t2 r s Eb H R.
    destruct (email_plain s H) as [P U].
    destruct (array_of_plain s P U) as (E & Pa & _).
    apply plain_facts in Pa as (T & B & _).
    apply task_row_of_columns in R as (_ & _ & _ & _ & Em & _).
    rewrite Eb, param_array in Em. unfold varchar_column, and_then in Em.
    rewrite T in Em. apply (varchar_no_blank 100 _ _ B) in Em.
    now rewrite Em, E.
  - intros s H. split; [unfold Js.test; now rewrite ToString_array|].
    now apply Id.
  - intros up b t1 t2 d s V Eb.
    pose proof (task_request_valid_checks b V) as (_ & _ & I).
    rewrite Eb in I. unfold Js.test in I. rewrite ToString_array in I.
    rewrite (postTask_valid up t1 t2 b d V).
    assert (task_row_of b t1 t2 = None) as ->.
    { unfold task_row_of, task_row. rewrite Eb, (Id s I). unfold and_then.
      repeat match goal with
             | |- context [match ?x with Some _ => _ | None => _ end] =>
                 destruct x; try reflexivity
             end. }
    destruct up; [|reflexivity]. now destruct (tasks d).
Qed.

(** The request of the example store with its e-mail in an array is
    stored; with its employee id in an array it is refused. *)
Lemma X23_array_for_a_string_witness :
  (exists r d',
      postTask true 1700000000003 40
        (TaskForm.mkBody (Js.Str "Payroll") (Js.Str "Asha") (Js.Str "ATS0123")
           (Js.Arr [Js.Str "asha@astrolitetech.com"]) (Js.Str "Run payroll")
           (Js.Str "2024-02-01") (Js.Str "2024-02-05") Js.Undefined)
        demo_db
      = (Json 200 (ATask r), d')
      /\ Task.email r
         = String "{" (String Driver.dquote
                         ("asha@astrolitetech.com"
                          ++ String Driver.dquote "}")))
  /\ postTask true 1700000000003 40
       (TaskForm.mkBody (Js.Str "Payroll") (Js.Str "Asha")
          (Js.Arr [Js.Str "ATS0123"]) (Js.Str "asha@astrolitetech.com")
          (Js.Str "Run payroll") (Js.Str "2024-02-01") (Js.Str "2024-02-05")
          Js.Undefined)
       demo_db
     = (Json 500 (Error "Failed to save task"), demo_db).
Proof.
  split.
  - eexists. eexists. split; [reflexivity|].
    apply (proj1 (proj2 X23_array_for_a_string)
             (TaskForm.mkBody (Js.Str "Payroll") (Js.Str "Asha")
                (Js.Str "ATS0123") (Js.Arr [Js.Str "asha@astrolitetech.com"])
                (Js.Str "Run payroll") (Js.Str "2024-02-01")
                (Js.Str "2024-02-05") Js.Undefined)
             1700000000003%Z 40%Z _ "asha@astrolitetech.com");
      reflexivity.
  - apply (proj2 (proj2 (proj2 X23_array_for_a_string)) true _ _ _ _
             "ATS0123");
      reflexivity.
Defined.

Lemma varchar_column_refuses (n : nat) (v : Js.value) (s : string) :
  v = Js.Str s -> Pg.varchar n s = None ->
  varchar_column n (param v) = None.
Proof.
  intros -> N. change (param (Js.Str s)) with (Some s).
  unfold varchar_column, and_then. rewrite N. now destruct (Pg.text_ok s).
Qed.

Lemma date_column_refuses {engine : Engine} (v : Js.value) (s : string) :
  v = Js.Str s -> date_in s = None -> date_column (param v) = None.
Proof.
  intros -> N. change (param (Js.Str s)) with (Some s).
  unfold date_column, and_then. rewrite N. now destruct (Pg.text_ok s).
Qed.

(** X24.  What the store refuses.  A request to [POST /api/tasks] that
    passes the checks of the handler is answered 500 "Failed to save task",
    and nothing is stored, when a column of [tasks] refuses its value.
    That is the case for a task name, an employee name or an e-mail that
    [VARCHAR(100)] refuses, for a status that [VARCHAR(20)] refuses, and
    for a date the engine does not read; a [VARCHAR(n)] column refuses
    every text of more than [n] characters without blanks.  A request to
    [POST /api/task-history] that passes the checks and whose values
    [task_history] refuses is answered 500 as well, and no record is
    stored. *)
Theorem X24_column_refusals {engine : Engine} :
  (forall up b t1 t2 d,
      task_request_valid b = true ->
      task_row_of b t1 t2 = None ->
      postTask up t1 t2 b d = (Json 500 (Error "Failed to save task"), d))
  /\ (forall b t1 t2 s,
         TaskForm.taskName b = Js.Str s
         \/ TaskForm.employeeName b = Js.Str s
         \/ TaskForm.email b = Js.Str s ->
         Pg.varchar 100 s = None ->
         task_row_of b t1 t2 = None)
  /\ (forall b t1 t2 s,
         TaskForm.status b = Js.Str s ->
         s <> "" ->
         Pg.varchar 20 s = None ->
         task_row_of b t1 t2 = None)
  /\ (forall b t1 t2 s,
         TaskForm.allocatedDate b = Js.Str s
         \/ TaskForm.deadline b = Js.Str s ->
         date_in s = None ->
         task_row_of b t1 t2 = None)
  /\ (forall n s,
         Pg.every (fun c => negb (Pg.is_blank c)) s = true ->
         n < Pg.char_length s ->
         Pg.varchar n s = None)
  /\ (forall up b now file d,
         history_request_valid b = true ->
         (forall t, task_history d = Some t ->
                    history_row_of b file (tbl_serial t) now = None) ->
         code_of (fst (postTaskHistory up now b file d)) = 500
         /\ option_map tbl_rows (task_history (snd (postTaskHistory up now b
                                                      file d)))
            = option_map tbl_rows (task_history d)).
Proof.
  split; [|split; [|split; [|split; [|split]]]].
  - intros up b t1 t2 d V N. rewrite (postTask_valid up t1 t2 b d V), N.
    destruct up; [|reflexivity]. now destruct (tasks d).
  - intros b t1 t2 s [E|[E|E]] N;
      pose proof (varchar_column_refuses 100 _ s E N) as C; refused.
  - intros b t1 t2 s E Ne N.
    assert (Js.or (TaskForm.status b) (Js.Str "assigned") = Js.Str s) as O.
    { rewrite E. unfold Js.or. cbn [Js.truthy].
      now destruct (String.eqb_spec s ""). }
    pose proof (varchar_column_refuses 20 _ s O N) as C. refused.
  - intros b t1 t2 s [E|E] N;
      pose proof (date_column_refuses _ s E N) as C; refused.
  - apply varchar_too_long.
  - intros up b now file d V N.
    rewrite (postTaskHistory_valid up now b file d V).
    destruct up; [|now split].
    pose proof (insert_history_store
                  (param (HistoryForm.taskName b))
                  (param (HistoryForm.employeeName b))
                  (param (HistoryForm.employeeId b))
                  (param (HistoryForm.email b))
                  (param (HistoryForm.description b)) file
                  (param (HistoryForm.taskStatus b)) now d) as St.
    destruct (insert_history _ _ _ _ _ _ _ _ _) as [[v|] d'] eqn:Ins.
    + apply insert_history_some in Ins as (t & r & T & _ & R & _).
      specialize (N t T). unfold history_row_of in N. congruence.
    + split; [reflexivity|]. cbn [snd] in *.
      destruct St as [->|[(t & T & _ & ->)|(t & r & T & _ & R & _)]].
      * reflexivity.
      * now rewrite T.
      * specialize (N t T). unfold history_row_of in N. congruence.
Qed.

(** A task name of 101 letters, and a deadline that is no date. *)
Lemma X24_column_refusals_witness :
  postTask true 1700000000003 40
    (TaskForm.mkBody (Js.Str (letters 101)) (Js.Str "Asha") (Js.Str "ATS0123")
       (Js.Str "asha@astrolitetech.com") (Js.Str "Run payroll")
       (Js.Str "2024-02-01") (Js.Str "2024-02-05") Js.Undefined)
    demo_db
  = (Json 500 (Error "Failed to save task"), demo_db)
  /\ postTask true 1700000000003 40
       (TaskForm.mkBody (Js.Str "Payroll") (Js.Str "Asha") (Js.Str "ATS0123")
          (Js.Str "asha@astrolitetech.com") (Js.Str "Run payroll")
          (Js.Str "2024-02-01") (Js.Str "next week") Js.Undefined)
       demo_db
     = (Json 500 (Error "Failed to save task"), demo_db).
Proof.
  split.
  - apply (proj1 X24_column_refusals); [reflexivity|].
    apply (proj1 (proj2 X24_column_refusals) _ _ _ (letters 101));
      [now left|].
    apply (proj1 (proj2 (proj2 (proj2 (proj2 X24_column_refusals))))).
    + apply no_blank_letters.
    + rewrite char_length_letters. lia.
  - apply (proj1 X24_column_refusals); [reflexivity|].
    apply (proj1 (proj2 (proj2 (proj2 X24_column_refusals))) _ _ _
             "next week");
      [now right|reflexivity].
Defined.

